(** * CRM-AI: webhook ingestion, call-state reconciliation, outbound retries
      and the metrics cache

    A shallow embedding of
      - [webhooks/events.py]   (WebhookEventProcessor and the handlers),
      - [webhooks/handlers.py] (WebhookManager: delivery attempts and retries),
      - [validation/phone_validator.py] (PhoneValidator),
      - [database/models.py] and [database/connection.py] (the mapped
        classes, DatabaseManager.get_db_session and get_or_create_customer),
      - [monitoring/metrics.py] and [monitoring/collectors.py] (the TTL caches,
        the duration distribution and the real-time figures),
    followed by the properties of the specification that concern them, and
    by further properties of the same code.

    Modelling conventions.
      - Python values that come out of a JSON payload are values of [json];
        [None] is [JNull].  Numbers are integers.
      - A [datetime] is a number of microseconds ([Z]) counted from
        1970-01-01; a [timedelta] is a difference of two of them.
        [total_seconds] is the exact number of seconds, of which Python
        has the nearest float.
      - A table is the list of its rows in insertion order; a query
        [filter(...).first()] is the first matching row.
      - A database session has a committed store and a pending one.  Every
        operation that talks to the database consumes one entry of a fault
        schedule and raises when that entry is [true].
      - A row has the columns that [models.py] maps.  The constructor of a
        mapped class raises [TypeError] on a keyword that is not one of its
        attributes, and an assignment to a name that is not mapped makes a
        plain attribute of the Python object, which no flush writes.
      - [self.<name>] on a [WebhookEventProcessor] finds what the body of
        the class binds.  From [_handle_call_completed] on, [events.py]
        defines its functions at module level, with a [self] parameter:
        they are functions of the module, and [self.<name>] does not find
        them.
      - What [events.py] calls and the repository defines nowhere
        ([_upsert_customer], [_log_webhook], [_update_webhook_log], the two
        recorders of the metrics collector) is a parameter that may raise,
        see [EventsEnv]; in the repository as it is, each of them raises. *)

From Stdlib Require Import ZArith QArith String List Bool Lia.
From stdpp Require Import gmap strings list.
Import ListNotations.

Local Open Scope string_scope.
Local Open Scope Z_scope.
Local Open Scope list_scope.

(** ** Python values *)

#[local] Set Warnings "-register-all".

Inductive json : Type :=
| JNull
| JBool (b : bool)
| JNum (n : Z)
| JStr (s : string)
| JArr (items : list json)
| JObj (fields : list (string * json)).

(** Python truthiness ([if x:], [not x], [x or y]). *)
Definition truthy (v : json) : bool :=
  match v with
  | JNull => false
  | JBool b => b
  | JNum n => negb (n =? 0)
  | JStr s => negb (String.eqb s "")
  | JArr items => match items with [] => false | _ :: _ => true end
  | JObj fields => match fields with [] => false | _ :: _ => true end
  end.

(** [a or b] *)
Definition py_or (a b : json) : json := if truthy a then a else b.

(** [isinstance(v, str)] *)
Definition is_str (v : json) : option string :=
  match v with JStr s => Some s | _ => None end.

(** Structural equality of values, used for [column == value] filters. *)
Fixpoint json_eqb (a b : json) {struct a} : bool :=
  match a, b with
  | JNull, JNull => true
  | JBool x, JBool y => Bool.eqb x y
  | JNum x, JNum y => Z.eqb x y
  | JStr x, JStr y => String.eqb x y
  | JArr xs, JArr ys =>
      (fix go (xs ys : list json) {struct xs} : bool :=
         match xs, ys with
         | [], [] => true
         | x :: xs', y :: ys' => json_eqb x y && go xs' ys'
         | _, _ => false
         end) xs ys
  | JObj xs, JObj ys =>
      (fix go (xs ys : list (string * json)) {struct xs} : bool :=
         match xs, ys with
         | [], [] => true
         | (k, x) :: xs', (k', y) :: ys' =>
             String.eqb k k' && json_eqb x y && go xs' ys'
         | _, _ => false
         end) xs ys
  | _, _ => false
  end.

(** A [dict] with string keys, as the list of its items. *)
Definition dict : Type := list (string * json).

(** [k in d] *)
Fixpoint dict_mem (k : string) (d : dict) : bool :=
  match d with
  | [] => false
  | (k', _) :: d' => if String.eqb k k' then true else dict_mem k d'
  end.

(** [d.get(k, default)] *)
Fixpoint dict_get_default (k : string) (default : json) (d : dict) : json :=
  match d with
  | [] => default
  | (k', v) :: d' => if String.eqb k k' then v else dict_get_default k default d'
  end.

(** [d.get(k)] *)
Definition dict_get (k : string) (d : dict) : json := dict_get_default k JNull d.

(** [d[k] = v]: replaces the value of an existing key in place, appends a
    new key. *)
Fixpoint dict_set (k : string) (v : json) (d : dict) : dict :=
  match d with
  | [] => [(k, v)]
  | (k', v') :: d' =>
      if String.eqb k k' then (k', v) :: d' else (k', v') :: dict_set k v d'
  end.

(** [s[:n]] *)
Fixpoint str_prefix (n : nat) (s : string) : string :=
  match n, s with
  | S n', String c s' => String c (str_prefix n' s')
  | _, _ => EmptyString
  end.

(** ** Time *)

(** A [datetime], in microseconds from 1970-01-01T00:00:00. *)
Abbreviation datetime := Z (only parsing).

Definition MICROS : Z := 1000000.

(** [timedelta(seconds=n)] *)
Definition timedelta_seconds (n : Z) : Z := n * MICROS.

(** [td.total_seconds()], as the exact number of seconds; Python
    returns the float nearest to it.  The code compares it with a whole
    number of seconds, or hands it on: for a [timedelta], which counts
    whole microseconds, the comparison of the float and that of the
    rational agree. *)
Definition total_seconds (td : Z) : Q := Qmake td 1000000.

(** [td.seconds]: the seconds field of the normalised timedelta
    (days, seconds, microseconds), with [0 <= seconds < 86400]. *)
Definition timedelta_seconds_field (td : Z) : Z := (td / MICROS) mod 86400.


(** [datetime.min] and [datetime.max]: 0001-01-01T00:00:00 and
    9999-12-31T23:59:59.999999. *)
Definition DATETIME_MIN : Z := -62135596800 * MICROS.
Definition DATETIME_MAX : Z := 253402300800 * MICROS - 1.

(** [timedelta.min] and [timedelta.max]: 999999999 days either way. *)
Definition TIMEDELTA_MIN : Z := -999999999 * 86400 * MICROS.
Definition TIMEDELTA_MAX : Z := (999999999 + 1) * 86400 * MICROS - 1.

Definition datetime_in_range (t : Z) : bool := (DATETIME_MIN <=? t) && (t <=? DATETIME_MAX).

Definition timedelta_in_range (td : Z) : bool := (TIMEDELTA_MIN <=? td) && (td <=? TIMEDELTA_MAX).

(** [timedelta(days=n)]; [None]: [OverflowError] *)
Definition py_timedelta_days (n : Z) : option Z :=
  let td := n * 86400 * MICROS in
  if timedelta_in_range td then Some td else None.

(** [t - td] for a [datetime] [t]; [None]: [OverflowError] *)
Definition datetime_sub (t td : Z) : option Z :=
  if datetime_in_range (t - td) then Some (t - td) else None.

(** ** validation/phone_validator.py *)

(** The [phonenumbers] library, an external collaborator. *)

Inductive PhoneNumberFormat : Type := E164 | INTERNATIONAL | NATIONAL.

Inductive PhoneNumberType : Type :=
| FIXED_LINE | MOBILE | FIXED_LINE_OR_MOBILE | TOLL_FREE | PREMIUM_RATE
| SHARED_COST | VOIP | PERSONAL_NUMBER | PAGER | UAN | VOICEMAIL
| UNKNOWN | OTHER_TYPE.

(** Outcome of [phonenumbers.parse]: a parsed number, a
    [NumberParseException] or another exception, with its message. *)
Inductive parse_outcome (P : Type) : Type :=
| Parsed (p : P)
| NumberParseException (msg : string)
| OtherException (msg : string).
Arguments Parsed {P} p.
Arguments NumberParseException {P} msg.
Arguments OtherException {P} msg.

Class PhoneNumbers : Type := {
  parsed_number : Type;
  (** [phonenumbers.parse(phone_number, region_code)] *)
  phonenumbers_parse : json -> string -> parse_outcome parsed_number;
  is_valid_number : parsed_number -> bool;
  format_number : parsed_number -> PhoneNumberFormat -> string;
  country_code : parsed_number -> Z;
  region_code_for_number : parsed_number -> json;
  (** the four look-ups below may raise: [None] *)
  carrier_name_for_number : parsed_number -> option json;
  geocoder_description_for_number : parsed_number -> option json;
  time_zones_for_number : parsed_number -> option (list string);
  number_type : parsed_number -> option PhoneNumberType
}.

Section PhoneValidator.
Context `{PhoneNumbers}.

(** [PhoneValidator.__init__]: [default_region = "US"] *)
Definition default_region : string := "US".

Definition _get_number_type_string (t : PhoneNumberType) : string :=
  match t with
  | FIXED_LINE => "fixed_line"
  | MOBILE => "mobile"
  | FIXED_LINE_OR_MOBILE => "fixed_line_or_mobile"
  | TOLL_FREE => "toll_free"
  | PREMIUM_RATE => "premium_rate"
  | SHARED_COST => "shared_cost"
  | VOIP => "voip"
  | PERSONAL_NUMBER => "personal_number"
  | PAGER => "pager"
  | UAN => "uan"
  | VOICEMAIL => "voicemail"
  | UNKNOWN => "unknown"
  | OTHER_TYPE => "unknown"
  end.

(** The [result] dictionary before validation. *)
Definition validation_result_init : dict :=
  [ ("is_valid", JBool false);
    ("formatted_national", JNull);
    ("formatted_international", JNull);
    ("formatted_e164", JNull);
    ("country_code", JNull);
    ("region", JNull);
    ("carrier", JNull);
    ("location", JNull);
    ("timezone", JNull);
    ("number_type", JNull);
    ("error", JNull) ].

Definition or_null (o : option json) : json :=
  match o with Some v => v | None => JNull end.

(** [PhoneValidator.validate_phone_number(phone_number, region)]; always
    returns the [result] dictionary. *)
Definition validate_phone_number (phone_number : json) (region : option string) : json :=
  let result := validation_result_init in
  let region_code :=
    match region with
    | Some r => if String.eqb r "" then default_region else r
    | None => default_region
    end in
  match phonenumbers_parse phone_number region_code with
  | Parsed parsed =>
      if is_valid_number parsed then
        let result := dict_set "is_valid" (JBool true) result in
        let result := dict_set "formatted_national" (JStr (format_number parsed NATIONAL)) result in
        let result := dict_set "formatted_international" (JStr (format_number parsed INTERNATIONAL)) result in
        let result := dict_set "formatted_e164" (JStr (format_number parsed E164)) result in
        let result := dict_set "country_code" (JNum (country_code parsed)) result in
        let result := dict_set "region" (region_code_for_number parsed) result in
        let result := dict_set "carrier" (or_null (carrier_name_for_number parsed)) result in
        let result := dict_set "location" (or_null (geocoder_description_for_number parsed)) result in
        let result :=
          dict_set "timezone"
            (match time_zones_for_number parsed with
             | Some (tz :: tzs) => JArr (map JStr (tz :: tzs))
             | _ => JNull
             end) result in
        let result :=
          dict_set "number_type"
            (match number_type parsed with
             | Some t => JStr (_get_number_type_string t)
             | None => JNull
             end) result in
        JObj result
      else
        JObj (dict_set "error" (JStr "Invalid phone number") result)
  | NumberParseException msg =>
      JObj (dict_set "error" (JStr ("Parse error: " +:+ msg)) result)
  | OtherException msg =>
      JObj (dict_set "error" (JStr ("Validation error: " +:+ msg)) result)
  end.

(** [PhoneValidator.format_for_dialing]: the E.164 string, or [None]. *)
Definition format_for_dialing (phone_number : json) (region : option string) : json :=
  match validate_phone_number phone_number region with
  | JObj validation_result =>
      if truthy (dict_get "is_valid" validation_result)
      then dict_get "formatted_e164" validation_result
      else JNull
  | _ => JNull
  end.

End PhoneValidator.

(** ** database/models.py

    The rows of the tables, with the columns of the mapped classes.  A
    column that was never assigned is [JNull] / [None].  Left out are the
    columns that the database fills by itself and that no modelled code
    reads: [id] and [timestamp] of [call_events], [id] of [webhook_logs],
    and the [created_at] / [updated_at] stamps of [customers] and
    [webhook_logs].  An attribute of a pending object holds whatever Python
    value was assigned to it. *)

Module CallLog.

(** A row of [call_logs]. *)
Record t : Type := mk {
  id : nat;
  call_id : json;
  room_name : json;
  dispatch_id : json;
  customer_id : json;
  customer_name : json;
  customer_phone : json;
  customer_email : json;
  customer_query : json;
  status : string;
  call_started_at : option datetime;
  call_connected_at : option datetime;
  call_ended_at : option datetime;
  duration_seconds : option Z;
  participant_identity : json;
  call_metadata : json
}.

Definition set_status (v : string) (c : t) : t :=
  {| id := id c;
     call_id := call_id c;
     room_name := room_name c;
     dispatch_id := dispatch_id c;
     customer_id := customer_id c;
     customer_name := customer_name c;
     customer_phone := customer_phone c;
     customer_email := customer_email c;
     customer_query := customer_query c;
     status := v;
     call_started_at := call_started_at c;
     call_connected_at := call_connected_at c;
     call_ended_at := call_ended_at c;
     duration_seconds := duration_seconds c;
     participant_identity := participant_identity c;
     call_metadata := call_metadata c |}.

Definition set_call_started_at (v : option datetime) (c : t) : t :=
  {| id := id c;
     call_id := call_id c;
     room_name := room_name c;
     dispatch_id := dispatch_id c;
     customer_id := customer_id c;
     customer_name := customer_name c;
     customer_phone := customer_phone c;
     customer_email := customer_email c;
     customer_query := customer_query c;
     status := status c;
     call_started_at := v;
     call_connected_at := call_connected_at c;
     call_ended_at := call_ended_at c;
     duration_seconds := duration_seconds c;
     participant_identity := participant_identity c;
     call_metadata := call_metadata c |}.

Definition set_call_ended_at (v : option datetime) (c : t) : t :=
  {| id := id c;
     call_id := call_id c;
     room_name := room_name c;
     dispatch_id := dispatch_id c;
     customer_id := customer_id c;
     customer_name := customer_name c;
     customer_phone := customer_phone c;
     customer_email := customer_email c;
     customer_query := customer_query c;
     status := status c;
     call_started_at := call_started_at c;
     call_connected_at := call_connected_at c;
     call_ended_at := v;
     duration_seconds := duration_seconds c;
     participant_identity := participant_identity c;
     call_metadata := call_metadata c |}.

(** The attributes of the mapped class: its columns and its two
    relationships. *)
Definition attributes : list string :=
  [ "id"; "call_id"; "room_name"; "dispatch_id"; "customer_id"; "customer_name";
    "customer_phone"; "customer_email"; "customer_query"; "status"; "call_started_at";
    "call_connected_at"; "call_ended_at"; "duration_seconds"; "participant_identity";
    "call_metadata"; "customer"; "events" ].

End CallLog.

(** [call_log.<name> = v] for a name that [CallLog] does not map
    ([updated_at], [duration], [recording_url], [recording_duration],
    [transcript_url], [error_details]): an attribute of the Python object,
    which is in no row. *)
Definition set_unmapped {V : Type} (name : string) (v : V) (c : CallLog.t) : CallLog.t := c.

Module CallEvent.

(** A row of [call_events]. *)
Record t : Type := mk {
  call_id : json;
  event_type : json;
  event_data : json
}.

(** The attributes of the mapped class: its columns and its relationship. *)
Definition attributes : list string :=
  [ "id"; "call_id"; "event_type"; "event_data"; "timestamp"; "call" ].

End CallEvent.

Module Customer.

(** A row of [customers]. *)
Record t : Type := mk {
  id : nat;
  name : json;
  phone : json;
  email : json
}.

End Customer.

Module WebhookLog.

(** A row of [webhook_logs]. *)
Record t : Type := mk {
  webhook_id : string;
  call_id : json;
  event_type : json;
  payload : json;
  status_code : option Z;
  response_body : option string;
  retry_count : Z;
  max_retries : Z;
  next_retry_at : option datetime;
  delivered : bool
}.

Definition set_status_code (v : option Z) (w : t) : t :=
  {| webhook_id := webhook_id w;
     call_id := call_id w;
     event_type := event_type w;
     payload := payload w;
     status_code := v;
     response_body := response_body w;
     retry_count := retry_count w;
     max_retries := max_retries w;
     next_retry_at := next_retry_at w;
     delivered := delivered w |}.

Definition set_response_body (v : option string) (w : t) : t :=
  {| webhook_id := webhook_id w;
     call_id := call_id w;
     event_type := event_type w;
     payload := payload w;
     status_code := status_code w;
     response_body := v;
     retry_count := retry_count w;
     max_retries := max_retries w;
     next_retry_at := next_retry_at w;
     delivered := delivered w |}.

Definition set_retry_count (v : Z) (w : t) : t :=
  {| webhook_id := webhook_id w;
     call_id := call_id w;
     event_type := event_type w;
     payload := payload w;
     status_code := status_code w;
     response_body := response_body w;
     retry_count := v;
     max_retries := max_retries w;
     next_retry_at := next_retry_at w;
     delivered := delivered w |}.

Definition set_next_retry_at (v : option datetime) (w : t) : t :=
  {| webhook_id := webhook_id w;
     call_id := call_id w;
     event_type := event_type w;
     payload := payload w;
     status_code := status_code w;
     response_body := response_body w;
     retry_count := retry_count w;
     max_retries := max_retries w;
     next_retry_at := v;
     delivered := delivered w |}.

Definition set_delivered (v : bool) (w : t) : t :=
  {| webhook_id := webhook_id w;
     call_id := call_id w;
     event_type := event_type w;
     payload := payload w;
     status_code := status_code w;
     response_body := response_body w;
     retry_count := retry_count w;
     max_retries := max_retries w;
     next_retry_at := next_retry_at w;
     delivered := v |}.

End WebhookLog.

(** The database: its four tables. *)
Record Store : Type := mkStore {
  calls : list CallLog.t;
  events : list CallEvent.t;
  customers : list Customer.t;
  webhook_logs : list WebhookLog.t
}.

Definition set_calls (v : list CallLog.t) (s : Store) : Store :=
  {| calls := v; events := events s; customers := customers s; webhook_logs := webhook_logs s |}.

Definition set_events (v : list CallEvent.t) (s : Store) : Store :=
  {| calls := calls s; events := v; customers := customers s; webhook_logs := webhook_logs s |}.

Definition set_customers (v : list Customer.t) (s : Store) : Store :=
  {| calls := calls s; events := events s; customers := v; webhook_logs := webhook_logs s |}.

Definition set_webhook_logs (v : list WebhookLog.t) (s : Store) : Store :=
  {| calls := calls s; events := events s; customers := customers s; webhook_logs := v |}.

(** [db.query(CallLog).filter(CallLog.call_id == cid).first()] *)
Fixpoint find_call (cid : json) (tbl : list CallLog.t) : option CallLog.t :=
  match tbl with
  | [] => None
  | c :: tbl' => if json_eqb (CallLog.call_id c) cid then Some c else find_call cid tbl'
  end.

(** Assignments to the attributes of the row that [find_call] returned. *)
Fixpoint update_call (cid : json) (f : CallLog.t -> CallLog.t) (tbl : list CallLog.t) : list CallLog.t :=
  match tbl with
  | [] => []
  | c :: tbl' =>
      if json_eqb (CallLog.call_id c) cid then f c :: tbl' else c :: update_call cid f tbl'
  end.

(** ** database/connection.py: sessions *)

Inductive outcome (A : Type) : Type :=
| Returned (a : A)
| Raised.
Arguments Returned {A} a.
Arguments Raised {A}.

(** A session: what is committed, what the session sees, and the outcomes
    of the database operations still to come ([true]: the operation
    raises). *)
Record Session : Type := mkSession {
  committed : Store;
  pending : Store;
  faults : list bool
}.

(** Code that runs against a session and returns or raises. *)
Definition M (A : Type) : Type := Session -> outcome A * Session.

Definition ret {A : Type} (a : A) : M A := fun ss => (Returned a, ss).

Definition raise {A : Type} : M A := fun ss => (Raised, ss).

Definition bind {A B : Type} (m : M A) (k : A -> M B) : M B :=
  fun ss =>
    match m ss with
    | (Returned a, ss') => k a ss'
    | (Raised, ss') => (Raised, ss')
    end.

(** [try: m  except Exception: h] *)
Definition try_except {A : Type} (m : M A) (h : M A) : M A :=
  fun ss =>
    match m ss with
    | (Returned a, ss') => (Returned a, ss')
    | (Raised, ss') => h ss'
    end.

Declare Scope session_scope.
Delimit Scope session_scope with session.
Notation "x <- c1 ;; c2" := (bind c1 (fun x => c2))
  (at level 100, c1 at next level, right associativity) : session_scope.
Notation "c1 ;; c2" := (bind c1 (fun _ => c2))
  (at level 100, right associativity) : session_scope.
Local Open Scope session_scope.

(** One round trip to the database. *)
Definition db_io : M unit :=
  fun ss =>
    match faults ss with
    | [] => (Returned tt, ss)
    | f :: fl =>
        let ss' := {| committed := committed ss; pending := pending ss; faults := fl |} in
        if f then (Raised, ss') else (Returned tt, ss')
    end.

Definition get_pending : M Store := fun ss => (Returned (pending ss), ss).

Definition modify_pending (f : Store -> Store) : M unit :=
  fun ss =>
    (Returned tt,
     {| committed := committed ss; pending := f (pending ss); faults := faults ss |}).

(** [db.commit()] *)
Definition db_commit : M unit :=
  db_io ;;
  fun ss => (Returned tt,
             {| committed := pending ss; pending := pending ss; faults := faults ss |}).

(** [db.rollback()] *)
Definition db_rollback : M unit :=
  fun ss => (Returned tt,
             {| committed := committed ss; pending := committed ss; faults := faults ss |}).

(** [db.close()]: what was not committed is gone. *)
Definition db_close : M unit := db_rollback.

(** [DatabaseManager.get_db_session], around the body of the [with]:
    commit when the body ends (also by [return]), roll back and re-raise
    when it raises, close in both cases. *)
Definition get_db_session {A : Type} (body : M A) : M A :=
  fun ss =>
    match body ss with
    | (Returned a, ss1) =>
        match db_commit ss1 with
        | (Returned _, ss2) => (Returned a, snd (db_close ss2))
        | (Raised, ss2) => (Raised, snd (db_close (snd (db_rollback ss2))))
        end
    | (Raised, ss1) => (Raised, snd (db_close (snd (db_rollback ss1))))
    end.

(** [db.query(CallLog).filter(CallLog.call_id == cid).first()] *)
Definition query_call (cid : json) : M (option CallLog.t) :=
  db_io ;;
  s <- get_pending ;;
  ret (find_call cid (calls s)).

(** [db.add(call_log)]; the row gets the next identifier. *)
Definition db_add_call (mk : nat -> CallLog.t) : M unit :=
  modify_pending (fun s => set_calls (calls s ++ [mk (S (length (calls s)))]) s).

(** [db.add(call_event)] *)
Definition db_add_event (e : CallEvent.t) : M unit :=
  modify_pending (fun s => set_events (events s ++ [e]) s).

(** Assignments to the attributes of the queried [call_log]. *)
Definition assign_call (cid : json) (f : CallLog.t -> CallLog.t) : M unit :=
  modify_pending (fun s => set_calls (update_call cid f (calls s)) s).

(** [v.get(k)] on a payload value: raises unless [v] is a [dict]. *)
Definition py_get (v : json) (k : string) : M json :=
  match v with
  | JObj d => ret (dict_get k d)
  | _ => raise
  end.

(** [v.get(k1) or v.get(k2)] *)
Definition py_get_or (v : json) (k1 k2 : string) : M json :=
  match v with
  | JObj d => ret (py_or (dict_get k1 d) (dict_get k2 d))
  | _ => raise
  end.

(** The constructor of a mapped class, [Class(k=v, ...)]: a keyword that is
    not an attribute of the class raises [TypeError]; [row] is the object
    with the keywords assigned. *)
Definition declarative_init {R : Type} (attributes keywords : list string) (row : R) : M R :=
  if forallb (fun k => existsb (String.eqb k) attributes) keywords then ret row else raise.

(** ** webhooks/events.py *)

(** [EventType]: the values of the enumeration. *)
Definition CALL_INITIATED : string := "call.initiated".
Definition CALL_CONNECTED : string := "call.connected".
Definition CALL_ANSWERED : string := "call.answered".
Definition CALL_COMPLETED : string := "call.completed".
Definition CALL_FAILED : string := "call.failed".
Definition CALL_CANCELLED : string := "call.cancelled".
Definition CALL_NO_ANSWER : string := "call.no_answer".
Definition CALL_BUSY : string := "call.busy".
Definition RECORDING_READY : string := "recording.ready".
Definition TRANSCRIPT_READY : string := "transcript.ready".
Definition PARTICIPANT_JOINED : string := "participant.joined".
Definition PARTICIPANT_LEFT : string := "participant.left".
Definition ERROR_OCCURRED : string := "error.occurred".

(** [WebhookEvent] *)
Record WebhookEvent : Type := mkWebhookEvent {
  event_type : json;
  call_id : json;
  timestamp : datetime;
  data : json;
  source : string
}.

(** The functions that [__init__] names in the [event_handlers] table. *)
Inductive Handler : Type :=
| handle_call_initiated | handle_call_connected | handle_call_answered
| handle_call_completed | handle_call_failed | handle_call_cancelled
| handle_call_no_answer | handle_call_busy | handle_recording_ready
| handle_transcript_ready | handle_participant_joined
| handle_participant_left | handle_error_occurred.

Definition handler_name (h : Handler) : string :=
  match h with
  | handle_call_initiated => "_handle_call_initiated"
  | handle_call_connected => "_handle_call_connected"
  | handle_call_answered => "_handle_call_answered"
  | handle_call_completed => "_handle_call_completed"
  | handle_call_failed => "_handle_call_failed"
  | handle_call_cancelled => "_handle_call_cancelled"
  | handle_call_no_answer => "_handle_call_no_answer"
  | handle_call_busy => "_handle_call_busy"
  | handle_recording_ready => "_handle_recording_ready"
  | handle_transcript_ready => "_handle_transcript_ready"
  | handle_participant_joined => "_handle_participant_joined"
  | handle_participant_left => "_handle_participant_left"
  | handle_error_occurred => "_handle_error_occurred"
  end.

(** The names that the body of [class WebhookEventProcessor] binds (lines
    49 to 226 of [events.py]).  [_handle_call_completed] and all that
    follows it in the file is defined at module level. *)
Definition WebhookEventProcessor_namespace : list string :=
  [ "__init__"; "process_webhook"; "_parse_webhook_event"; "_process_event";
    "_handle_call_initiated"; "_handle_call_connected"; "_handle_call_answered" ].

(** [self.<name>] on a processor, for a name that is not an attribute of
    the instance: what the class binds, or [AttributeError]. *)
Definition self_attr {A : Type} (name : string) (bound : M A) : M A :=
  if existsb (String.eqb name) WebhookEventProcessor_namespace then bound else raise.

(** The dictionary display of [WebhookEventProcessor.__init__], in the
    order of its entries. *)
Definition event_handlers : list (string * Handler) :=
  [ (CALL_INITIATED, handle_call_initiated);
    (CALL_CONNECTED, handle_call_connected);
    (CALL_ANSWERED, handle_call_answered);
    (CALL_COMPLETED, handle_call_completed);
    (CALL_FAILED, handle_call_failed);
    (CALL_CANCELLED, handle_call_cancelled);
    (CALL_NO_ANSWER, handle_call_no_answer);
    (CALL_BUSY, handle_call_busy);
    (RECORDING_READY, handle_recording_ready);
    (TRANSCRIPT_READY, handle_transcript_ready);
    (PARTICIPANT_JOINED, handle_participant_joined);
    (PARTICIPANT_LEFT, handle_participant_left);
    (ERROR_OCCURRED, handle_error_occurred) ].

(** [WebhookEventProcessor.__init__]: each entry of the display evaluates
    [self.<handler>]; the attribute [event_handlers] is assigned when all
    of them are found ([None]: [AttributeError], and no instance). *)
Definition WebhookEventProcessor_init : option (list (string * Handler)) :=
  if forallb
       (fun entry =>
          existsb (String.eqb (handler_name (snd entry))) WebhookEventProcessor_namespace)
       event_handlers
  then Some event_handlers
  else None.

Fixpoint handlers_lookup (k : string) (tbl : list (string * Handler)) : option Handler :=
  match tbl with
  | [] => None
  | (k', h) :: tbl' => if String.eqb k k' then Some h else handlers_lookup k tbl'
  end.

(** [self.event_handlers.get(event_type)]: the attribute is there when
    [__init__] has assigned it; a list or a dict is not hashable and
    raises; any other value that is not a key gives [None]. *)
Definition event_handlers_get (t : json) : M (option Handler) :=
  match WebhookEventProcessor_init with
  | None => raise
  | Some handlers =>
      match t with
      | JStr s => ret (handlers_lookup s handlers)
      | JArr _ | JObj _ => raise
      | _ => ret None
      end
  end.

(** What [events.py] uses and this repository defines nowhere, the standard
    library's [datetime.strptime], and the database's decision on a row. *)
Class EventsEnv : Type := {
  (** [datetime.strptime(s, fmt)]; [None]: [ValueError] *)
  strptime : string -> string -> option datetime;
  (** [self._upsert_customer(db, name, phone, email)], on [customers];
      [None]: it raises *)
  _upsert_customer : list Customer.t -> json -> json -> json -> option (list Customer.t);
  (** [metrics_collector.record_call_duration(d)]; [false]: it raises *)
  record_call_duration : option Q -> bool;
  (** [metrics_collector.record_error(e)]; [false]: it raises *)
  record_error : json -> bool;
  (** [self._log_webhook(payload, source)], on [webhook_logs]; [None]: it
      raises *)
  _log_webhook : list WebhookLog.t -> dict -> string -> option (list WebhookLog.t * nat);
  (** [self._update_webhook_log(webhook_log_id, success)], on
      [webhook_logs]; [None]: it raises *)
  _update_webhook_log : list WebhookLog.t -> nat -> bool -> option (list WebhookLog.t);
  (** whether the database and its driver take the values of a row of
      [call_logs], of [call_events], that has no NULL where none is
      allowed (a string within the length of its column is taken, a list
      or a dict is not) *)
  binds_call_log : CallLog.t -> bool;
  binds_call_event : CallEvent.t -> bool
}.

Section Events.
Context `{PhoneNumbers} `{EventsEnv}.

(** The [for fmt in [...]: try ... break / else] loop of
    [_parse_webhook_event]. *)
Fixpoint parse_with_formats (s : string) (fmts : list string) (now : datetime) : datetime :=
  match fmts with
  | [] => now
  | fmt :: fmts' =>
      match strptime s fmt with
      | Some t => t
      | None => parse_with_formats s fmts' now
      end
  end.

Definition timestamp_formats : list string :=
  [ "%Y-%m-%dT%H:%M:%S.%fZ"; "%Y-%m-%dT%H:%M:%SZ"; "%Y-%m-%d %H:%M:%S" ].

Definition parse_timestamp (timestamp_str : json) (now : datetime) : datetime :=
  if truthy timestamp_str then
    match timestamp_str with
    | JStr s => parse_with_formats s timestamp_formats now
    | _ => now
    end
  else now.

(** [WebhookEventProcessor._parse_webhook_event]; [now] is
    [datetime.utcnow()]. *)
Definition _parse_webhook_event (payload : dict) (src : string) (now : datetime)
  : option WebhookEvent :=
  let fields :=
    if dict_mem "event_type" payload then
      Some (dict_get "event_type" payload,
            dict_get "call_id" payload,
            dict_get_default "data" (JObj []) payload,
            dict_get "timestamp" payload)
    else if dict_mem "type" payload then
      Some (dict_get "type" payload,
            py_or (dict_get "callId" payload) (dict_get "call_id" payload),
            dict_get_default "payload" (JObj payload) payload,
            py_or (dict_get "createdAt" payload) (dict_get "timestamp" payload))
    else None in
  match fields with
  | None => None
  | Some (event_type0, call_id0, data0, timestamp_str) =>
      if negb (truthy call_id0) then None
      else Some {| event_type := event_type0;
                   call_id := call_id0;
                   timestamp := parse_timestamp timestamp_str now;
                   data := data0;
                   source := src |}
  end.

(** Whether the INSERT of a row succeeds: the columns declared
    [nullable=False] hold a value, and the database takes the values. *)
Definition is_null (v : json) : bool :=
  match v with JNull => true | _ => false end.

Definition call_insertable (c : CallLog.t) : bool :=
  negb (is_null (CallLog.call_id c)) && negb (is_null (CallLog.room_name c))
  && negb (is_null (CallLog.customer_name c)) && negb (is_null (CallLog.customer_phone c))
  && binds_call_log c.

Definition insertable (e : CallEvent.t) : bool :=
  negb (is_null (CallEvent.call_id e)) && negb (is_null (CallEvent.event_type e))
  && binds_call_event e.

(** The rows added to a table since the last commit. *)
Definition added {R : Type} (table : Store -> list R) (ss : Session) : list R :=
  drop (length (table (committed ss))) (table (pending ss)).

(** [db.commit()] in a handler: the flush sends the INSERT of the rows
    added to [call_logs] and [call_events], which the database may
    refuse, and the transaction is committed.  (The assignments of the
    handlers to existing rows are strings and dates.) *)
Definition db_commit_rows : M unit :=
  db_io ;;
  fun ss =>
    if forallb call_insertable (added calls ss) && forallb insertable (added events ss)
    then (Returned tt,
          {| committed := pending ss; pending := pending ss; faults := faults ss |})
    else (Raised, ss).

(** [self._upsert_customer(db, ...)] inside a session. *)
Definition upsert_customer_in_session (name phone email : json) : M unit :=
  db_io ;;
  fun ss =>
    match _upsert_customer (customers (pending ss)) name phone email with
    | Some tbl =>
        (Returned tt,
         {| committed := committed ss;
            pending := set_customers tbl (pending ss);
            faults := faults ss |})
    | None => (Raised, ss)
    end.

(** The phone number that [_handle_call_initiated] hands to [CallLog(...)]
    (lines 169 and 175 to 178): [validate_phone_number] returns its result
    dictionary, which is never empty. *)
Definition initiated_customer_phone (customer_phone : json) : json :=
  if truthy customer_phone then
    let validated_phone := validate_phone_number customer_phone None in
    if truthy validated_phone then validated_phone else customer_phone
  else customer_phone.

(** The [with] block of [WebhookEventProcessor._handle_call_initiated]. *)
Definition _handle_call_initiated_block (event : WebhookEvent) (now : datetime) : M bool :=
  let d := data event in
  customer_phone <- py_get_or d "customer_phone" "to" ;;
  customer_name <- py_get d "customer_name" ;;
  customer_email <- py_get d "customer_email" ;;
  customer_query <- py_get_or d "customer_query" "query" ;;
  let customer_phone := initiated_customer_phone customer_phone in
  call_log <- query_call (call_id event) ;;
  call_log_id <-
    match call_log with
    | None =>
        room_name <- py_get d "room_name" ;;
        dispatch_id <- py_get d "dispatch_id" ;;
        call_log <-
          declarative_init CallLog.attributes
            [ "call_id"; "room_name"; "dispatch_id"; "customer_name"; "customer_phone";
              "customer_email"; "customer_query"; "status"; "call_started_at" ]
            (fun i =>
               {| CallLog.id := i;
                  CallLog.call_id := call_id event;
                  CallLog.room_name := room_name;
                  CallLog.dispatch_id := dispatch_id;
                  CallLog.customer_id := JNull;
                  CallLog.customer_name := customer_name;
                  CallLog.customer_phone := customer_phone;
                  CallLog.customer_email := customer_email;
                  CallLog.customer_query := customer_query;
                  CallLog.status := "initiated";
                  CallLog.call_started_at := Some (timestamp event);
                  CallLog.call_connected_at := None;
                  CallLog.call_ended_at := None;
                  CallLog.duration_seconds := None;
                  CallLog.participant_identity := JNull;
                  CallLog.call_metadata := JNull |}) ;;
        db_add_call call_log ;;
        ret JNull
    | Some c =>
        assign_call (call_id event)
          (fun c => set_unmapped "updated_at" now
                      (CallLog.set_call_started_at (Some (timestamp event))
                         (CallLog.set_status "initiated" c))) ;;
        ret (JNum (Z.of_nat (CallLog.id c)))
    end ;;
  call_event <-
    declarative_init CallEvent.attributes [ "call_log_id"; "event_type"; "event_data" ]
      {| CallEvent.call_id := JNull;
         CallEvent.event_type := event_type event;
         CallEvent.event_data := data event |} ;;
  db_add_event call_event ;;
  (if truthy customer_phone
   then upsert_customer_in_session customer_name customer_phone customer_email
   else ret tt) ;;
  db_commit_rows ;;
  ret true.

(** [WebhookEventProcessor._handle_call_initiated] *)
Definition _handle_call_initiated (event : WebhookEvent) (now : datetime) : M bool :=
  try_except (get_db_session (_handle_call_initiated_block event now)) (ret false).

(** The [with] block of [_update_call_status]. *)
Definition _update_call_status_block (event : WebhookEvent) (status : string)
    (error_details : json) (now : datetime) : M bool :=
  call_log <- query_call (call_id event) ;;
  match call_log with
  | Some c =>
      assign_call (call_id event)
        (fun c =>
           let c := set_unmapped "updated_at" now (CallLog.set_status status c) in
           if truthy error_details then set_unmapped "error_details" error_details c else c) ;;
      call_event <-
        declarative_init CallEvent.attributes [ "call_log_id"; "event_type"; "event_data" ]
          {| CallEvent.call_id := JNull;
             CallEvent.event_type := event_type event;
             CallEvent.event_data := data event |} ;;
      db_add_event call_event ;;
      db_commit_rows ;;
      ret true
  | None => ret false
  end.

(** [_update_call_status(self, event, status, error_details=None)], a
    function of the module. *)
Definition _update_call_status (event : WebhookEvent) (status : string)
    (error_details : json) (now : datetime) : M bool :=
  try_except (get_db_session (_update_call_status_block event status error_details now))
    (ret false).

(** [WebhookEventProcessor._handle_call_connected] *)
Definition _handle_call_connected (event : WebhookEvent) (now : datetime) : M bool :=
  self_attr "_update_call_status" (_update_call_status event "connected" JNull now).

(** [WebhookEventProcessor._handle_call_answered] *)
Definition _handle_call_answered (event : WebhookEvent) (now : datetime) : M bool :=
  self_attr "_update_call_status" (_update_call_status event "answered" JNull now).

(** The value that [_handle_call_completed] assigns to [call_log.duration]
    (lines 240 to 243). *)
Definition completed_duration (event : WebhookEvent) (c : CallLog.t) : option Q :=
  match CallLog.call_started_at c with
  | Some started => Some (total_seconds (timestamp event - started))
  | None => None
  end.

(** The [with] block of [_handle_call_completed]. *)
Definition _handle_call_completed_block (event : WebhookEvent) (now : datetime) : M bool :=
  call_log <- query_call (call_id event) ;;
  match call_log with
  | None => ret false
  | Some c =>
      let duration := completed_duration event c in
      assign_call (call_id event)
        (fun c =>
           let c := CallLog.set_status "completed" c in
           let c := CallLog.set_call_ended_at (Some (timestamp event)) c in
           let c := set_unmapped "updated_at" now c in
           set_unmapped "duration" duration c) ;;
      call_event <-
        declarative_init CallEvent.attributes [ "call_log_id"; "event_type"; "event_data" ]
          {| CallEvent.call_id := JNull;
             CallEvent.event_type := event_type event;
             CallEvent.event_data := data event |} ;;
      db_add_event call_event ;;
      db_commit_rows ;;
      (if record_call_duration duration then ret tt else raise) ;;
      ret true
  end.

(** [_handle_call_completed], a function of the module. *)
Definition _handle_call_completed (event : WebhookEvent) (now : datetime) : M bool :=
  try_except (get_db_session (_handle_call_completed_block event now)) (ret false).

(** [_handle_call_failed], a function of the module. *)
Definition _handle_call_failed (event : WebhookEvent) (now : datetime) : M bool :=
  self_attr "_update_call_status"
    (error <- py_get (data event) "error" ;;
     _update_call_status event "failed" error now).

(** [_handle_call_cancelled], a function of the module. *)
Definition _handle_call_cancelled (event : WebhookEvent) (now : datetime) : M bool :=
  self_attr "_update_call_status" (_update_call_status event "cancelled" JNull now).

(** [_handle_call_no_answer], a function of the module. *)
Definition _handle_call_no_answer (event : WebhookEvent) (now : datetime) : M bool :=
  self_attr "_update_call_status" (_update_call_status event "no_answer" JNull now).

(** [_handle_call_busy], a function of the module. *)
Definition _handle_call_busy (event : WebhookEvent) (now : datetime) : M bool :=
  self_attr "_update_call_status" (_update_call_status event "busy" JNull now).

(** The [with] block of [_handle_recording_ready]. *)
Definition _handle_recording_ready_block (event : WebhookEvent) (now : datetime) : M bool :=
  call_log <- query_call (call_id event) ;;
  match call_log with
  | Some c =>
      url <- py_get (data event) "recording_url" ;;
      assign_call (call_id event) (set_unmapped "recording_url" url) ;;
      dur <- py_get (data event) "duration" ;;
      assign_call (call_id event) (set_unmapped "recording_duration" dur) ;;
      assign_call (call_id event) (set_unmapped "updated_at" now) ;;
      call_event <-
        declarative_init CallEvent.attributes [ "call_log_id"; "event_type"; "event_data" ]
          {| CallEvent.call_id := JNull;
             CallEvent.event_type := event_type event;
             CallEvent.event_data := data event |} ;;
      db_add_event call_event ;;
      db_commit_rows ;;
      ret true
  | None => ret false
  end.

(** [_handle_recording_ready], a function of the module. *)
Definition _handle_recording_ready (event : WebhookEvent) (now : datetime) : M bool :=
  try_except (get_db_session (_handle_recording_ready_block event now)) (ret false).

(** The [with] block of [_handle_transcript_ready]. *)
Definition _handle_transcript_ready_block (event : WebhookEvent) (now : datetime) : M bool :=
  call_log <- query_call (call_id event) ;;
  match call_log with
  | Some c =>
      url <- py_get (data event) "transcript_url" ;;
      assign_call (call_id event) (set_unmapped "transcript_url" url) ;;
      assign_call (call_id event) (set_unmapped "updated_at" now) ;;
      call_event <-
        declarative_init CallEvent.attributes [ "call_log_id"; "event_type"; "event_data" ]
          {| CallEvent.call_id := JNull;
             CallEvent.event_type := event_type event;
             CallEvent.event_data := data event |} ;;
      db_add_event call_event ;;
      db_commit_rows ;;
      ret true
  | None => ret false
  end.

(** [_handle_transcript_ready], a function of the module. *)
Definition _handle_transcript_ready (event : WebhookEvent) (now : datetime) : M bool :=
  try_except (get_db_session (_handle_transcript_ready_block event now)) (ret false).

(** The row that [_log_participant_event] and [_handle_unknown_event]
    construct: [CallEvent(call_id=..., event_type=..., event_data=...)]. *)
Definition log_row (event : WebhookEvent) : CallEvent.t :=
  {| CallEvent.call_id := call_id event;
     CallEvent.event_type := event_type event;
     CallEvent.event_data := data event |}.

(** The [with] block of [_log_participant_event]. *)
Definition _log_participant_event_block (event : WebhookEvent) : M bool :=
  call_event <-
    declarative_init CallEvent.attributes [ "call_id"; "event_type"; "event_data" ]
      (log_row event) ;;
  db_add_event call_event ;;
  db_commit_rows ;;
  ret true.

(** [_log_participant_event], a function of the module. *)
Definition _log_participant_event (event : WebhookEvent) : M bool :=
  try_except (get_db_session (_log_participant_event_block event)) (ret false).

(** [_handle_participant_joined], a function of the module. *)
Definition _handle_participant_joined (event : WebhookEvent) : M bool :=
  self_attr "_log_participant_event" (_log_participant_event event).

(** [_handle_participant_left], a function of the module. *)
Definition _handle_participant_left (event : WebhookEvent) : M bool :=
  self_attr "_log_participant_event" (_log_participant_event event).

(** The [with] block of [_handle_error_occurred]. *)
Definition _handle_error_occurred_block (event : WebhookEvent) (now : datetime) : M bool :=
  call_log <- query_call (call_id event) ;;
  match call_log with
  | Some c =>
      error <- py_get (data event) "error" ;;
      assign_call (call_id event) (set_unmapped "error_details" error) ;;
      assign_call (call_id event) (set_unmapped "updated_at" now) ;;
      call_event <-
        declarative_init CallEvent.attributes [ "call_log_id"; "event_type"; "event_data" ]
          {| CallEvent.call_id := JNull;
             CallEvent.event_type := event_type event;
             CallEvent.event_data := data event |} ;;
      db_add_event call_event ;;
      db_commit_rows ;;
      error' <- py_get (data event) "error" ;;
      (if record_error error' then ret tt else raise) ;;
      ret true
  | None => ret false
  end.

(** [_handle_error_occurred], a function of the module. *)
Definition _handle_error_occurred (event : WebhookEvent) (now : datetime) : M bool :=
  try_except (get_db_session (_handle_error_occurred_block event now)) (ret false).

(** The [with] block of [_handle_unknown_event]. *)
Definition _handle_unknown_event_block (event : WebhookEvent) : M bool :=
  call_event <-
    declarative_init CallEvent.attributes [ "call_id"; "event_type"; "event_data" ]
      (log_row event) ;;
  db_add_event call_event ;;
  db_commit_rows ;;
  ret true.

(** [_handle_unknown_event], a function of the module. *)
Definition _handle_unknown_event (event : WebhookEvent) : M bool :=
  try_except (get_db_session (_handle_unknown_event_block event)) (ret false).

(** [handler(event)] for a function that the [event_handlers] table names. *)
Definition call_handler (h : Handler) (event : WebhookEvent) (now : datetime) : M bool :=
  match h with
  | handle_call_initiated => _handle_call_initiated event now
  | handle_call_connected => _handle_call_connected event now
  | handle_call_answered => _handle_call_answered event now
  | handle_call_completed => _handle_call_completed event now
  | handle_call_failed => _handle_call_failed event now
  | handle_call_cancelled => _handle_call_cancelled event now
  | handle_call_no_answer => _handle_call_no_answer event now
  | handle_call_busy => _handle_call_busy event now
  | handle_recording_ready => _handle_recording_ready event now
  | handle_transcript_ready => _handle_transcript_ready event now
  | handle_participant_joined => _handle_participant_joined event
  | handle_participant_left => _handle_participant_left event
  | handle_error_occurred => _handle_error_occurred event now
  end.

(** [WebhookEventProcessor._process_event] *)
Definition _process_event (event : WebhookEvent) (now : datetime) : M bool :=
  try_except
    (handler <- event_handlers_get (event_type event) ;;
     match handler with
     | None => self_attr "_handle_unknown_event" (_handle_unknown_event event)
     | Some h => call_handler h event now
     end)
    (ret false).

(** The two helpers on [webhook_logs], each in a transaction of its own. *)
Definition log_webhook_in_session (payload : dict) (src : string) : M nat :=
  fun ss =>
    match _log_webhook (webhook_logs (committed ss)) payload src with
    | Some (tbl, i) =>
        (Returned i,
         {| committed := set_webhook_logs tbl (committed ss);
            pending := set_webhook_logs tbl (pending ss);
            faults := faults ss |})
    | None => (Raised, ss)
    end.

Definition update_webhook_log_in_session (i : nat) (success : bool) : M unit :=
  fun ss =>
    match _update_webhook_log (webhook_logs (committed ss)) i success with
    | Some tbl =>
        (Returned tt,
         {| committed := set_webhook_logs tbl (committed ss);
            pending := set_webhook_logs tbl (pending ss);
            faults := faults ss |})
    | None => (Raised, ss)
    end.

(** [WebhookEventProcessor.process_webhook] *)
Definition process_webhook (payload : dict) (src : string) (now : datetime) : M bool :=
  try_except
    (webhook_log_id <- log_webhook_in_session payload src ;;
     match _parse_webhook_event payload src now with
     | None => ret false
     | Some event =>
         success <- _process_event event now ;;
         update_webhook_log_in_session webhook_log_id success ;;
         ret success
     end)
    (ret false).

(** Running session code on a store: the result and what is committed
    afterwards. *)
Definition run {A : Type} (m : M A) (s : Store) (fl : list bool) : outcome A * Store :=
  let '(o, ss) := m {| committed := s; pending := s; faults := fl |} in
  (o, committed ss).

Definition returned_true (o : outcome bool) : bool :=
  match o with Returned b => b | Raised => false end.

(** Applying one event to the store, under a fault schedule. *)
Definition apply_event (event : WebhookEvent) (now : datetime) (s : Store) (fl : list bool)
  : bool * Store :=
  let '(o, s') := run (_process_event event now) s fl in (returned_true o, s').

(** Processing one raw payload. *)
Definition receive_webhook (payload : dict) (src : string) (now : datetime) (s : Store)
    (fl : list bool) : bool * Store :=
  let '(o, s') := run (process_webhook payload src now) s fl in (returned_true o, s').

End Events.

(** ** webhooks/handlers.py *)

Module WebhookManager.

(** The attributes of a [WebhookManager]. *)
Record t : Type := mk {
  webhook_urls : list string;
  max_retries : Z;
  retry_delay : Z
}.

End WebhookManager.

(** [WebhookManager.__init__]: the two settings read from the environment
    (absent: [None]) with their defaults, ["3"] and ["60"]. *)
Definition WebhookManager_init (urls : list string) (env_max_retries env_retry_delay : option Z)
  : WebhookManager.t :=
  {| WebhookManager.webhook_urls := urls;
     WebhookManager.max_retries := match env_max_retries with Some n => n | None => 3 end;
     WebhookManager.retry_delay := match env_retry_delay with Some n => n | None => 60 end |}.

(** What an HTTP POST to a target comes to. *)
Inductive http_outcome : Type :=
| Response (status : Z) (text : string)
| TimeoutError
| ClientError (msg : string).

(** The network at one moment: the outcome of posting to [url] the webhook
    [webhook_id]. *)
Definition network : Type := string -> string -> http_outcome.

(** [db.query(WebhookLog).filter(WebhookLog.webhook_id == wid).first()] *)
Fixpoint find_webhook (wid : string) (tbl : list WebhookLog.t) : option WebhookLog.t :=
  match tbl with
  | [] => None
  | w :: tbl' => if String.eqb (WebhookLog.webhook_id w) wid then Some w else find_webhook wid tbl'
  end.

(** Assignments to the attributes of that row. *)
Fixpoint update_webhook (wid : string) (f : WebhookLog.t -> WebhookLog.t)
    (tbl : list WebhookLog.t) : list WebhookLog.t :=
  match tbl with
  | [] => []
  | w :: tbl' =>
      if String.eqb (WebhookLog.webhook_id w) wid then f w :: tbl'
      else w :: update_webhook wid f tbl'
  end.

(** [WebhookManager._attempt_webhook_delivery] *)
Definition _attempt_webhook_delivery (post : network) (url : string) (webhook_id : string)
    (tbl : list WebhookLog.t) : bool * list WebhookLog.t :=
  match post url webhook_id with
  | Response status text =>
      match find_webhook webhook_id tbl with
      | Some _ =>
          let tbl' :=
            update_webhook webhook_id
              (fun w => WebhookLog.set_response_body (Some (str_prefix 1000 text))
                          (WebhookLog.set_status_code (Some status) w)) tbl in
          if (200 <=? status) && (status <? 300)
          then (true, update_webhook webhook_id (WebhookLog.set_delivered true) tbl')
          else (false, tbl')
      | None => (false, tbl)
      end
  | TimeoutError => (false, tbl)
  | ClientError msg =>
      (false, update_webhook webhook_id (WebhookLog.set_response_body (Some (str_prefix 1000 msg))) tbl)
  end.

(** [2 ** n] is an integer for [n >= 0] and a float for [n < 0]; what
    [timedelta] makes of the float product is left to the arithmetic of
    floats. *)
Class FloatArith : Type := {
  (** [timedelta(seconds=retry_delay * (2 ** n))] for [n < 0], in
      microseconds; [None]: [OverflowError] *)
  float_backoff : Z -> Z -> option Z
}.

Section Delivery.
Context `{FloatArith}.

(** [timedelta(seconds=retry_delay * (2 ** n))], in microseconds; [None]:
    [OverflowError], outside the range of [timedelta]. *)
Definition backoff (retry_delay n : Z) : option Z :=
  if 0 <=? n then
    let td := timedelta_seconds (retry_delay * 2 ^ n) in
    if timedelta_in_range td then Some td else None
  else float_backoff retry_delay n.

(** [datetime.utcnow() + timedelta(seconds=self.retry_delay * (2 ** n))];
    [None]: [OverflowError], from [timedelta] or from the date. *)
Definition retry_time (self : WebhookManager.t) (now : datetime) (n : Z) : option datetime :=
  match backoff (WebhookManager.retry_delay self) n with
  | Some td => if datetime_in_range (now + td) then Some (now + td) else None
  | None => None
  end.

(** The body of [_schedule_webhook_retry] on the row it found: under the
    cap, one more retry, due after [retry_delay * 2 ** retry_count]
    seconds, with the count already incremented; when the date raises,
    the session is rolled back and the row stays as it was. *)
Definition schedule_retry (self : WebhookManager.t) (now : datetime) (w : WebhookLog.t)
  : WebhookLog.t :=
  if WebhookLog.retry_count w <? WebhookLog.max_retries w then
    let n := WebhookLog.retry_count w + 1 in
    match retry_time self now n with
    | Some t => WebhookLog.set_next_retry_at (Some t) (WebhookLog.set_retry_count n w)
    | None => w
    end
  else w.

(** [WebhookManager._schedule_webhook_retry] *)
Definition _schedule_webhook_retry (self : WebhookManager.t) (webhook_id : string)
    (now : datetime) (tbl : list WebhookLog.t) : list WebhookLog.t :=
  update_webhook webhook_id (schedule_retry self now) tbl.

(** [WebhookManager._send_webhook_to_url]; [wid] is the fresh
    [uuid.uuid4()], [iso_now] the [isoformat()] of the clock, [now'] the
    clock when the retry is scheduled. *)
Definition _send_webhook_to_url (self : WebhookManager.t) (post : network) (url : string)
    (event_type call_id : json) (payload : json) (iso_now : string) (wid : string)
    (now' : datetime) (tbl : list WebhookLog.t) : list WebhookLog.t :=
  let webhook_payload :=
    JObj [ ("event_type", event_type); ("call_id", call_id);
           ("timestamp", JStr iso_now); ("data", payload) ] in
  let webhook_log :=
    {| WebhookLog.webhook_id := wid;
       WebhookLog.call_id := call_id;
       WebhookLog.event_type := event_type;
       WebhookLog.payload := webhook_payload;
       WebhookLog.status_code := None;
       WebhookLog.response_body := None;
       WebhookLog.retry_count := 0;
       WebhookLog.max_retries := WebhookManager.max_retries self;
       WebhookLog.next_retry_at := None;
       WebhookLog.delivered := false |} in
  let '(success, tbl') := _attempt_webhook_delivery post url wid (tbl ++ [webhook_log]) in
  if success then tbl' else _schedule_webhook_retry self wid now' tbl'.

(** The filter of [process_webhook_retries]:
    [delivered == False], [retry_count < max_retries],
    [next_retry_at <= now] (false when [next_retry_at] is NULL). *)
Definition due_for_retry (now : datetime) (w : WebhookLog.t) : bool :=
  negb (WebhookLog.delivered w)
  && (WebhookLog.retry_count w <? WebhookLog.max_retries w)
  && match WebhookLog.next_retry_at w with
     | Some t => t <=? now
     | None => false
     end.

(** The positions of the rows the filter selects. *)
Fixpoint pending_from (now : datetime) (i : nat) (tbl : list WebhookLog.t) : list nat :=
  match tbl with
  | [] => []
  | w :: tbl' =>
      if due_for_retry now w then i :: pending_from now (S i) tbl'
      else pending_from now (S i) tbl'
  end.

Definition pending_webhooks (now : datetime) (tbl : list WebhookLog.t) : list nat :=
  pending_from now 0%nat tbl.

(** Whether [_attempt_webhook_delivery] opens a session of its own: on a
    response and on a client error, not on a timeout.  [get_db_session]
    hands out the one session of the thread ([scoped_session]) and closes
    it when its block ends, so the rows that the sweep holds are detached
    from then on, with their attributes expired by the commit: reading one
    raises. *)
Definition closes_session (o : http_outcome) : bool :=
  match o with
  | TimeoutError => false
  | Response _ _ | ClientError _ => true
  end.

(** Where the sweep stands: [success] as assigned so far and whether its
    rows are still attached to the session, or stopped by an exception. *)
Inductive loop_state : Type :=
| Going (success : option bool) (attached : bool)
| Stopped.

(** [for url in self.webhook_urls: success = ...; if success: break];
    each round reads [webhook_log.payload] and [webhook_log.webhook_id];
    [success] stays what it was when there is no URL. *)
Fixpoint try_urls (post : network) (urls : list string) (webhook_id : string)
    (success : option bool) (attached : bool) (tbl : list WebhookLog.t)
  : loop_state * list WebhookLog.t :=
  match urls with
  | [] => (Going success attached, tbl)
  | url :: urls' =>
      if attached then
        let '(ok, tbl') := _attempt_webhook_delivery post url webhook_id tbl in
        let attached' := negb (closes_session (post url webhook_id)) in
        if ok then (Going (Some true) attached', tbl')
        else try_urls post urls' webhook_id (Some false) attached' tbl'
      else (Stopped, tbl)
  end.

(** The loop over the selected rows; [clock i] is the time at which row
    [i] is rescheduled.  The assignment [webhook_log.next_retry_at = None]
    reaches the table when the row is attached; [if not success] on an
    unassigned [success] raises; [webhook_log.webhook_id], the argument of
    [_schedule_webhook_retry], is read from the row; and
    [_schedule_webhook_retry] closes the session in its turn. *)
Fixpoint retry_loop (self : WebhookManager.t) (post : network) (clock : nat -> datetime)
    (selected : list nat) (success : option bool) (attached : bool) (tbl : list WebhookLog.t)
  : list WebhookLog.t :=
  match selected with
  | [] => tbl
  | i :: rest =>
      match tbl !! i with
      | None => tbl
      | Some w =>
          let tbl1 := if attached then alter (WebhookLog.set_next_retry_at None) i tbl else tbl in
          match try_urls post (WebhookManager.webhook_urls self) (WebhookLog.webhook_id w)
                  success attached tbl1 with
          | (Stopped, tbl2) => tbl2
          | (Going None _, tbl2) => tbl2
          | (Going (Some true) attached', tbl2) =>
              retry_loop self post clock rest (Some true) attached' tbl2
          | (Going (Some false) attached', tbl2) =>
              if attached' then
                retry_loop self post clock rest (Some false) false
                  (_schedule_webhook_retry self (WebhookLog.webhook_id w) (clock i) tbl2)
              else tbl2
          end
      end
  end.

(** [WebhookManager.process_webhook_retries] at time [now]. *)
Definition process_webhook_retries (self : WebhookManager.t) (post : network)
    (now : datetime) (clock : nat -> datetime) (tbl : list WebhookLog.t) : list WebhookLog.t :=
  retry_loop self post clock (pending_webhooks now tbl) None true tbl.

(** What the manager does to [webhook_logs], one operation at a time. *)
Inductive delivery_step (self : WebhookManager.t) : list WebhookLog.t -> list WebhookLog.t -> Prop :=
| step_send post url event_type call_id payload iso_now wid now' tbl :
    delivery_step self tbl
      (_send_webhook_to_url self post url event_type call_id payload iso_now wid now' tbl)
| step_sweep post now clock tbl :
    delivery_step self tbl (process_webhook_retries self post now clock tbl).

(** Any number of operations. *)
Inductive delivery_steps (self : WebhookManager.t) : list WebhookLog.t -> list WebhookLog.t -> Prop :=
| steps_nil tbl : delivery_steps self tbl tbl
| steps_cons tbl1 tbl2 tbl3 :
    delivery_step self tbl1 tbl2 -> delivery_steps self tbl2 tbl3 ->
    delivery_steps self tbl1 tbl3.

End Delivery.

(** A row that has used up its retries. *)
Definition exhausted (w : WebhookLog.t) : Prop :=
  WebhookLog.max_retries w <= WebhookLog.retry_count w.

(** ** monitoring/metrics.py and monitoring/collectors.py: the caches *)

Section Metrics.
(** The type of an aggregate (a dictionary of figures in [metrics.py], a
    [MetricsSummary] in [collectors.py]). *)
Context {metrics : Type}.

(** [monitoring/metrics.py]: [MetricsCollector.__init__] *)
Definition cache_duration : Z := 300.

(** [monitoring/metrics.py]: [MetricsCollector.collect_daily_metrics] for
    the date whose key is [cache_key], called at [now]; [compute] is the
    aggregate the [try] block obtains ([None]: it raised, the result is
    [empty]) and [now'] the clock when it is cached.  Returns the result
    and the cache. *)
Definition metrics_collect_daily_metrics (cache_key : string) (now now' : datetime)
    (compute : option metrics) (empty : metrics)
    (metrics_cache : gmap string (metrics * datetime))
  : metrics * gmap string (metrics * datetime) :=
  let recompute :=
    match compute with
    | Some m => (m, <[cache_key := (m, now')]> metrics_cache)
    | None => (empty, metrics_cache)
    end in
  match metrics_cache !! cache_key with
  | Some (cached_data, cache_time) =>
      if timedelta_seconds_field (now - cache_time) <? cache_duration
      then (cached_data, metrics_cache)
      else recompute
  | None => recompute
  end.

(** [monitoring/collectors.py]: [MetricsCollector.__init__] *)
Definition cache_ttl : Z := 300.

(** [monitoring/collectors.py]: [MetricsCollector._is_cache_valid];
    [total_seconds() < self.cache_ttl] on the exact number of seconds. *)
Definition _is_cache_valid (cache_key : string) (now : datetime)
    (cache : gmap string (metrics * datetime)) : bool :=
  match cache !! cache_key with
  | None => false
  | Some (_, cache_time) =>
      negb (Qle_bool (inject_Z cache_ttl) (total_seconds (now - cache_time)))
  end.

(** [monitoring/collectors.py]: [MetricsCollector._cache_result] *)
Definition _cache_result (cache_key : string) (data : metrics) (now : datetime)
    (cache : gmap string (metrics * datetime)) : gmap string (metrics * datetime) :=
  <[cache_key := (data, now)]> cache.

(** What the [try] block of a cached query of [collectors.py] comes to:
    it raised, it found no call ([total_calls == 0]), or it built a
    summary. *)
Inductive query_outcome : Type :=
| QueryRaised
| NoCalls
| Summary (m : metrics).

(** [monitoring/collectors.py]: [MetricsCollector.collect_daily_metrics]
    for the day whose key is [cache_key]; [empty] is [MetricsSummary()].
    Only a summary built from at least one call is cached. *)
Definition collectors_collect_daily_metrics (cache_key : string) (now now' : datetime)
    (compute : query_outcome) (empty : metrics)
    (cache : gmap string (metrics * datetime))
  : metrics * gmap string (metrics * datetime) :=
  if _is_cache_valid cache_key now cache then
    match cache !! cache_key with
    | Some (d, _) => (d, cache)
    | None => (empty, cache)
    end
  else
    match compute with
    | QueryRaised => (empty, cache)
    | NoCalls => (empty, cache)
    | Summary m => (m, _cache_result cache_key m now' cache)
    end.

End Metrics.

(** ** Vocabulary of the properties *)

Definition is_dict (v : json) : bool :=
  match v with JObj _ => true | _ => false end.

(** The statuses the specification calls terminal. *)
Definition TERMINAL_STATUSES : list string :=
  [ "completed"; "failed"; "cancelled"; "no_answer"; "busy" ].

Definition is_terminal (st : string) : bool :=
  existsb (String.eqb st) TERMINAL_STATUSES.

(** Whether [s] holds a call record for [cid]. *)
Definition has_record (cid : json) (s : Store) : bool :=
  match find_call cid (calls s) with Some _ => true | None => false end.

(** The functions of [events.py] that are given an event: the method
    [_process_event], and each function of the file called by its name,
    without going through [self]. *)
Inductive entry : Type :=
| via_process_event
| via_handler (h : Handler)
| via_update_call_status (status : string) (error_details : json)
| via_log_participant_event
| via_handle_unknown_event.


(** The two functions that build their log row with [call_id=...]. *)
Definition logs_by_call_id (e : entry) : bool :=
  match e with
  | via_log_participant_event | via_handle_unknown_event => true
  | _ => false
  end.

(** The functions whose body is [return self.<name>(...)] for a [<name>]
    that is a function of the module. *)
Definition delegates (e : entry) : bool :=
  match e with
  | via_handler handle_call_connected | via_handler handle_call_answered
  | via_handler handle_call_failed | via_handler handle_call_cancelled
  | via_handler handle_call_no_answer | via_handler handle_call_busy
  | via_handler handle_participant_joined | via_handler handle_participant_left => true
  | _ => false
  end.

(** The store with the log row of [event] appended. *)
Definition logged (event : WebhookEvent) (s : Store) : Store :=
  set_events (events s ++ [log_row event]) s.

Section Sequences.
Context `{PhoneNumbers} `{EventsEnv}.

Definition call_entry (e : entry) (event : WebhookEvent) (now : datetime) : M bool :=
  match e with
  | via_process_event => _process_event event now
  | via_handler h => call_handler h event now
  | via_update_call_status status error_details =>
      _update_call_status event status error_details now
  | via_log_participant_event => _log_participant_event event
  | via_handle_unknown_event => _handle_unknown_event event
  end.

(** The [with] block of a function that has one; [ret false] for the
    others. *)
Definition block_of (e : entry) (event : WebhookEvent) (now : datetime) : M bool :=
  match e with
  | via_handler handle_call_initiated => _handle_call_initiated_block event now
  | via_handler handle_call_completed => _handle_call_completed_block event now
  | via_handler handle_recording_ready => _handle_recording_ready_block event now
  | via_handler handle_transcript_ready => _handle_transcript_ready_block event now
  | via_handler handle_error_occurred => _handle_error_occurred_block event now
  | via_update_call_status status error_details =>
      _update_call_status_block event status error_details now
  | via_log_participant_event => _log_participant_event_block event
  | via_handle_unknown_event => _handle_unknown_event_block event
  | _ => ret false
  end.

(** A block that commits nothing, and that either raises or returns
    [False] with the session as it found it. *)
Definition rolls_back (b : M bool) : Prop :=
  forall ss,
    committed (snd (b ss)) = committed ss
    /\ (fst (b ss) = Raised
        \/ (fst (b ss) = Returned false /\ pending (snd (b ss)) = pending ss)).

(** Applying events one after the other, each at its own clock reading,
    with no fault. *)
Fixpoint apply_events (evs : list (WebhookEvent * datetime)) (s : Store) : Store :=
  match evs with
  | [] => s
  | (event, now) :: rest => apply_events rest (snd (apply_event event now s []))
  end.

(** The same for calls of any of the functions, each under its own fault
    schedule. *)
Fixpoint call_entries (calls : list (entry * WebhookEvent * datetime * list bool)) (s : Store)
  : Store :=
  match calls with
  | [] => s
  | (e, event, now, fl) :: rest => call_entries rest (snd (run (call_entry e event now) s fl))
  end.

End Sequences.


(** Two states of a row with the same retry bookkeeping. *)
Definition same_retry_state (w w' : WebhookLog.t) : Prop :=
  WebhookLog.retry_count w' = WebhookLog.retry_count w
  /\ WebhookLog.max_retries w' = WebhookLog.max_retries w
  /\ WebhookLog.next_retry_at w' = WebhookLog.next_retry_at w.

(** ** Sample collaborators and data *)

(** A [phonenumbers] that knows one valid number, ["+1 650 253 0000"] in
    either spelling below, and parses any other string as an invalid
    one. *)
#[local] Instance sample_phonenumbers : PhoneNumbers := {|
  parsed_number := string;
  phonenumbers_parse v _ :=
    match v with
    | JStr s =>
        if String.eqb s "+16502530000" || String.eqb s "(650) 253-0000"
        then Parsed "+16502530000"
        else if String.eqb s "" then NumberParseException "The string supplied did not seem to be a phone number."
        else Parsed s
    | _ => OtherException "expected string"
    end;
  is_valid_number p := String.eqb p "+16502530000";
  format_number p fmt :=
    match fmt with
    | E164 => p
    | INTERNATIONAL => "+1 650-253-0000"
    | NATIONAL => "(650) 253-0000"
    end;
  country_code _ := 1;
  region_code_for_number _ := JStr "US";
  carrier_name_for_number _ := Some (JStr "");
  geocoder_description_for_number _ := Some (JStr "Mountain View, CA");
  time_zones_for_number _ := Some ["America/Los_Angeles"];
  number_type _ := Some FIXED_LINE_OR_MOBILE
|}.

(** A column of strings of at most [n] characters. *)
Definition string_within (n : nat) (v : json) : bool :=
  match v with
  | JNull => true
  | JStr s => (String.length s <=? n)%nat
  | _ => false
  end.

(** The repository as it is: the helpers that it does not define raise,
    and so do the two recorders, which [MetricsCollector] does not have;
    the database takes strings that fit their columns.  No timestamp
    string is parsed. *)
#[local] Instance sample_env : EventsEnv := {|
  strptime _ _ := None;
  _upsert_customer _ _ _ _ := None;
  record_call_duration _ := false;
  record_error _ := false;
  _log_webhook _ _ _ := None;
  _update_webhook_log _ _ _ := None;
  binds_call_log c :=
    string_within 255 (CallLog.call_id c) && string_within 255 (CallLog.room_name c)
    && string_within 255 (CallLog.dispatch_id c) && string_within 255 (CallLog.customer_name c)
    && string_within 20 (CallLog.customer_phone c) && string_within 255 (CallLog.customer_email c);
  binds_call_event e :=
    string_within 255 (CallEvent.call_id e) && string_within 100 (CallEvent.event_type e)
|}.

(** Float arithmetic for the negative powers of two, exact on the
    rationals: [retry_delay * 2 ** n] seconds in microseconds, rounded
    half to even. *)
Definition round_half_even (a b : Z) : Z :=
  let q := a / b in
  let r := a mod b in
  if (2 * r <? b) then q
  else if (b <? 2 * r) then q + 1
  else if Z.even q then q else q + 1.

#[local] Instance sample_floats : FloatArith := {|
  float_backoff retry_delay n :=
    let td := round_half_even (retry_delay * MICROS) (2 ^ (- n)) in
    if timedelta_in_range td then Some td else None
|}.

(** A manager with the default settings and one target, a network that
    answers 503 to every POST, and a row that has used its three retries. *)
Definition sample_manager : WebhookManager.t :=
  WebhookManager_init ["https://crm.example/hook"] None None.

Definition sample_network_down : network := fun _ _ => Response 503 "unavailable".

(** A network on which every POST times out. *)
Definition sample_network_timeout : network := fun _ _ => TimeoutError.

Definition sample_exhausted_row : WebhookLog.t :=
  {| WebhookLog.webhook_id := "w1";
     WebhookLog.call_id := JStr "c1";
     WebhookLog.event_type := JStr "call_ended";
     WebhookLog.payload := JObj [];
     WebhookLog.status_code := Some 503;
     WebhookLog.response_body := Some "unavailable";
     WebhookLog.retry_count := 3;
     WebhookLog.max_retries := 3;
     WebhookLog.next_retry_at := Some (timedelta_seconds 900);
     WebhookLog.delivered := false |}.

(** A first delivery that fails, then sweeps of the retry queue. *)
Definition sample_sent : list WebhookLog.t :=
  _send_webhook_to_url sample_manager sample_network_down "https://crm.example/hook"
    (JStr "call_ended") (JStr "c1") (JObj []) "2024-01-01T00:00:00" "w1" 0 [].

Definition sample_sweep (now : datetime) (tbl : list WebhookLog.t) : list WebhookLog.t :=
  process_webhook_retries sample_manager sample_network_down now (fun _ => now) tbl.

Definition sample_sweep_timeout (now : datetime) (tbl : list WebhookLog.t)
  : list WebhookLog.t :=
  process_webhook_retries sample_manager sample_network_timeout now (fun _ => now) tbl.


Definition retry_bookkeeping (w : WebhookLog.t) : Z * option datetime * bool :=
  (WebhookLog.retry_count w, WebhookLog.next_retry_at w, WebhookLog.delivered w).

Definition empty_store : Store :=
  {| calls := []; events := []; customers := []; webhook_logs := [] |}.

(** The event of a payload of the first shape. *)
Definition sample_event (type : string) (cid : string) (ts : datetime) (d : dict) : WebhookEvent :=
  {| event_type := JStr type; call_id := JStr cid; timestamp := ts;
     data := JObj d; source := "livekit" |}.

(** A call ["c1"] started at second 100, as [create_call_log] of
    [database/connection.py] stores it, and the same call once its status
    is [completed]. *)
Definition sample_call : CallLog.t :=
  {| CallLog.id := 1;
     CallLog.call_id := JStr "c1";
     CallLog.room_name := JStr "room-1";
     CallLog.dispatch_id := JNull;
     CallLog.customer_id := JNum 1;
     CallLog.customer_name := JStr "A";
     CallLog.customer_phone := JStr "+16502530000";
     CallLog.customer_email := JNull;
     CallLog.customer_query := JNull;
     CallLog.status := "initiated";
     CallLog.call_started_at := Some (timedelta_seconds 100);
     CallLog.call_connected_at := None;
     CallLog.call_ended_at := None;
     CallLog.duration_seconds := None;
     CallLog.participant_identity := JNull;
     CallLog.call_metadata := JObj [] |}.

Definition store_initiated : Store :=
  {| calls := [sample_call]; events := []; customers := []; webhook_logs := [] |}.

Definition store_completed : Store :=
  {| calls := [ CallLog.set_call_ended_at (Some (timedelta_seconds 160))
                  (CallLog.set_status "completed" sample_call) ];
     events := [];
     customers := [];
     webhook_logs := [] |}.
(** * Further parts of the code *)

(** ** webhooks/events.py: rendering an event *)

(** [WebhookEvent.to_dict]; [isoformat] renders a [datetime]. *)
Definition to_dict (isoformat : datetime -> string) (event : WebhookEvent) : dict :=
  [ ("event_type", event_type event);
    ("call_id", call_id event);
    ("timestamp", JStr (isoformat (timestamp event)));
    ("data", data event);
    ("source", JStr (source event)) ].

(** ** validation/phone_validator.py: the other queries *)

Section PhoneValidatorQueries.
Context `{PhoneNumbers}.

(** [PhoneValidator.is_mobile_number]; whatever raises gives [False]. *)
Definition is_mobile_number (phone_number : json) (region : option string) : bool :=
  let region_code :=
    match region with
    | Some r => if String.eqb r "" then default_region else r
    | None => default_region
    end in
  match phonenumbers_parse phone_number region_code with
  | Parsed parsed =>
      if is_valid_number parsed then
        match number_type parsed with
        | Some MOBILE | Some FIXED_LINE_OR_MOBILE => true
        | Some _ => false
        | None => false
        end
      else false
  | NumberParseException _ => false
  | OtherException _ => false
  end.

(** [is_valid_phone]: [result['is_valid']] *)
Definition is_valid_phone (phone_number : json) (region : option string) : json :=
  match validate_phone_number phone_number region with
  | JObj result => dict_get "is_valid" result
  | _ => JNull
  end.

End PhoneValidatorQueries.

(** ** database/connection.py: the customer helper *)

(** [db.query(Customer).filter(Customer.phone == phone).first()] *)
Fixpoint find_customer (phone : json) (tbl : list Customer.t) : option Customer.t :=
  match tbl with
  | [] => None
  | c :: tbl' => if json_eqb (Customer.phone c) phone then Some c else find_customer phone tbl'
  end.

(** Assignments to the attributes of the row that [find_customer] returned. *)
Fixpoint update_customer (phone : json) (f : Customer.t -> Customer.t) (tbl : list Customer.t)
  : list Customer.t :=
  match tbl with
  | [] => []
  | c :: tbl' =>
      if json_eqb (Customer.phone c) phone then f c :: tbl' else c :: update_customer phone f tbl'
  end.

Definition query_customer (phone : json) : M (option Customer.t) :=
  db_io ;;
  s <- get_pending ;;
  ret (find_customer phone (customers s)).

(** [db.flush()] *)
Definition db_flush : M unit := db_io.

(** The two conditional assignments of [get_or_create_customer] on the
    customer it found. *)
Definition refresh_customer (name email : json) (customer : Customer.t) : Customer.t :=
  let customer :=
    if negb (json_eqb (Customer.name customer) name)
    then {| Customer.id := Customer.id customer; Customer.name := name;
            Customer.phone := Customer.phone customer; Customer.email := Customer.email customer |}
    else customer in
  if truthy email && negb (json_eqb (Customer.email customer) email)
  then {| Customer.id := Customer.id customer; Customer.name := Customer.name customer;
          Customer.phone := Customer.phone customer; Customer.email := email |}
  else customer.

(** [get_or_create_customer(db, name, phone, email)]: works in the
    caller's session and does not commit. *)
Definition get_or_create_customer (name phone email : json) : M Customer.t :=
  found <- query_customer phone ;;
  match found with
  | None =>
      s <- get_pending ;;
      let customer :=
        {| Customer.id := S (length (customers s)); Customer.name := name;
           Customer.phone := phone; Customer.email := email |} in
      modify_pending (fun s => set_customers (customers s ++ [customer]) s) ;;
      db_flush ;;
      ret customer
  | Some customer =>
      modify_pending
        (fun s => set_customers (update_customer phone (refresh_customer name email) (customers s)) s) ;;
      ret (refresh_customer name email customer)
  end.

(** ** monitoring/metrics.py: the duration distribution *)

(** [timedelta(hours=n)] *)
Definition timedelta_hours (n : Z) : Z := n * 3600 * MICROS.

(** The [buckets] dictionary before the loop. *)
Definition duration_buckets : list (string * Z) :=
  [ ("0-30s", 0); ("30s-1m", 0); ("1-2m", 0); ("2-5m", 0); ("5-10m", 0); ("10m+", 0) ].

(** [buckets[k] += 1] *)
Fixpoint bump (k : string) (buckets : list (string * Z)) : list (string * Z) :=
  match buckets with
  | [] => []
  | (k', n) :: rest => if String.eqb k k' then (k', n + 1) :: rest else (k', n) :: bump k rest
  end.

(** The body of [for call in calls]. *)
Definition count_duration (buckets : list (string * Z)) (duration : Z) : list (string * Z) :=
  if duration <=? 30 then bump "0-30s" buckets
  else if duration <=? 60 then bump "30s-1m" buckets
  else if duration <=? 120 then bump "1-2m" buckets
  else if duration <=? 300 then bump "2-5m" buckets
  else if duration <=? 600 then bump "5-10m" buckets
  else bump "10m+" buckets.

(** [CallLog.call_started_at >= start_date] and
    [CallLog.duration_seconds.isnot(None)]; the duration of a selected
    row. *)
Definition selected_duration (start_date : datetime) (c : CallLog.t) : option Z :=
  match CallLog.call_started_at c with
  | Some started => if start_date <=? started then CallLog.duration_seconds c else None
  | None => None
  end.

Definition selected_durations (start_date : datetime) (tbl : list CallLog.t) : list Z :=
  omap (selected_duration start_date) tbl.

(** [datetime.utcnow() - timedelta(days=days)]; [None]: [OverflowError],
    from [timedelta] or from the date. *)
Definition window_start (days : Z) (now : datetime) : option datetime :=
  match py_timedelta_days days with
  | Some td => datetime_sub now td
  | None => None
  end.

(** [MetricsCollector.get_call_duration_distribution(days)] called at
    [now]; the empty dictionary when anything raises. *)
Definition get_call_duration_distribution (days : Z) (now : datetime) : M (list (string * Z)) :=
  try_except
    (get_db_session
       (match window_start days now with
        | None => raise
        | Some start_date =>
            db_io ;;
            s <- get_pending ;;
            let calls := selected_durations start_date (calls s) in
            ret (fold_left count_duration calls duration_buckets)
        end))
    (ret []).

(** ** monitoring/collectors.py: the cache and the real-time figures *)

(** [MetricsCollector.clear_cache] *)
Definition clear_cache {metrics : Type} (cache : gmap string (metrics * datetime))
  : gmap string (metrics * datetime) := ∅.

Module RealTime.

(** The dictionary of [get_real_time_metrics]; [timestamp] before
    [isoformat()]. *)
Record t : Type := mk {
  active_calls : Z;
  recent_calls_1h : Z;
  system_load : Z;
  timestamp : Z
}.

End RealTime.

(** [CallLog.status.in_(['initiated', 'connected', 'ringing'])] *)
Definition is_active (c : CallLog.t) : bool :=
  existsb (String.eqb (CallLog.status c)) [ "initiated"; "connected"; "ringing" ].

(** [CallLog.call_started_at >= last_hour] *)
Definition started_since (last_hour : datetime) (c : CallLog.t) : bool :=
  match CallLog.call_started_at c with
  | Some started => last_hour <=? started
  | None => false
  end.

(** [MetricsCollector.get_real_time_metrics] called at [now]; [now'] is
    the clock in the [except] branch. *)
Definition get_real_time_metrics (now now' : datetime) : M RealTime.t :=
  try_except
    (get_db_session
       (db_io ;;
        s <- get_pending ;;
        let active_calls := Z.of_nat (length (List.filter is_active (calls s))) in
        let last_hour := now - timedelta_hours 1 in
        db_io ;;
        s <- get_pending ;;
        let recent_calls := Z.of_nat (length (List.filter (started_since last_hour) (calls s))) in
        let load_indicator := Z.min (active_calls * 10) 100 in
        ret {| RealTime.active_calls := active_calls;
               RealTime.recent_calls_1h := recent_calls;
               RealTime.system_load := load_indicator;
               RealTime.timestamp := now |}))
    (ret {| RealTime.active_calls := 0;
            RealTime.recent_calls_1h := 0;
            RealTime.system_load := 0;
            RealTime.timestamp := now' |}).

(** ** Vocabulary of the further properties *)

(** What no webhook handler assigns on an existing record: its identity,
    the customer snapshot, and [call_connected_at]. *)
Definition same_snapshot (c c' : CallLog.t) : Prop :=
  CallLog.id c' = CallLog.id c
  /\ CallLog.call_id c' = CallLog.call_id c
  /\ CallLog.room_name c' = CallLog.room_name c
  /\ CallLog.dispatch_id c' = CallLog.dispatch_id c
  /\ CallLog.customer_name c' = CallLog.customer_name c
  /\ CallLog.customer_phone c' = CallLog.customer_phone c
  /\ CallLog.customer_email c' = CallLog.customer_email c
  /\ CallLog.customer_query c' = CallLog.customer_query c
  /\ CallLog.call_connected_at c' = CallLog.call_connected_at c.

(** A later state of a delivery row: what identifies it, its payload and
    its cap are the same, it has not lost a retry nor its delivery. *)
Definition row_evolves (w w' : WebhookLog.t) : Prop :=
  WebhookLog.webhook_id w' = WebhookLog.webhook_id w
  /\ WebhookLog.call_id w' = WebhookLog.call_id w
  /\ WebhookLog.event_type w' = WebhookLog.event_type w
  /\ WebhookLog.payload w' = WebhookLog.payload w
  /\ WebhookLog.max_retries w' = WebhookLog.max_retries w
  /\ WebhookLog.retry_count w <= WebhookLog.retry_count w'
  /\ (WebhookLog.delivered w = true -> WebhookLog.delivered w' = true).

(** The identifiers of the rows of [webhook_logs], in table order. *)
Definition webhook_ids (tbl : list WebhookLog.t) : list string :=
  map WebhookLog.webhook_id tbl.

(** The sum of the counts of a bucket dictionary. *)
Definition bucket_total (buckets : list (string * Z)) : Z :=
  fold_right Z.add 0 (map snd buckets).

(** ** Further sample data *)

(** A row that was delivered, and a row planned for second 120. *)
Definition sample_delivered_row : WebhookLog.t :=
  WebhookLog.set_delivered true sample_exhausted_row.

Definition sample_planned_row : WebhookLog.t :=
  {| WebhookLog.webhook_id := "w2";
     WebhookLog.call_id := JStr "c2";
     WebhookLog.event_type := JStr "call_ended";
     WebhookLog.payload := JObj [];
     WebhookLog.status_code := Some 503;
     WebhookLog.response_body := Some "unavailable";
     WebhookLog.retry_count := 1;
     WebhookLog.max_retries := 3;
     WebhookLog.next_retry_at := Some (timedelta_seconds 120);
     WebhookLog.delivered := false |}.



(** A payload of the first shape. *)
Definition sample_payload : dict :=
  [ ("event_type", JStr "call.completed"); ("call_id", JStr "c1") ].

(** A customer, and a session that has just created it. *)
Definition sample_customer : Customer.t :=
  Customer.mk 1 (JStr "A") (JStr "+16502530000") JNull.

Definition sample_session : Session :=
  {| committed := empty_store;
     pending := set_customers [sample_customer] empty_store;
     faults := [] |}.

(** * Properties *)

(** ** Values and tables *)

Lemma json_eqb_refl : forall v : json, json_eqb v v = true.
Proof.
  fix IH 1.
  intros [ | b | n | s | items | fields ]; simpl.
  - reflexivity.
  - apply Bool.eqb_reflx.
  - apply Z.eqb_refl.
  - apply String.eqb_refl.
  - induction items as [ | x xs IHxs ]; [ reflexivity | ].
    rewrite (IH x), IHxs. reflexivity.
  - induction fields as [ | [k x] xs IHxs ]; [ reflexivity | ].
    rewrite String.eqb_refl, (IH x), IHxs. reflexivity.
Qed.

Lemma find_call_app_fresh (cid : json) (tbl : list CallLog.t) (c : CallLog.t) :
  find_call cid tbl = None -> CallLog.call_id c = cid ->
  find_call cid (tbl ++ [c]) = Some c.
Proof.
  intros Hnone Hc. induction tbl as [ | x tbl IH ]; simpl in *.
  - rewrite Hc, json_eqb_refl. reflexivity.
  - destruct (json_eqb (CallLog.call_id x) cid); [ discriminate | auto ].
Qed.

Lemma find_call_app_found (cid : json) (tbl tbl' : list CallLog.t) (c : CallLog.t) :
  find_call cid tbl = Some c -> find_call cid (tbl ++ tbl') = Some c.
Proof.
  intros Hc. induction tbl as [ | x tbl IH ]; simpl in *; [ discriminate | ].
  destruct (json_eqb (CallLog.call_id x) cid); auto.
Qed.

Lemma update_call_absent (cid : json) (f : CallLog.t -> CallLog.t) (tbl : list CallLog.t) :
  find_call cid tbl = None -> update_call cid f tbl = tbl.
Proof.
  induction tbl as [ | x tbl IH ]; simpl; [ reflexivity | ].
  destruct (json_eqb (CallLog.call_id x) cid); [ discriminate | ].
  intros Hn. rewrite IH; auto.
Qed.

Lemma update_call_app_fresh (cid : json) (f : CallLog.t -> CallLog.t)
    (tbl : list CallLog.t) (c : CallLog.t) :
  find_call cid tbl = None -> CallLog.call_id c = cid ->
  update_call cid f (tbl ++ [c]) = tbl ++ [f c].
Proof.
  intros Hnone Hc. induction tbl as [ | x tbl IH ]; simpl in *.
  - rewrite Hc, json_eqb_refl. reflexivity.
  - destruct (json_eqb (CallLog.call_id x) cid); [ discriminate | ].
    rewrite IH; auto.
Qed.

Lemma length_update_call (cid : json) (f : CallLog.t -> CallLog.t) (tbl : list CallLog.t) :
  length (update_call cid f tbl) = length tbl.
Proof.
  induction tbl as [ | x tbl IH ]; simpl; [ reflexivity | ].
  destruct (json_eqb (CallLog.call_id x) cid); simpl; congruence.
Qed.

(** An assignment that keeps [call_id] leaves the row where the next query
    finds it. *)
Lemma find_call_update_same (cid : json) (f : CallLog.t -> CallLog.t) (tbl : list CallLog.t) :
  (forall c, CallLog.call_id (f c) = CallLog.call_id c) ->
  find_call cid (update_call cid f tbl) = option_map f (find_call cid tbl).
Proof.
  intros Hf. induction tbl as [ | x tbl IH ]; simpl; [ reflexivity | ].
  destruct (json_eqb (CallLog.call_id x) cid) eqn:E; simpl.
  - rewrite Hf, E. reflexivity.
  - rewrite E. exact IH.
Qed.

Lemma update_call_twice (cid : json) (f g : CallLog.t -> CallLog.t) (tbl : list CallLog.t) :
  (forall c, CallLog.call_id (f c) = CallLog.call_id c) ->
  update_call cid g (update_call cid f tbl) = update_call cid (fun c => g (f c)) tbl.
Proof.
  intros Hf. induction tbl as [ | x tbl IH ]; simpl; [ reflexivity | ].
  destruct (json_eqb (CallLog.call_id x) cid) eqn:E; simpl.
  - rewrite Hf, E. reflexivity.
  - rewrite E, IH. reflexivity.
Qed.

Lemma map_update_call_ext (h : CallLog.t -> CallLog.t) (cid : json)
    (f g : CallLog.t -> CallLog.t) (tbl : list CallLog.t) :
  (forall c, h (f c) = h (g c)) ->
  map h (update_call cid f tbl) = map h (update_call cid g tbl).
Proof.
  intros Hfg. induction tbl as [ | x tbl IH ]; simpl; [ reflexivity | ].
  destruct (json_eqb (CallLog.call_id x) cid); simpl; [ rewrite Hfg | rewrite IH ]; reflexivity.
Qed.

Lemma find_call_some_update (cid : json) (f : CallLog.t -> CallLog.t)
    (tbl : list CallLog.t) (c : CallLog.t) :
  (forall c, CallLog.call_id (f c) = CallLog.call_id c) ->
  find_call cid tbl = Some c -> find_call cid (update_call cid f tbl) = Some (f c).
Proof. intros Hf Hc. rewrite find_call_update_same, Hc; auto. Qed.

(** ** Webhook events *)

Section EventProperties.
Context `{PhoneNumbers} `{EventsEnv}.

(** *** What raises before any query *)

Lemma processor_init_raises : WebhookEventProcessor_init = None.
Proof. reflexivity. Qed.

Lemma event_handlers_get_raises (t : json) (ss : Session) :
  event_handlers_get t ss = (Raised, ss).
Proof. reflexivity. Qed.

Lemma process_event_inert (event : WebhookEvent) (now : datetime) (ss : Session) :
  _process_event event now ss = (Returned false, ss).
Proof. reflexivity. Qed.

Lemma apply_event_inert (event : WebhookEvent) (now : datetime) (s : Store) (fl : list bool) :
  apply_event event now s fl = (false, s).
Proof. reflexivity. Qed.

Lemma apply_events_inert (evs : list (WebhookEvent * datetime)) (s : Store) :
  apply_events evs s = s.
Proof.
  revert s. induction evs as [ | [event now] evs IH ]; intros s; simpl; [ reflexivity | ].
  apply IH.
Qed.

(** *** Blocks that never reach their commit *)

Ltac unfold_session :=
  unfold bind, ret, raise, query_call, get_pending, modify_pending, assign_call,
    db_add_call, db_add_event, db_io, py_get, py_get_or, declarative_init,
    upsert_customer_in_session; simpl.

Lemma guarded_wrapper (b : M bool) (s : Store) (fl : list bool) :
  rolls_back b ->
  run (try_except (get_db_session b) (ret false)) s fl = (Returned false, s).
Proof.
  intros Hb. unfold run, try_except, get_db_session.
  destruct (Hb {| committed := s; pending := s; faults := fl |}) as [ Hc Hr ].
  destruct (b {| committed := s; pending := s; faults := fl |}) as [ o ss1 ] eqn:E.
  simpl in *. destruct Hr as [ -> | [ -> Hp ] ].
  - simpl. rewrite Hc. reflexivity.
  - unfold db_commit, bind, db_io. destruct ss1 as [ c1 p1 f1 ]. simpl in *. subst.
    destruct f1 as [ | [ | ] f1 ]; reflexivity.
Qed.

Lemma update_call_status_block_rolls_back (event : WebhookEvent) (status : string)
    (error_details : json) (now : datetime) :
  rolls_back (_update_call_status_block event status error_details now).
Proof.
  intros [ c p fl ]. unfold _update_call_status_block. unfold_session.
  destruct fl as [ | [ | ] fl ]; simpl; auto;
    destruct (find_call (call_id event) (calls p)); simpl; auto.
Qed.

Lemma completed_block_rolls_back (event : WebhookEvent) (now : datetime) :
  rolls_back (_handle_call_completed_block event now).
Proof.
  intros [ c p fl ]. unfold _handle_call_completed_block. unfold_session.
  destruct fl as [ | [ | ] fl ]; simpl; auto;
    destruct (find_call (call_id event) (calls p)); simpl; auto.
Qed.

Lemma recording_block_rolls_back (event : WebhookEvent) (now : datetime) :
  rolls_back (_handle_recording_ready_block event now).
Proof.
  intros [ c p fl ]. unfold _handle_recording_ready_block. unfold_session.
  destruct fl as [ | [ | ] fl ]; simpl; auto;
    destruct (find_call (call_id event) (calls p)); simpl; auto;
    destruct (data event); simpl; auto.
Qed.

Lemma transcript_block_rolls_back (event : WebhookEvent) (now : datetime) :
  rolls_back (_handle_transcript_ready_block event now).
Proof.
  intros [ c p fl ]. unfold _handle_transcript_ready_block. unfold_session.
  destruct fl as [ | [ | ] fl ]; simpl; auto;
    destruct (find_call (call_id event) (calls p)); simpl; auto;
    destruct (data event); simpl; auto.
Qed.

Lemma error_block_rolls_back (event : WebhookEvent) (now : datetime) :
  rolls_back (_handle_error_occurred_block event now).
Proof.
  intros [ c p fl ]. unfold _handle_error_occurred_block. unfold_session.
  destruct fl as [ | [ | ] fl ]; simpl; auto;
    destruct (find_call (call_id event) (calls p)); simpl; auto;
    destruct (data event); simpl; auto.
Qed.

Lemma initiated_block_raises (event : WebhookEvent) (now : datetime) (ss : Session) :
  fst (_handle_call_initiated_block event now ss) = Raised
  /\ committed (snd (_handle_call_initiated_block event now ss)) = committed ss.
Proof.
  destruct ss as [ c p fl ]. unfold _handle_call_initiated_block. unfold_session.
  destruct (data event); simpl; auto.
  destruct fl as [ | [ | ] fl ]; simpl; auto;
    destruct (find_call (call_id event) (calls p)); simpl; auto.
Qed.

Lemma initiated_block_rolls_back (event : WebhookEvent) (now : datetime) :
  rolls_back (_handle_call_initiated_block event now).
Proof.
  intros ss. destruct (initiated_block_raises event now ss) as [ Hr Hc ]. auto.
Qed.

(** *** The two functions that log by [call_id] *)

Lemma added_nothing {R : Type} (table : Store -> list R) (c p : Store) (fl : list bool) :
  table p = table c ->
  added table {| committed := c; pending := p; faults := fl |} = [].
Proof. intros E. unfold added. simpl. rewrite E. apply drop_all. Qed.

Lemma added_one {R : Type} (table : Store -> list R) (c p : Store) (fl : list bool) (r : R) :
  table p = table c ++ [r] ->
  added table {| committed := c; pending := p; faults := fl |} = [r].
Proof. intros E. unfold added. simpl. rewrite E. apply drop_app_length. Qed.

(** The store with the log row of [event] appended. *)
Lemma log_block_cases (event : WebhookEvent) (s : Store) (fl : list bool) :
  _handle_unknown_event_block event {| committed := s; pending := s; faults := fl |}
  = match fl with
    | true :: fl' =>
        (Raised,
         {| committed := s; pending := set_events (events s ++ [log_row event]) s; faults := fl' |})
    | _ =>
        if insertable (log_row event) then
          (Returned true,
           {| committed := set_events (events s ++ [log_row event]) s;
              pending := set_events (events s ++ [log_row event]) s;
              faults := tl fl |})
        else
          (Raised,
           {| committed := s; pending := set_events (events s ++ [log_row event]) s;
              faults := tl fl |})
    end.
Proof.
  unfold _handle_unknown_event_block, db_commit_rows, bind, ret, declarative_init,
    db_add_event, modify_pending, db_io.
  simpl.
  destruct fl as [ | [ | ] fl ]; simpl; try reflexivity.
  - rewrite (added_nothing calls), (added_one events _ _ _ (log_row event)) by reflexivity.
    simpl. rewrite andb_true_r. destruct (insertable (log_row event)); reflexivity.
  - rewrite (added_nothing calls), (added_one events _ _ _ (log_row event)) by reflexivity.
    simpl. rewrite andb_true_r. destruct (insertable (log_row event)); reflexivity.
Qed.

Lemma unknown_event_run (event : WebhookEvent) (s : Store) (fl : list bool) :
  run (_handle_unknown_event event) s fl
  = match fl with
    | true :: _ => (Returned false, s)
    | _ =>
        if insertable (log_row event) then
          match tl fl with
          | true :: _ => (Returned false, set_events (events s ++ [log_row event]) s)
          | _ => (Returned true, set_events (events s ++ [log_row event]) s)
          end
        else (Returned false, s)
    end.
Proof.
  unfold run, _handle_unknown_event, try_except, get_db_session.
  rewrite log_block_cases.
  destruct fl as [ | [ | ] fl ]; simpl; try reflexivity.
  - destruct (insertable (log_row event)); reflexivity.
  - destruct (insertable (log_row event)); [ | reflexivity ].
    unfold db_commit, bind, db_io. simpl. destruct fl as [ | [ | ] fl ]; reflexivity.
Qed.

Lemma log_participant_event_run (event : WebhookEvent) (s : Store) (fl : list bool) :
  run (_log_participant_event event) s fl = run (_handle_unknown_event event) s fl.
Proof. reflexivity. Qed.

(** *** What each function of [events.py] leaves behind *)

(** Every function other than the two that log by [call_id] leaves the
    store as it was: it returns [False], or raises [AttributeError] on
    [self.<name>]. *)
Lemma entry_stores_nothing (e : entry) (event : WebhookEvent) (now : datetime) (s : Store)
    (fl : list bool) :
  logs_by_call_id e = false ->
  run (call_entry e event now) s fl = (if delegates e then Raised else Returned false, s).
Proof.
  intros Hl. destruct e as [ | h | status error_details | | ]; try discriminate; simpl.
  - reflexivity.
  - destruct h; simpl; try reflexivity.
    + apply guarded_wrapper, initiated_block_rolls_back.
    + apply guarded_wrapper, completed_block_rolls_back.
    + apply guarded_wrapper, recording_block_rolls_back.
    + apply guarded_wrapper, transcript_block_rolls_back.
    + apply guarded_wrapper, error_block_rolls_back.
  - apply guarded_wrapper, update_call_status_block_rolls_back.
Qed.

Lemma entry_logs (e : entry) (event : WebhookEvent) (now : datetime) (s : Store)
    (fl : list bool) :
  logs_by_call_id e = true ->
  run (call_entry e event now) s fl = run (_handle_unknown_event event) s fl.
Proof. destruct e as [ | h | | | ]; try discriminate; reflexivity. Qed.

(** What is committed after any call: the store it started from, or that
    store with the log row of the event. *)
Lemma entry_outcomes (e : entry) (event : WebhookEvent) (now : datetime) (s : Store)
    (fl : list bool) :
  snd (run (call_entry e event now) s fl) = s
  \/ (logs_by_call_id e = true /\ insertable (log_row event) = true
      /\ snd (run (call_entry e event now) s fl) = logged event s).
Proof.
  destruct (logs_by_call_id e) eqn:Hl.
  - rewrite entry_logs by exact Hl. rewrite unknown_event_run.
    destruct fl as [ | [ | ] fl ]; simpl; auto;
      destruct (insertable (log_row event)); simpl; auto.
    destruct fl as [ | [ | ] fl ]; simpl; auto.
  - rewrite entry_stores_nothing by exact Hl. left. reflexivity.
Qed.

Lemma entry_keeps_tables (e : entry) (event : WebhookEvent) (now : datetime) (s : Store)
    (fl : list bool) :
  calls (snd (run (call_entry e event now) s fl)) = calls s
  /\ customers (snd (run (call_entry e event now) s fl)) = customers s
  /\ webhook_logs (snd (run (call_entry e event now) s fl)) = webhook_logs s.
Proof.
  destruct (entry_outcomes e event now s fl) as [ -> | (_ & _ & ->) ]; auto.
Qed.

Lemma entry_log_growth (e : entry) (event : WebhookEvent) (now : datetime) (s : Store)
    (fl : list bool) :
  events (snd (run (call_entry e event now) s fl)) = events s
  \/ events (snd (run (call_entry e event now) s fl)) = events s ++ [log_row event].
Proof.
  destruct (entry_outcomes e event now s fl) as [ -> | (_ & _ & ->) ]; auto.
Qed.

Lemma call_entries_tables (cs : list (entry * WebhookEvent * datetime * list bool)) (s : Store) :
  calls (call_entries cs s) = calls s
  /\ customers (call_entries cs s) = customers s
  /\ webhook_logs (call_entries cs s) = webhook_logs s
  /\ (length (events s) <= length (events (call_entries cs s)) <= length (events s) + length cs)%nat.
Proof.
  revert s. induction cs as [ | [ [ [ e event ] now ] fl ] cs IH ]; intros s; simpl.
  - repeat split; lia.
  - destruct (IH (snd (run (call_entry e event now) s fl))) as (Hc & Hk & Hw & Hlen).
    destruct (entry_keeps_tables e event now s fl) as (Hc1 & Hk1 & Hw1).
    rewrite Hc, Hk, Hw. repeat split; auto.
    + destruct (entry_log_growth e event now s fl) as [ E | E ]; rewrite E in Hlen;
        [ | rewrite length_app in Hlen; simpl in Hlen ]; lia.
    + destruct (entry_log_growth e event now s fl) as [ E | E ]; rewrite E in Hlen;
        [ | rewrite length_app in Hlen; simpl in Hlen ]; lia.
Qed.


(** Whatever happens, the session is left with nothing uncommitted. *)
Lemma get_db_session_settled {A : Type} (b : M A) (ss : Session) :
  pending (snd (get_db_session b ss)) = committed (snd (get_db_session b ss)).
Proof.
  unfold get_db_session. destruct (b ss) as [ [ a | ] ss1 ]; [ | reflexivity ].
  destruct (db_commit ss1) as [ [ u | ] ss2 ]; reflexivity.
Qed.

Lemma entry_settled (e : entry) (event : WebhookEvent) (now : datetime) (s : Store)
    (fl : list bool) :
  pending (snd (call_entry e event now {| committed := s; pending := s; faults := fl |}))
  = committed (snd (call_entry e event now {| committed := s; pending := s; faults := fl |})).
Proof.
  assert (Hw : forall b : M bool,
             pending (snd (try_except (get_db_session b) (ret false)
                             {| committed := s; pending := s; faults := fl |}))
             = committed (snd (try_except (get_db_session b) (ret false)
                                 {| committed := s; pending := s; faults := fl |}))).
  { intros b. unfold try_except.
    pose proof (get_db_session_settled b {| committed := s; pending := s; faults := fl |}) as Hs.
    destruct (get_db_session b {| committed := s; pending := s; faults := fl |})
      as [ [ a | ] ss1 ]; exact Hs. }
  destruct e as [ | h | status error_details | | ]; simpl; try apply Hw; try reflexivity.
  destruct h; simpl; try apply Hw; reflexivity.
Qed.

Lemma has_record_same_calls (cid : json) (s s' : Store) :
  calls s' = calls s -> has_record cid s' = has_record cid s.
Proof. intros E. unfold has_record. rewrite E. reflexivity. Qed.

Lemma list_not_longer {A : Type} (l : list A) (x : A) : l <> l ++ [x].
Proof.
  intros E. apply (f_equal (@length A)) in E. rewrite length_app in E. simpl in E. lia.
Qed.

Lemma total_seconds_whole (n : Z) : (total_seconds (timedelta_seconds n) == inject_Z n)%Q.
Proof.
  unfold total_seconds, timedelta_seconds, MICROS, Qeq, inject_Z. simpl. lia.
Qed.

Lemma total_seconds_pos (td : Z) : 0 < td -> (0 < total_seconds td)%Q.
Proof. intros Htd. unfold total_seconds, Qlt. simpl. lia. Qed.

(** ** Call state *)

(** C1 (the code departs from it). For a call record of any status, a
    terminal one included, [_update_call_status] assigns the new status to
    the record it queried, without looking at the old one, and then raises
    at [CallEvent(call_log_id=...)], a keyword that [CallEvent] does not
    have: the block is rolled back, the function returns [False] under
    any fault schedule, and the store is as before.  The status is the
    old one, but the event is not appended to the event log; nor is it by
    [_handle_call_completed] or through [_process_event]. *)
Theorem terminal_event_not_logged (event : WebhookEvent) (status : string)
    (error_details : json) (now : datetime) (s : Store) (fl : list bool) (c : CallLog.t) :
  find_call (call_id event) (calls s) = Some c ->
  (let ss' := snd (_update_call_status_block event status error_details now
                     {| committed := s; pending := s; faults := [] |}) in
   fst (_update_call_status_block event status error_details now
          {| committed := s; pending := s; faults := [] |}) = Raised
   /\ find_call (call_id event) (calls (pending ss')) = Some (CallLog.set_status status c)
   /\ events (pending ss') = events s
   /\ committed ss' = s)
  /\ run (_update_call_status event status error_details now) s fl = (Returned false, s)
  /\ run (_handle_call_completed event now) s fl = (Returned false, s)
  /\ apply_event event now s fl = (false, s)
  /\ events s <> events s ++ [log_row event].
Proof.
  intros Hc. split; [ | split; [ | split; [ | split ] ] ].
  - unfold _update_call_status_block, bind, query_call, db_io, get_pending, ret, assign_call,
      modify_pending, declarative_init, raise.
    simpl. rewrite Hc. simpl. repeat split.
    rewrite find_call_update_same by (intros c0; destruct (truthy error_details); reflexivity).
    rewrite Hc. simpl. destruct (truthy error_details); reflexivity.
  - apply guarded_wrapper, update_call_status_block_rolls_back.
  - apply guarded_wrapper, completed_block_rolls_back.
  - apply apply_event_inert.
  - apply list_not_longer.
Qed.




Lemma run_committed {A : Type} (m : M A) (s : Store) (fl : list bool) :
  snd (run m s fl) = committed (snd (m {| committed := s; pending := s; faults := fl |})).
Proof.
  unfold run. destruct (m {| committed := s; pending := s; faults := fl |}). reflexivity.
Qed.

(** C9. The call-record assignments and the log row of one application are
    committed together or not at all: under any schedule of store failures,
    what is committed afterwards is the store the application started from,
    or the whole effect of the fault-free application, whose log row is
    then in [call_events]; and the session holds nothing uncommitted.  The
    same holds of every function of [events.py] called by its name: what
    is committed is the store it started from, or that store with the log
    row of the event. *)
Theorem application_is_atomic (e : entry) (event : WebhookEvent) (now : datetime) (s : Store)
    (fl : list bool) :
  (let ss' := snd (_process_event event now {| committed := s; pending := s; faults := fl |}) in
   pending ss' = committed ss'
   /\ (committed ss' = s
       \/ (committed ss' = snd (apply_event event now s [])
           /\ events (committed ss') = events s ++ [log_row event])))
  /\ (let ss' := snd (call_entry e event now {| committed := s; pending := s; faults := fl |}) in
      pending ss' = committed ss'
      /\ (committed ss' = s \/ committed ss' = logged event s)).
Proof.
  split.
  - rewrite process_event_inert. simpl. split; [ reflexivity | left; reflexivity ].
  - cbv zeta. split; [ apply entry_settled | ].
    rewrite <- run_committed.
    destruct (entry_outcomes e event now s fl) as [ E | (_ & _ & E) ]; auto.
Qed.

(** ** Normalisation *)

Lemma dict_get_absent (k : string) (d : dict) :
  dict_mem k d = false -> dict_get k d = JNull.
Proof.
  unfold dict_get. induction d as [ | [k' v] d IH ]; simpl; [ reflexivity | ].
  destruct (String.eqb k k'); [ discriminate | exact IH ].
Qed.

Lemma parse_without_call_id (payload : dict) (src : string) (now : datetime) :
  truthy (dict_get "call_id" payload) = false ->
  truthy (dict_get "callId" payload) = false ->
  _parse_webhook_event payload src now = None.
Proof.
  intros Hsnake Hcamel. unfold _parse_webhook_event, py_or.
  destruct (dict_mem "event_type" payload).
  - rewrite Hsnake. reflexivity.
  - destruct (dict_mem "type" payload); [ | reflexivity ].
    rewrite Hcamel, Hsnake. reflexivity.
Qed.

(** C4. A payload in which no call identifier is found under [call_id] or
    [callId] (the key is absent, or its value is null or empty), whatever
    its shape, is not normalised into an event ([_parse_webhook_event]
    returns [None]); processing it returns [False], changes no call record
    and appends no call event, under any fault schedule. *)
Theorem missing_call_id_rejected (payload : dict) (src : string) (now : datetime)
    (s : Store) (fl : list bool) :
  truthy (dict_get "call_id" payload) = false ->
  truthy (dict_get "callId" payload) = false ->
  _parse_webhook_event payload src now = None
  /\ fst (receive_webhook payload src now s fl) = false
  /\ calls (snd (receive_webhook payload src now s fl)) = calls s
  /\ events (snd (receive_webhook payload src now s fl)) = events s.
Proof.
  intros Hsnake Hcamel.
  pose proof (parse_without_call_id payload src now Hsnake Hcamel) as Hparse.
  split; [ exact Hparse | ].
  unfold receive_webhook, run, process_webhook, log_webhook_in_session, try_except, bind, ret.
  cbn. rewrite Hparse.
  destruct (_log_webhook (webhook_logs s) payload src) as [ [tbl i] | ]; cbn; auto.
Qed.

(** ** Phone numbers on creation *)

Lemma validate_phone_number_is_dict (phone : json) (region : option string) :
  exists result, validate_phone_number phone region = JObj result /\ result <> [].
Proof.
  unfold validate_phone_number.
  destruct (phonenumbers_parse phone _) as [ parsed | msg | msg ].
  - destruct (is_valid_number parsed); eexists; (split; [ reflexivity | discriminate ]).
  - eexists; (split; [ reflexivity | discriminate ]).
  - eexists; (split; [ reflexivity | discriminate ]).
Qed.

Lemma initiated_customer_phone_validated (phone : json) :
  truthy phone = true ->
  initiated_customer_phone phone = validate_phone_number phone None.
Proof.
  intros Ht. unfold initiated_customer_phone. rewrite Ht.
  destruct (validate_phone_number_is_dict phone None) as (result & -> & Hne).
  destruct result; [ congruence | reflexivity ].
Qed.

(** C5 (the code departs from it). For a [call.initiated] event with a
    customer phone [p], the value that [_handle_call_initiated] gives to
    [customer_phone] is the result dictionary of [validate_phone_number],
    which is never empty: neither the E.164 string when the number is
    valid, which is what [format_for_dialing] returns, nor the original
    string when it is not.  The record that the block builds for a new
    call holds that dictionary, and the block then raises at
    [CallEvent(call_log_id=...)]: the function returns [False] and the
    store is as before, under any fault schedule. *)
Theorem initiated_phone_is_validation_dict (event : WebhookEvent) (now : datetime)
    (s : Store) (fl : list bool) (d : dict) (p : string) :
  data event = JObj d ->
  py_or (dict_get "customer_phone" d) (dict_get "to" d) = JStr p ->
  truthy (JStr p) = true ->
  find_call (call_id event) (calls s) = None ->
  initiated_customer_phone (JStr p) = validate_phone_number (JStr p) None
  /\ is_dict (initiated_customer_phone (JStr p)) = true
  /\ initiated_customer_phone (JStr p) <> JStr p
  /\ (forall parsed,
        phonenumbers_parse (JStr p) default_region = Parsed parsed ->
        is_valid_number parsed = true ->
        format_for_dialing (JStr p) None = JStr (format_number parsed E164)
        /\ initiated_customer_phone (JStr p) <> JStr (format_number parsed E164))
  /\ (exists c,
        fst (_handle_call_initiated_block event now
               {| committed := s; pending := s; faults := [] |}) = Raised
        /\ calls (pending (snd (_handle_call_initiated_block event now
                                  {| committed := s; pending := s; faults := [] |})))
           = calls s ++ [c]
        /\ CallLog.call_id c = call_id event
        /\ CallLog.customer_phone c = validate_phone_number (JStr p) None)
  /\ run (_handle_call_initiated event now) s fl = (Returned false, s).
Proof.
  intros Hd Hp Ht Hc.
  pose proof (initiated_customer_phone_validated (JStr p) Ht) as Hv.
  destruct (validate_phone_number_is_dict (JStr p) None) as (result & Hr & Hne).
  split; [ exact Hv | ]. split; [ rewrite Hv, Hr; reflexivity | ].
  split; [ rewrite Hv, Hr; discriminate | ]. split; [ | split ].
  - intros parsed Hparse Hvalid. split; [ | rewrite Hv, Hr; discriminate ].
    unfold format_for_dialing, validate_phone_number. rewrite Hparse, Hvalid. reflexivity.
  - eexists. unfold _handle_call_initiated_block.
    unfold bind, ret, raise, query_call, get_pending, modify_pending, db_add_call, db_io,
      py_get, py_get_or, declarative_init.
    rewrite Hd. simpl. rewrite Hp, Hc. simpl.
    split; [ reflexivity | ]. split; [ reflexivity | ]. split; [ reflexivity | ].
    simpl. exact Hv.
  - apply guarded_wrapper, initiated_block_rolls_back.
Qed.

(** ** Durations *)

(** C6 (the code departs from it). For a [call.completed] event on an
    existing call record, [_handle_call_completed] computes the duration
    as claimed ([T1 - T0] in seconds, positive when [T1 > T0]; [None]
    without [call_started_at]) but assigns it to [call_log.duration],
    which is not a column ([duration_seconds] is), and then raises at
    [CallEvent(call_log_id=...)]: the function returns [False] under any
    fault schedule and the record is the one it found, with its status,
    [call_ended_at] and [duration_seconds] as before. *)
Theorem completed_stores_no_duration (event : WebhookEvent) (now : datetime) (s : Store)
    (fl : list bool) (c : CallLog.t) :
  find_call (call_id event) (calls s) = Some c ->
  (forall T0, CallLog.call_started_at c = Some T0 ->
     completed_duration event c = Some (total_seconds (timestamp event - T0))
     /\ (T0 < timestamp event -> (0 < total_seconds (timestamp event - T0))%Q)
     /\ (forall n, timestamp event = T0 + timedelta_seconds n ->
         (total_seconds (timestamp event - T0) == inject_Z n)%Q))
  /\ (CallLog.call_started_at c = None -> completed_duration event c = None)
  /\ (let ss' := snd (_handle_call_completed_block event now
                        {| committed := s; pending := s; faults := [] |}) in
      fst (_handle_call_completed_block event now
             {| committed := s; pending := s; faults := [] |}) = Raised
      /\ find_call (call_id event) (calls (pending ss'))
         = Some (CallLog.set_call_ended_at (Some (timestamp event))
                   (CallLog.set_status "completed" c))
      /\ committed ss' = s)
  /\ run (_handle_call_completed event now) s fl = (Returned false, s)
  /\ find_call (call_id event) (calls (snd (run (_handle_call_completed event now) s fl)))
     = Some c.
Proof.
  intros Hc. split; [ | split; [ | split; [ | split ] ] ].
  - intros T0 Hs. unfold completed_duration. rewrite Hs. split; [ reflexivity | ]. split.
    + intros Hlt. apply total_seconds_pos. lia.
    + intros n ->. replace (T0 + timedelta_seconds n - T0) with (timedelta_seconds n) by lia.
      apply total_seconds_whole.
  - intros Hs. unfold completed_duration. rewrite Hs. reflexivity.
  - unfold _handle_call_completed_block, bind, query_call, db_io, get_pending, ret, assign_call,
      modify_pending, declarative_init, raise.
    simpl. rewrite Hc. simpl. split; [ reflexivity | ]. split; [ | reflexivity ].
    rewrite find_call_update_same by (intros c0; reflexivity).
    rewrite Hc. reflexivity.
  - apply guarded_wrapper, completed_block_rolls_back.
  - assert (E : run (_handle_call_completed event now) s fl = (Returned false, s))
      by apply guarded_wrapper, completed_block_rolls_back.
    rewrite E. exact Hc.
Qed.

End EventProperties.

(** ** Webhook events on sample data *)

(** The two payload shapes, with the call identifier under [call_id] and
    under [callId]. *)
Example parse_first_shape :
  _parse_webhook_event
    [("event_type", JStr "call.completed"); ("call_id", JStr "c1"); ("data", JObj [])]
    "livekit" (timedelta_seconds 200)
  = Some (sample_event CALL_COMPLETED "c1" (timedelta_seconds 200) []).
Proof. reflexivity. Qed.

Example parse_second_shape :
  _parse_webhook_event
    [("type", JStr "call.completed"); ("callId", JStr "c1"); ("payload", JObj [])]
    "livekit" (timedelta_seconds 200)
  = Some (sample_event CALL_COMPLETED "c1" (timedelta_seconds 200) []).
Proof. reflexivity. Qed.

(** In the first shape the identifier is read under [call_id] only. *)
Example parse_first_shape_other_alias :
  _parse_webhook_event
    [("event_type", JStr "call.completed"); ("callId", JStr "c1"); ("data", JObj [])]
    "livekit" (timedelta_seconds 200)
  = None.
Proof. reflexivity. Qed.

(** The scenario of the specification, initiated at second 100 and
    completed at second 160, for a call with a phone number: neither
    function stores anything. *)
Example scenario_initiated_then_completed :
  run (_handle_call_initiated
         (sample_event CALL_INITIATED "c1" (timedelta_seconds 100)
            [("customer_phone", JStr "+16502530000"); ("customer_name", JStr "A")])
         (timedelta_seconds 101)) empty_store []
  = (Returned false, empty_store)
  /\ run (_handle_call_completed (sample_event CALL_COMPLETED "c1" (timedelta_seconds 160) [])
            (timedelta_seconds 161)) empty_store []
     = (Returned false, empty_store)
  /\ apply_events
       [ (sample_event CALL_INITIATED "c1" (timedelta_seconds 100)
            [("customer_phone", JStr "+16502530000"); ("customer_name", JStr "A")],
          timedelta_seconds 101);
         (sample_event CALL_COMPLETED "c1" (timedelta_seconds 160) [], timedelta_seconds 161) ]
       empty_store
     = empty_store.
Proof. split; [ reflexivity | ]. split; reflexivity. Qed.

(** An event of a type that has no handler, given to
    [_handle_unknown_event]: one row is logged. *)
Example unknown_event_logged :
  run (_handle_unknown_event (sample_event "call.transferred" "c1" (timedelta_seconds 170) []))
    store_initiated []
  = (Returned true,
     set_events
       [ {| CallEvent.call_id := JStr "c1";
            CallEvent.event_type := JStr "call.transferred";
            CallEvent.event_data := JObj [] |} ] store_initiated).
Proof. reflexivity. Qed.

(** An event without type: the database refuses the row, [event_type]
    being [nullable=False], and nothing is logged. *)
Example null_event_type_not_logged :
  run (_handle_unknown_event
         {| event_type := JNull; call_id := JStr "c1"; timestamp := timedelta_seconds 170;
            data := JObj []; source := "livekit" |})
    store_initiated []
  = (Returned false, store_initiated).
Proof. reflexivity. Qed.

(** A [call.connected] event for the completed call ["c1"]: the status is
    still [completed], and nothing is logged. *)
Lemma terminal_event_not_logged_witness :
  (exists c,
     find_call (JStr "c1") (calls store_completed) = Some c
     /\ CallLog.status c = "completed"
     /\ is_terminal (CallLog.status c) = true)
  /\ run (_update_call_status (sample_event CALL_CONNECTED "c1" (timedelta_seconds 170) [])
            "connected" JNull (timedelta_seconds 171)) store_completed []
     = (Returned false, store_completed)
  /\ apply_event (sample_event CALL_CONNECTED "c1" (timedelta_seconds 170) [])
       (timedelta_seconds 171) store_completed []
     = (false, store_completed)
  /\ events store_completed = [].
Proof.
  split; [ eexists; split; [ reflexivity | split; reflexivity ] | ].
  destruct (terminal_event_not_logged
              (sample_event CALL_CONNECTED "c1" (timedelta_seconds 170) [])
              "connected" JNull (timedelta_seconds 171) store_completed [] _ eq_refl)
    as (_ & Hrun & _ & Happly & _).
  split; [ exact Hrun | ]. split; [ exact Happly | reflexivity ].
Defined.



Lemma missing_call_id_rejected_witness :
  truthy (dict_get "call_id" [("type", JStr "call.completed"); ("payload", JObj [])]) = false
  /\ truthy (dict_get "callId" [("type", JStr "call.completed"); ("payload", JObj [])]) = false
  /\ _parse_webhook_event [("type", JStr "call.completed"); ("payload", JObj [])]
       "livekit" (timedelta_seconds 200) = None
  /\ fst (receive_webhook [("type", JStr "call.completed"); ("payload", JObj [])]
            "livekit" (timedelta_seconds 200) store_initiated []) = false
  /\ calls (snd (receive_webhook [("type", JStr "call.completed"); ("payload", JObj [])]
                   "livekit" (timedelta_seconds 200) store_initiated []))
     = calls store_initiated
  /\ events (snd (receive_webhook [("type", JStr "call.completed"); ("payload", JObj [])]
                    "livekit" (timedelta_seconds 200) store_initiated []))
     = events store_initiated.
Proof.
  split; [ reflexivity | split; [ reflexivity | ] ].
  apply (missing_call_id_rejected [("type", JStr "call.completed"); ("payload", JObj [])]
           "livekit" (timedelta_seconds 200) store_initiated []); reflexivity.
Defined.

(** A [call.initiated] event for an unseen call with the valid number
    ["+16502530000"]: the value for [customer_phone] is the validation
    dictionary, and nothing is stored. *)
Lemma initiated_phone_is_validation_dict_witness :
  data (sample_event CALL_INITIATED "c2" (timedelta_seconds 100)
          [("customer_phone", JStr "+16502530000"); ("customer_name", JStr "A")])
  = JObj [("customer_phone", JStr "+16502530000"); ("customer_name", JStr "A")]
  /\ find_call (JStr "c2") (calls store_initiated) = None
  /\ format_for_dialing (JStr "+16502530000") None = JStr "+16502530000"
  /\ is_dict (initiated_customer_phone (JStr "+16502530000")) = true
  /\ initiated_customer_phone (JStr "+16502530000") <> JStr "+16502530000"
  /\ run (_handle_call_initiated
            (sample_event CALL_INITIATED "c2" (timedelta_seconds 100)
               [("customer_phone", JStr "+16502530000"); ("customer_name", JStr "A")])
            (timedelta_seconds 101)) store_initiated []
     = (Returned false, store_initiated).
Proof.
  split; [ reflexivity | ]. split; [ reflexivity | ].
  destruct (initiated_phone_is_validation_dict
              (sample_event CALL_INITIATED "c2" (timedelta_seconds 100)
                 [("customer_phone", JStr "+16502530000"); ("customer_name", JStr "A")])
              (timedelta_seconds 101) store_initiated []
              [("customer_phone", JStr "+16502530000"); ("customer_name", JStr "A")]
              "+16502530000" eq_refl eq_refl eq_refl eq_refl)
    as (_ & Hdict & Hnot & Hvalid & _ & Hrun).
  destruct (Hvalid "+16502530000" eq_refl eq_refl) as (Hformat & _).
  split; [ exact Hformat | ]. split; [ exact Hdict | ]. split; [ exact Hnot | exact Hrun ].
Defined.

(** A [call.completed] event at second 160 for the call ["c1"], started at
    second 100: the duration computed is 60 seconds, and the record is as
    before. *)
Lemma completed_stores_no_duration_witness :
  find_call (JStr "c1") (calls store_initiated) = Some sample_call
  /\ completed_duration (sample_event CALL_COMPLETED "c1" (timedelta_seconds 160) []) sample_call
     = Some (total_seconds (timedelta_seconds 160 - timedelta_seconds 100))
  /\ (total_seconds (timedelta_seconds 160 - timedelta_seconds 100) == inject_Z 60)%Q
  /\ run (_handle_call_completed (sample_event CALL_COMPLETED "c1" (timedelta_seconds 160) [])
            (timedelta_seconds 161)) store_initiated []
     = (Returned false, store_initiated)
  /\ CallLog.call_ended_at sample_call = None
  /\ CallLog.duration_seconds sample_call = None.
Proof.
  split; [ reflexivity | ].
  destruct (completed_stores_no_duration
              (sample_event CALL_COMPLETED "c1" (timedelta_seconds 160) [])
              (timedelta_seconds 161) store_initiated [] sample_call eq_refl)
    as (Hdur & _ & _ & Hrun & _).
  destruct (Hdur (timedelta_seconds 100) eq_refl) as (Hd & _ & Hn).
  split; [ exact Hd | ]. split; [ apply (Hn 60); reflexivity | ].
  split; [ exact Hrun | ]. split; reflexivity.
Defined.


(** ** Outbound deliveries *)

Section DeliveryProperties.
Context `{FloatArith}.
Variable self : WebhookManager.t.


Lemma same_retry_state_trans (w1 w2 w3 : WebhookLog.t) :
  same_retry_state w1 w2 -> same_retry_state w2 w3 -> same_retry_state w1 w3.
Proof. unfold same_retry_state. intuition congruence. Qed.

Lemma same_retry_state_exhausted (w w' : WebhookLog.t) :
  same_retry_state w w' -> exhausted w -> exhausted w'.
Proof. unfold same_retry_state, exhausted. intros (-> & -> & _). auto. Qed.

(** *** The date of a retry *)





Lemma schedule_retry_keeps_id (now : datetime) (w : WebhookLog.t) :
  WebhookLog.webhook_id (schedule_retry self now w) = WebhookLog.webhook_id w.
Proof.
  unfold schedule_retry.
  destruct (WebhookLog.retry_count w <? WebhookLog.max_retries w); [ | reflexivity ].
  destruct (retry_time self now _); reflexivity.
Qed.


Lemma due_for_retry_delivered (now : datetime) (w : WebhookLog.t) :
  WebhookLog.delivered w = true -> due_for_retry now w = false.
Proof. unfold due_for_retry. intros ->. reflexivity. Qed.


(** *** Assignments by [webhook_id] *)

Lemma update_webhook_lookup (wid : string) (f : WebhookLog.t -> WebhookLog.t)
    (tbl : list WebhookLog.t) (i : nat) (w : WebhookLog.t) :
  tbl !! i = Some w ->
  exists w', update_webhook wid f tbl !! i = Some w' /\ (w' = w \/ w' = f w).
Proof.
  revert i. induction tbl as [ | x tbl IH ]; intros i Hi; [ discriminate | ].
  simpl. destruct (String.eqb (WebhookLog.webhook_id x) wid).
  - destruct i as [ | i ]; simpl in *; [ injection Hi as -> | ]; eauto.
  - destruct i as [ | i ]; simpl in *; [ injection Hi as -> | ]; eauto.
Qed.

Lemma update_webhook_keeps (P : WebhookLog.t -> Prop) (wid : string)
    (f : WebhookLog.t -> WebhookLog.t) (tbl : list WebhookLog.t) (i : nat) (w : WebhookLog.t) :
  (forall w, P w -> P (f w)) ->
  tbl !! i = Some w -> P w ->
  exists w', update_webhook wid f tbl !! i = Some w' /\ P w'.
Proof.
  intros Hf Hi Hw. destruct (update_webhook_lookup wid f tbl i w Hi) as (w' & Hw' & [ -> | -> ]);
    eauto.
Qed.


Lemma length_update_webhook (wid : string) (f : WebhookLog.t -> WebhookLog.t)
    (tbl : list WebhookLog.t) :
  length (update_webhook wid f tbl) = length tbl.
Proof.
  induction tbl as [ | x t IH ]; simpl; [ reflexivity | ].
  destruct (String.eqb (WebhookLog.webhook_id x) wid); simpl; congruence.
Qed.


Lemma update_webhook_absent (wid : string) (f : WebhookLog.t -> WebhookLog.t)
    (tbl : list WebhookLog.t) :
  find_webhook wid tbl = None -> update_webhook wid f tbl = tbl.
Proof.
  induction tbl as [ | x tbl IH ]; simpl; [ reflexivity | ].
  destruct (String.eqb (WebhookLog.webhook_id x) wid); [ discriminate | ].
  intros Hn. rewrite IH; auto.
Qed.



Lemma update_webhook_lookup_other (wid : string) (f : WebhookLog.t -> WebhookLog.t)
    (tbl : list WebhookLog.t) (i : nat) (w : WebhookLog.t) :
  tbl !! i = Some w -> WebhookLog.webhook_id w <> wid ->
  update_webhook wid f tbl !! i = Some w.
Proof.
  revert i. induction tbl as [ | x tbl IH ]; intros i Hi Hne; [ discriminate | ].
  simpl. destruct (String.eqb_spec (WebhookLog.webhook_id x) wid) as [ Heq | Hneq ].
  - destruct i as [ | i ]; simpl in *; [ | exact Hi ]. injection Hi as ->. contradiction.
  - destruct i as [ | i ]; simpl in *; [ exact Hi | apply IH; assumption ].
Qed.

Lemma webhook_ids_update (wid : string) (f : WebhookLog.t -> WebhookLog.t)
    (tbl : list WebhookLog.t) :
  (forall w, WebhookLog.webhook_id (f w) = WebhookLog.webhook_id w) ->
  webhook_ids (update_webhook wid f tbl) = webhook_ids tbl.
Proof.
  intros Hf. unfold webhook_ids. induction tbl as [ | x tbl IH ]; simpl; [ reflexivity | ].
  destruct (String.eqb (WebhookLog.webhook_id x) wid); simpl; [ rewrite Hf | rewrite IH ];
    reflexivity.
Qed.



(** The sweep selects rows that are due. *)
Lemma pending_from_selected (now : datetime) (tbl : list WebhookLog.t) (k i : nat) :
  In i (pending_from now k tbl) ->
  exists w, tbl !! (i - k)%nat = Some w /\ due_for_retry now w = true /\ (k <= i)%nat.
Proof.
  revert k. induction tbl as [ | x tbl IH ]; intros k Hin; simpl in *; [ contradiction | ].
  destruct (due_for_retry now x) eqn:Hdue.
  - destruct Hin as [ <- | Hin ].
    + exists x. rewrite Nat.sub_diag. auto.
    + destruct (IH _ Hin) as (w & Hw & Hd & Hle).
      exists w. replace (i - k)%nat with (S (i - S k)) by lia. simpl. repeat split; auto; lia.
  - destruct (IH _ Hin) as (w & Hw & Hd & Hle).
    exists w. replace (i - k)%nat with (S (i - S k)) by lia. simpl. repeat split; auto; lia.
Qed.

Lemma selected_is_due (now : datetime) (tbl : list WebhookLog.t) (i : nat) :
  In i (pending_webhooks now tbl) ->
  exists w, tbl !! i = Some w /\ due_for_retry now w = true.
Proof.
  intros Hin. destruct (pending_from_selected now tbl 0 i Hin) as (w & Hw & Hd & _).
  rewrite Nat.sub_0_r in Hw. eauto.
Qed.



Lemma length_attempt (post : network) (url wid : string) (tbl : list WebhookLog.t) :
  length (snd (_attempt_webhook_delivery post url wid tbl)) = length tbl.
Proof.
  unfold _attempt_webhook_delivery.
  destruct (post url wid) as [ status text | | msg ]; simpl;
    [ | reflexivity | apply length_update_webhook ].
  destruct (find_webhook wid tbl); [ | reflexivity ].
  destruct ((200 <=? status) && (status <? 300)); simpl; rewrite ?length_update_webhook;
    reflexivity.
Qed.

Lemma webhook_ids_attempt (post : network) (url wid : string) (tbl : list WebhookLog.t) :
  webhook_ids (snd (_attempt_webhook_delivery post url wid tbl)) = webhook_ids tbl.
Proof.
  unfold _attempt_webhook_delivery.
  destruct (post url wid) as [ status text | | msg ]; simpl;
    [ | reflexivity | apply webhook_ids_update; reflexivity ].
  destruct (find_webhook wid tbl); [ | reflexivity ].
  destruct ((200 <=? status) && (status <? 300)); simpl;
    rewrite ?webhook_ids_update by reflexivity; reflexivity.
Qed.

Lemma attempt_lookup_other (post : network) (url wid : string) (tbl : list WebhookLog.t)
    (i : nat) (w : WebhookLog.t) :
  tbl !! i = Some w -> WebhookLog.webhook_id w <> wid ->
  snd (_attempt_webhook_delivery post url wid tbl) !! i = Some w.
Proof.
  intros Hi Hne. unfold _attempt_webhook_delivery.
  destruct (post url wid) as [ status text | | msg ]; simpl;
    [ | exact Hi | apply update_webhook_lookup_other; assumption ].
  destruct (find_webhook wid tbl); [ | exact Hi ].
  destruct ((200 <=? status) && (status <? 300)); simpl;
    repeat (apply update_webhook_lookup_other; [ | assumption ]); exact Hi.
Qed.

(** *** What every operation of the manager keeps *)

Section RowInvariant.
Variable P : WebhookLog.t -> Prop.
Hypothesis P_status_code : forall v w, P w -> P (WebhookLog.set_status_code v w).
Hypothesis P_response_body : forall v w, P w -> P (WebhookLog.set_response_body v w).
Hypothesis P_delivered : forall w, P w -> P (WebhookLog.set_delivered true w).
Hypothesis P_schedule : forall now w, P w -> P (schedule_retry self now w).

Lemma attempt_keeps (post : network) (url wid : string) (tbl : list WebhookLog.t)
    (i : nat) (w : WebhookLog.t) :
  tbl !! i = Some w -> P w ->
  exists w', snd (_attempt_webhook_delivery post url wid tbl) !! i = Some w' /\ P w'.
Proof.
  intros Hi Hw. unfold _attempt_webhook_delivery.
  destruct (post url wid) as [ status text | | msg ]; simpl; [ | eauto | ].
  - destruct (find_webhook wid tbl); [ | eauto ].
    destruct (update_webhook_keeps P wid
                (fun w => WebhookLog.set_response_body (Some (str_prefix 1000 text))
                            (WebhookLog.set_status_code (Some status) w)) tbl i w)
      as (w1 & Hw1 & HP1); auto.
    destruct ((200 <=? status) && (status <? 300)); simpl; [ | eauto ].
    apply (update_webhook_keeps P wid (WebhookLog.set_delivered true) _ i w1); auto.
  - apply (update_webhook_keeps P wid _ tbl i w); auto.
Qed.

Lemma try_urls_keeps (post : network) (urls : list string) (wid : string)
    (success : option bool) (attached : bool) (tbl : list WebhookLog.t) (i : nat)
    (w : WebhookLog.t) :
  tbl !! i = Some w -> P w ->
  exists w', snd (try_urls post urls wid success attached tbl) !! i = Some w' /\ P w'.
Proof.
  revert success attached tbl w.
  induction urls as [ | url urls IH ]; intros success attached tbl w Hi Hw; simpl; [ eauto | ].
  destruct attached; [ | simpl; eauto ].
  destruct (attempt_keeps post url wid tbl i w Hi Hw) as (w1 & Hw1 & HP1).
  destruct (_attempt_webhook_delivery post url wid tbl) as [ ok tbl1 ]. simpl in Hw1.
  destruct ok; simpl; eauto.
Qed.

(** The sweep's loop, for a row that is not selected, or for any row when
    clearing [next_retry_at] keeps [P]. *)
Lemma retry_loop_keeps (post : network) (clock : nat -> datetime) (selected : list nat)
    (i : nat) :
  (~ In i selected \/ forall w, P w -> P (WebhookLog.set_next_retry_at None w)) ->
  forall (success : option bool) (attached : bool) (tbl : list WebhookLog.t)
         (w : WebhookLog.t),
    tbl !! i = Some w -> P w ->
    exists w', retry_loop self post clock selected success attached tbl !! i = Some w' /\ P w'.
Proof.
  induction selected as [ | j rest IH ]; intros Hsel success attached tbl w Hi Hw; simpl;
    [ eauto | ].
  assert (Hrest : ~ In i rest \/ forall w, P w -> P (WebhookLog.set_next_retry_at None w)).
  { destruct Hsel as [ Hnot | Hreset ]; [ left; intros Hin; apply Hnot; right; exact Hin | auto ]. }
  destruct (tbl !! j) as [ wj | ] eqn:Hj; [ | eauto ].
  assert (H1 : exists w1,
             (if attached then alter (WebhookLog.set_next_retry_at None) j tbl else tbl) !! i
             = Some w1 /\ P w1).
  { destruct attached; [ | eauto ].
    destruct (decide (j = i)) as [ -> | Hji ].
    - rewrite list_lookup_alter_eq, Hi. simpl. eexists. split; [ reflexivity | ].
      destruct Hsel as [ Hnot | Hreset ]; [ exfalso; apply Hnot; left; reflexivity | auto ].
    - rewrite list_lookup_alter_ne by exact Hji. eauto. }
  destruct H1 as (w1 & Hw1 & HP1).
  destruct (try_urls_keeps post (WebhookManager.webhook_urls self) (WebhookLog.webhook_id wj)
              success attached _ i w1 Hw1 HP1) as (w2 & Hw2 & HP2).
  destruct (try_urls post (WebhookManager.webhook_urls self) (WebhookLog.webhook_id wj)
              success attached
              (if attached then alter (WebhookLog.set_next_retry_at None) j tbl else tbl))
    as [ [ success' attached' | ] tbl2 ]; simpl in Hw2; [ | eauto ].
  destruct success' as [ [ | ] | ]; [ eauto | | eauto ].
  destruct attached'; [ | eauto ].
  destruct (update_webhook_keeps P (WebhookLog.webhook_id wj) (schedule_retry self (clock j))
              tbl2 i w2 (P_schedule (clock j)) Hw2 HP2) as (w3 & Hw3 & HP3).
  eapply IH; eauto.
Qed.

Lemma send_keeps (post : network) (url : string) (et cid payload : json) (iso wid : string)
    (now' : datetime) (tbl : list WebhookLog.t) (i : nat) (w : WebhookLog.t) :
  tbl !! i = Some w -> P w ->
  exists w', _send_webhook_to_url self post url et cid payload iso wid now' tbl !! i = Some w'
             /\ P w'.
Proof.
  intros Hi Hw. unfold _send_webhook_to_url.
  match goal with
  | |- context [_attempt_webhook_delivery ?p ?u ?w0 (?t ++ ?r)] =>
      assert (H1 : (t ++ r) !! i = Some w) by (apply lookup_app_l_Some; exact Hi);
      destruct (attempt_keeps p u w0 (t ++ r) i w H1 Hw) as (w1 & Hw1 & HP1);
      destruct (_attempt_webhook_delivery p u w0 (t ++ r)) as [ ok tbl1 ]
  end.
  simpl in Hw1. destruct ok; [ eauto | ].
  apply (update_webhook_keeps P wid _ tbl1 i w1); auto.
Qed.

(** One operation, for a row that no sweep selects while it has [P], or
    for any row when clearing [next_retry_at] keeps [P]. *)
Lemma delivery_step_keeps (tbl tbl' : list WebhookLog.t) (i : nat) (w : WebhookLog.t) :
  ((forall now w, P w -> due_for_retry now w = false)
   \/ forall w, P w -> P (WebhookLog.set_next_retry_at None w)) ->
  delivery_step self tbl tbl' -> tbl !! i = Some w -> P w ->
  exists w', tbl' !! i = Some w' /\ P w'.
Proof.
  intros Hreset Hstep Hi Hw. destruct Hstep.
  - eapply send_keeps; eassumption.
  - eapply retry_loop_keeps; [ | exact Hi | exact Hw ].
    destruct Hreset as [ Hnever | Hreset ]; [ left | right; exact Hreset ].
    intros Hin. destruct (pending_from_selected now tbl 0 i Hin) as (w0 & Hw0 & Hdue & _).
    rewrite Nat.sub_0_r, Hi in Hw0. injection Hw0 as <-.
    rewrite (Hnever now w Hw) in Hdue. discriminate.
Qed.

Lemma delivery_steps_keep (tbl tbl' : list WebhookLog.t) (i : nat) :
  ((forall now w, P w -> due_for_retry now w = false)
   \/ forall w, P w -> P (WebhookLog.set_next_retry_at None w)) ->
  delivery_steps self tbl tbl' ->
  forall w, tbl !! i = Some w -> P w -> exists w', tbl' !! i = Some w' /\ P w'.
Proof.
  intros Hreset Hsteps. induction Hsteps as [ tbl | tbl1 tbl2 tbl3 Hstep Hsteps IH ];
    intros w Hi Hw; [ eauto | ].
  destruct (delivery_step_keeps _ _ i w Hreset Hstep Hi Hw) as (w2 & Hw2 & HP2).
  apply (IH w2 Hw2 HP2).
Qed.

End RowInvariant.

(** X12. Over any sequence of sends and sweeps a delivered row stays
    delivered, and no sweep selects it. *)
Theorem delivered_is_final (tbl tbl' : list WebhookLog.t) (i : nat) (w : WebhookLog.t) :
  delivery_steps self tbl tbl' ->
  tbl !! i = Some w ->
  WebhookLog.delivered w = true ->
  exists w',
    tbl' !! i = Some w'
    /\ WebhookLog.delivered w' = true
    /\ forall now, ~ In i (pending_webhooks now tbl').
Proof.
  intros Hsteps Hi Hw.
  destruct (delivery_steps_keep (fun w => WebhookLog.delivered w = true)) with
    (tbl := tbl) (tbl' := tbl') (i := i) (w := w) as (w' & Hw' & Hd); auto.
  - intros now w0 Hd. unfold schedule_retry.
    destruct (WebhookLog.retry_count w0 <? WebhookLog.max_retries w0); [ | exact Hd ].
    destruct (retry_time self now _); exact Hd.
  - exists w'. split; [ exact Hw' | ]. split; [ exact Hd | ].
    intros now Hin. destruct (selected_is_due now tbl' i Hin) as (w0 & Hw0 & Hdue).
    rewrite Hw' in Hw0. injection Hw0 as <-.
    rewrite due_for_retry_delivered in Hdue by exact Hd. discriminate.
Qed.

Lemma row_evolves_refl (w : WebhookLog.t) : row_evolves w w.
Proof. unfold row_evolves. repeat split; auto. lia. Qed.

Lemma length_try_urls (post : network) (urls : list string) (wid : string)
    (success : option bool) (attached : bool) (tbl : list WebhookLog.t) :
  length (snd (try_urls post urls wid success attached tbl)) = length tbl.
Proof.
  revert success attached tbl.
  induction urls as [ | url urls IH ]; intros success attached tbl; simpl; [ reflexivity | ].
  destruct attached; [ | reflexivity ].
  pose proof (length_attempt post url wid tbl) as Hatt.
  destruct (_attempt_webhook_delivery post url wid tbl) as [ ok t1 ]. simpl in Hatt.
  destruct ok; simpl; [ exact Hatt | rewrite IH; exact Hatt ].
Qed.

Lemma length_retry_loop (post : network) (clock : nat -> datetime) (selected : list nat)
    (success : option bool) (attached : bool) (tbl : list WebhookLog.t) :
  length (retry_loop self post clock selected success attached tbl) = length tbl.
Proof.
  revert success attached tbl.
  induction selected as [ | j rest IH ]; intros success attached tbl; simpl; [ reflexivity | ].
  destruct (tbl !! j) as [ wj | ]; [ | reflexivity ].
  pose proof (length_try_urls post (WebhookManager.webhook_urls self) (WebhookLog.webhook_id wj)
                success attached
                (if attached then alter (WebhookLog.set_next_retry_at None) j tbl else tbl))
    as Hlen.
  assert (Hl1 : length (if attached then alter (WebhookLog.set_next_retry_at None) j tbl
                        else tbl) = length tbl)
    by (destruct attached; [ apply length_alter | reflexivity ]).
  destruct (try_urls post (WebhookManager.webhook_urls self) (WebhookLog.webhook_id wj)
              success attached
              (if attached then alter (WebhookLog.set_next_retry_at None) j tbl else tbl))
    as [ [ success' attached' | ] tbl2 ]; simpl in Hlen; [ | congruence ].
  destruct success' as [ [ | ] | ]; [ | | congruence ].
  - rewrite IH. congruence.
  - destruct attached'; [ | congruence ].
    rewrite IH. unfold _schedule_webhook_retry. rewrite length_update_webhook. congruence.
Qed.

Lemma delivery_step_length (tbl tbl' : list WebhookLog.t) :
  delivery_step self tbl tbl' -> (length tbl <= length tbl')%nat.
Proof.
  intros Hstep. destruct Hstep.
  - unfold _send_webhook_to_url.
    match goal with
    | |- context [_attempt_webhook_delivery ?p ?u ?w0 (?t ++ ?r)] =>
        pose proof (length_attempt p u w0 (t ++ r)) as Hlen;
        destruct (_attempt_webhook_delivery p u w0 (t ++ r)) as [ ok tbl1 ]
    end.
    simpl in Hlen. rewrite length_app in Hlen. simpl in Hlen.
    destruct ok; unfold _schedule_webhook_retry; rewrite ?length_update_webhook; lia.
  - unfold process_webhook_retries. rewrite length_retry_loop. lia.
Qed.

(** X13. Over any sequence of sends and sweeps no row is removed or
    moved, and a row keeps its [webhook_id], [call_id], event type, payload
    and cap; its [retry_count] never decreases. *)
Theorem rows_only_evolve (tbl tbl' : list WebhookLog.t) (i : nat) (w : WebhookLog.t) :
  delivery_steps self tbl tbl' ->
  tbl !! i = Some w ->
  (length tbl <= length tbl')%nat
  /\ exists w', tbl' !! i = Some w' /\ row_evolves w w'.
Proof.
  intros Hsteps Hi. split.
  - clear Hi. induction Hsteps as [ tbl | tbl1 tbl2 tbl3 Hstep Hsteps IH ]; [ lia | ].
    apply delivery_step_length in Hstep. lia.
  - assert (Hsched : forall now w0, row_evolves w w0 -> row_evolves w (schedule_retry self now w0)).
    { intros now w0 Hw0. unfold schedule_retry.
      destruct (WebhookLog.retry_count w0 <? WebhookLog.max_retries w0); [ | exact Hw0 ].
      destruct (retry_time self now _); [ | exact Hw0 ].
      unfold row_evolves in *. simpl. intuition lia. }
    assert (Hreset : forall w0, row_evolves w w0 ->
                                row_evolves w (WebhookLog.set_next_retry_at None w0))
      by (intros w0 Hw0; exact Hw0).
    apply (delivery_steps_keep (row_evolves w)
             (fun v w0 Hw0 => Hw0) (fun v w0 Hw0 => Hw0)
             (fun w0 Hw0 => ltac:(unfold row_evolves in *; simpl; intuition))
             Hsched tbl tbl' i (or_intror Hreset) Hsteps w Hi (row_evolves_refl w)).
Qed.

Lemma webhook_ids_try_urls (post : network) (urls : list string) (wid : string)
    (success : option bool) (attached : bool) (tbl : list WebhookLog.t) :
  webhook_ids (snd (try_urls post urls wid success attached tbl)) = webhook_ids tbl.
Proof.
  revert success attached tbl.
  induction urls as [ | url urls IH ]; intros success attached tbl; simpl; [ reflexivity | ].
  destruct attached; [ | reflexivity ].
  pose proof (webhook_ids_attempt post url wid tbl) as Hatt.
  destruct (_attempt_webhook_delivery post url wid tbl) as [ ok tbl1 ]. simpl in Hatt.
  destruct ok; simpl; [ exact Hatt | rewrite IH; exact Hatt ].
Qed.

Lemma webhook_ids_schedule (wid : string) (now : datetime) (tbl : list WebhookLog.t) :
  webhook_ids (_schedule_webhook_retry self wid now tbl) = webhook_ids tbl.
Proof. apply webhook_ids_update. intros w. apply schedule_retry_keeps_id. Qed.

Lemma webhook_ids_reset (j : nat) (tbl : list WebhookLog.t) :
  webhook_ids (alter (WebhookLog.set_next_retry_at None) j tbl) = webhook_ids tbl.
Proof.
  unfold webhook_ids. apply list_eq. intros i. rewrite !list_lookup_fmap.
  destruct (decide (i = j)) as [ -> | Hne ].
  - rewrite list_lookup_alter_eq. destruct (tbl !! j); reflexivity.
  - rewrite list_lookup_alter_ne by congruence. reflexivity.
Qed.

Lemma try_urls_lookup_other (post : network) (urls : list string) (wid : string)
    (success : option bool) (attached : bool) (tbl : list WebhookLog.t) (i : nat)
    (w : WebhookLog.t) :
  tbl !! i = Some w -> WebhookLog.webhook_id w <> wid ->
  snd (try_urls post urls wid success attached tbl) !! i = Some w.
Proof.
  revert success attached tbl.
  induction urls as [ | url urls IH ]; intros success attached tbl Hi Hne; simpl;
    [ exact Hi | ].
  destruct attached; [ | exact Hi ].
  pose proof (attempt_lookup_other post url wid tbl i w Hi Hne) as Hatt.
  destruct (_attempt_webhook_delivery post url wid tbl) as [ ok tbl1 ]. simpl in Hatt.
  destruct ok; simpl; [ exact Hatt | apply IH; assumption ].
Qed.

Lemma distinct_rows_distinct_ids (tbl : list WebhookLog.t) (i j : nat) (w wj : WebhookLog.t) :
  NoDup (webhook_ids tbl) -> tbl !! i = Some w -> tbl !! j = Some wj -> j <> i ->
  WebhookLog.webhook_id w <> WebhookLog.webhook_id wj.
Proof.
  intros Hnd Hi Hj Hji Heq. apply Hji.
  apply (NoDup_lookup (webhook_ids tbl) j i (WebhookLog.webhook_id wj)); [ exact Hnd | | ];
    unfold webhook_ids; rewrite list_lookup_fmap; [ rewrite Hj | rewrite Hi ]; simpl;
    congruence.
Qed.

Lemma retry_loop_leaves_unselected (post : network) (clock : nat -> datetime)
    (selected : list nat) (i : nat) (w : WebhookLog.t) :
  ~ In i selected ->
  forall (success : option bool) (attached : bool) (tbl : list WebhookLog.t),
    NoDup (webhook_ids tbl) -> tbl !! i = Some w ->
    retry_loop self post clock selected success attached tbl !! i = Some w.
Proof.
  induction selected as [ | j rest IH ]; intros Hnot success attached tbl Hnd Hi; simpl;
    [ exact Hi | ].
  assert (Hji : j <> i) by (intros ->; apply Hnot; left; reflexivity).
  assert (Hrest : ~ In i rest) by (intros Hin; apply Hnot; right; exact Hin).
  destruct (tbl !! j) as [ wj | ] eqn:Hj; [ | exact Hi ].
  pose proof (distinct_rows_distinct_ids tbl i j w wj Hnd Hi Hj Hji) as Hne.
  assert (Hi1 : (if attached then alter (WebhookLog.set_next_retry_at None) j tbl else tbl) !! i
                = Some w).
  { destruct attached; [ | exact Hi ]. rewrite list_lookup_alter_ne by exact Hji. exact Hi. }
  assert (Hids1 : webhook_ids (if attached then alter (WebhookLog.set_next_retry_at None) j tbl
                               else tbl) = webhook_ids tbl)
    by (destruct attached; [ apply webhook_ids_reset | reflexivity ]).
  pose proof (try_urls_lookup_other post (WebhookManager.webhook_urls self)
                (WebhookLog.webhook_id wj) success attached _ i w Hi1 Hne) as Hi2.
  pose proof (webhook_ids_try_urls post (WebhookManager.webhook_urls self)
                (WebhookLog.webhook_id wj) success attached
                (if attached then alter (WebhookLog.set_next_retry_at None) j tbl else tbl))
    as Hids.
  rewrite Hids1 in Hids.
  destruct (try_urls post (WebhookManager.webhook_urls self) (WebhookLog.webhook_id wj)
              success attached
              (if attached then alter (WebhookLog.set_next_retry_at None) j tbl else tbl))
    as [ [ success' attached' | ] tbl2 ]; simpl in Hi2, Hids; [ | exact Hi2 ].
  destruct success' as [ [ | ] | ]; [ | | exact Hi2 ].
  - apply IH; [ exact Hrest | rewrite Hids; exact Hnd | exact Hi2 ].
  - destruct attached'; [ | exact Hi2 ].
    apply IH; [ exact Hrest | rewrite webhook_ids_schedule, Hids; exact Hnd | ].
    apply update_webhook_lookup_other; assumption.
Qed.

(** X14. With distinct webhook identifiers, a sweep leaves every row that
    is not due (delivered, out of retries, or planned for later or not at
    all) exactly as it was. *)
Theorem sweep_leaves_rows_not_due (post : network) (now : datetime) (clock : nat -> datetime)
    (tbl : list WebhookLog.t) (i : nat) (w : WebhookLog.t) :
  NoDup (webhook_ids tbl) ->
  tbl !! i = Some w ->
  due_for_retry now w = false ->
  process_webhook_retries self post now clock tbl !! i = Some w.
Proof.
  intros Hnd Hi Hdue. apply retry_loop_leaves_unselected; [ | exact Hnd | exact Hi ].
  intros Hin. destruct (selected_is_due now tbl i Hin) as (w0 & Hw0 & Hd).
  rewrite Hi in Hw0. injection Hw0 as <-. congruence.
Qed.












End DeliveryProperties.

(** ** Outbound deliveries on sample data *)

(** With the default settings (three retries, sixty seconds) and a target
    on which every attempt times out: retries are planned 120, 240 and 480
    seconds ahead, and the sweep that follows the third leaves the row as
    it is. *)
Example retry_lifecycle :
  map retry_bookkeeping
    (_send_webhook_to_url sample_manager sample_network_timeout "https://crm.example/hook"
       (JStr "call_ended") (JStr "c1") (JObj []) "2024-01-01T00:00:00" "w1" 0 [])
  = [(1, Some (timedelta_seconds 120), false)]
  /\ map retry_bookkeeping (sample_sweep_timeout (timedelta_seconds 200) sample_sent)
     = [(2, Some (timedelta_seconds (200 + 240)), false)]
  /\ map retry_bookkeeping
       (sample_sweep_timeout (timedelta_seconds 500)
          (sample_sweep_timeout (timedelta_seconds 200) sample_sent))
     = [(3, Some (timedelta_seconds (500 + 480)), false)]
  /\ sample_sweep_timeout (timedelta_seconds 1000)
       (sample_sweep_timeout (timedelta_seconds 500)
          (sample_sweep_timeout (timedelta_seconds 200) sample_sent))
     = sample_sweep_timeout (timedelta_seconds 500)
         (sample_sweep_timeout (timedelta_seconds 200) sample_sent).
Proof.
  split; [ vm_compute; reflexivity | ].
  split; [ vm_compute; reflexivity | ].
  split; vm_compute; reflexivity.
Qed.

(** With a target that answers 503: the first attempt plans a retry 120
    seconds ahead; the sweep that makes it records the answer, plans
    nothing, and no later sweep selects the row, one retry out of three
    being used. *)
Example retries_end_after_answer :
  map retry_bookkeeping sample_sent = [(1, Some (timedelta_seconds 120), false)]
  /\ map retry_bookkeeping (sample_sweep (timedelta_seconds 200) sample_sent)
     = [(1, None, false)]
  /\ pending_webhooks (timedelta_seconds 1000) (sample_sweep (timedelta_seconds 200) sample_sent)
     = [].
Proof.
  split; [ vm_compute; reflexivity | ]. split; vm_compute; reflexivity.
Qed.




Lemma delivered_is_final_witness :
  delivery_steps sample_manager [sample_delivered_row]
    (sample_sweep (timedelta_seconds 1000) [sample_delivered_row])
  /\ [sample_delivered_row] !! 0%nat = Some sample_delivered_row
  /\ WebhookLog.delivered sample_delivered_row = true
  /\ exists w',
      sample_sweep (timedelta_seconds 1000) [sample_delivered_row] !! 0%nat = Some w'
      /\ WebhookLog.delivered w' = true.
Proof.
  assert (Hsteps : delivery_steps sample_manager [sample_delivered_row]
                     (sample_sweep (timedelta_seconds 1000) [sample_delivered_row]))
    by (apply (steps_cons _ _ _ _
                 (step_sweep _ sample_network_down (timedelta_seconds 1000)
                    (fun _ => timedelta_seconds 1000) _) (steps_nil _ _))).
  split; [ exact Hsteps | ]. split; [ reflexivity | ]. split; [ reflexivity | ].
  destruct (delivered_is_final sample_manager _ _ 0%nat sample_delivered_row Hsteps
              eq_refl eq_refl)
    as (w' & Hw' & Hd & _).
  exists w'. split; [ exact Hw' | exact Hd ].
Defined.

Lemma rows_only_evolve_witness :
  delivery_steps sample_manager [sample_planned_row]
    (sample_sweep_timeout (timedelta_seconds 200) [sample_planned_row])
  /\ [sample_planned_row] !! 0%nat = Some sample_planned_row
  /\ (1 <= length (sample_sweep_timeout (timedelta_seconds 200) [sample_planned_row]))%nat
  /\ exists w',
      sample_sweep_timeout (timedelta_seconds 200) [sample_planned_row] !! 0%nat = Some w'
      /\ row_evolves sample_planned_row w'.
Proof.
  assert (Hsteps : delivery_steps sample_manager [sample_planned_row]
                     (sample_sweep_timeout (timedelta_seconds 200) [sample_planned_row]))
    by (apply (steps_cons _ _ _ _
                 (step_sweep _ sample_network_timeout (timedelta_seconds 200)
                    (fun _ => timedelta_seconds 200) _) (steps_nil _ _))).
  split; [ exact Hsteps | ]. split; [ reflexivity | ].
  apply (rows_only_evolve sample_manager _ _ 0%nat sample_planned_row Hsteps eq_refl).
Defined.

Lemma sweep_leaves_rows_not_due_witness :
  NoDup (webhook_ids [sample_exhausted_row; sample_planned_row])
  /\ [sample_exhausted_row; sample_planned_row] !! 0%nat = Some sample_exhausted_row
  /\ due_for_retry (timedelta_seconds 200) sample_exhausted_row = false
  /\ pending_webhooks (timedelta_seconds 200) [sample_exhausted_row; sample_planned_row]
     = [1%nat]
  /\ process_webhook_retries sample_manager sample_network_down (timedelta_seconds 200)
       (fun _ => timedelta_seconds 201) [sample_exhausted_row; sample_planned_row] !! 0%nat
     = Some sample_exhausted_row.
Proof.
  assert (Hnd : NoDup (webhook_ids [sample_exhausted_row; sample_planned_row])).
  { change (NoDup ["w1"; "w2"]). apply NoDup_cons_2; [ | apply NoDup_singleton ].
    intros Hin. inversion Hin as [ | ? ? ? Hin' ]. inversion Hin'. }
  split; [ exact Hnd | ]. split; [ reflexivity | ]. split; [ reflexivity | ].
  split; [ reflexivity | ].
  apply (sweep_leaves_rows_not_due sample_manager sample_network_down (timedelta_seconds 200)
           (fun _ => timedelta_seconds 201) _ 0%nat sample_exhausted_row Hnd eq_refl eq_refl).
Defined.




(** ** The metrics caches *)

Section MetricsProperties.
Context {metrics : Type}.

(** [collectors.py]: an entry is valid exactly when it is less than
    [cache_ttl] seconds old. *)
Lemma _is_cache_valid_spec (cache_key : string) (now : datetime)
    (cache : gmap string (metrics * datetime)) :
  _is_cache_valid cache_key now cache = true
  <-> exists d t, cache !! cache_key = Some (d, t) /\ now - t < timedelta_seconds cache_ttl.
Proof.
  unfold _is_cache_valid.
  destruct (cache !! cache_key) as [ [d t] | ].
  - rewrite negb_true_iff, <- not_true_iff_false, Qle_bool_iff.
    unfold Qle, total_seconds, inject_Z, timedelta_seconds, cache_ttl, MICROS. simpl.
    split.
    + intros Hnle. exists d, t. split; [ reflexivity | lia ].
    + intros (d' & t' & Heq & Hlt). injection Heq as <- <-. lia.
  - split; [ discriminate | intros (d & t & Heq & _); discriminate ].
Qed.

(** [collectors.py]: a valid entry is served, and nothing older is. *)
Lemma collectors_serve_fresh_only (cache_key : string) (now now' : datetime)
    (compute : query_outcome) (empty : metrics) (cache : gmap string (metrics * datetime))
    (d : metrics) (t : datetime) :
  cache !! cache_key = Some (d, t) ->
  (now - t < timedelta_seconds cache_ttl ->
   collectors_collect_daily_metrics cache_key now now' compute empty cache = (d, cache))
  /\ (timedelta_seconds cache_ttl <= now - t ->
      forall m, compute = Summary m ->
      collectors_collect_daily_metrics cache_key now now' compute empty cache
      = (m, <[cache_key := (m, now')]> cache)).
Proof.
  intros Hentry. unfold collectors_collect_daily_metrics. split.
  - intros Hfresh.
    assert (Hv : _is_cache_valid cache_key now cache = true)
      by (apply _is_cache_valid_spec; eauto).
    rewrite Hv, Hentry. reflexivity.
  - intros Hold m ->.
    destruct (_is_cache_valid cache_key now cache) eqn:Hv; [ | reflexivity ].
    apply _is_cache_valid_spec in Hv. destruct Hv as (d' & t' & Heq & Hlt).
    rewrite Hentry in Heq. injection Heq as <- <-. lia.
Qed.

(** [metrics.py]: what decides whether an entry is served is the seconds
    field of its age, which forgets whole days. *)
Lemma metrics_served_iff (cache_key : string) (now now' : datetime) (fresh empty : metrics)
    (cache : gmap string (metrics * datetime)) (d : metrics) (t : datetime) :
  cache !! cache_key = Some (d, t) ->
  metrics_collect_daily_metrics cache_key now now' (Some fresh) empty cache =
  if (((now - t) / MICROS) mod 86400 <? cache_duration) then (d, cache)
  else (fresh, <[cache_key := (fresh, now')]> cache).
Proof.
  intros Hentry. unfold metrics_collect_daily_metrics, timedelta_seconds_field.
  rewrite Hentry. reflexivity.
Qed.

(** [metrics.py]: for an entry less than a day old the check is the
    intended one. *)
Lemma metrics_fresh_within_a_day (cache_key : string) (now now' : datetime)
    (fresh empty : metrics) (cache : gmap string (metrics * datetime)) (d : metrics)
    (t : datetime) :
  cache !! cache_key = Some (d, t) ->
  0 <= now - t < timedelta_seconds 86400 ->
  metrics_collect_daily_metrics cache_key now now' (Some fresh) empty cache =
  if now - t <? timedelta_seconds cache_duration then (d, cache)
  else (fresh, <[cache_key := (fresh, now')]> cache).
Proof.
  intros Hentry Hage. rewrite (metrics_served_iff _ _ _ _ _ _ d t Hentry).
  unfold timedelta_seconds, cache_duration, MICROS in *.
  assert (Hq : 0 <= (now - t) / 1000000 < 86400).
  { split; [ apply Z.div_pos; lia | apply Z.div_lt_upper_bound; lia ]. }
  rewrite Z.mod_small by exact Hq.
  destruct (Z.ltb_spec ((now - t) / 1000000) 300) as [ Hlt | Hge ];
    destruct (Z.ltb_spec (now - t) (300 * 1000000)) as [ Hlt' | Hge' ]; try reflexivity; exfalso.
  - assert (300 <= (now - t) / 1000000) by (apply Z.div_le_lower_bound; lia). lia.
  - assert ((now - t) / 1000000 < 300) by (apply Z.div_lt_upper_bound; lia). lia.
Qed.

(** C10 (the code departs from it). An entry stored one day and ten
    seconds before the query, far older than the 300 seconds, is served by
    [collect_daily_metrics] of [monitoring/metrics.py] without
    recomputation, because the check reads [.seconds] (ten) where
    [collectors.py] reads [.total_seconds()]: there the same entry is not
    valid, and the aggregate is recomputed and replaces it. *)
Theorem metrics_cache_serves_day_old_entry (cache_key : string) (old fresh empty : metrics)
    (t0 : datetime) :
  let cache : gmap string (metrics * datetime) := <[cache_key := (old, t0)]> ∅ in
  let now := t0 + timedelta_seconds (86400 + 10) in
  timedelta_seconds cache_duration <= now - t0
  /\ metrics_collect_daily_metrics cache_key now now (Some fresh) empty cache = (old, cache)
  /\ _is_cache_valid cache_key now cache = false
  /\ collectors_collect_daily_metrics cache_key now now (Summary fresh) empty cache
     = (fresh, <[cache_key := (fresh, now)]> cache).
Proof.
  cbn zeta.
  assert (Hage : t0 + timedelta_seconds (86400 + 10) - t0 = 86410000000)
    by (unfold timedelta_seconds, MICROS; lia).
  split; [ rewrite Hage; unfold timedelta_seconds, cache_duration, MICROS; lia | ].
  split.
  - rewrite (metrics_served_iff cache_key _ _ fresh empty _ old t0)
      by apply lookup_insert_eq.
    rewrite Hage. reflexivity.
  - assert (Hv : _is_cache_valid cache_key (t0 + timedelta_seconds (86400 + 10))
                   (<[cache_key := (old, t0)]> (∅ : gmap string (metrics * datetime))) = false).
    { unfold _is_cache_valid. rewrite lookup_insert_eq, Hage. reflexivity. }
    split; [ exact Hv | ].
    unfold collectors_collect_daily_metrics. rewrite Hv. reflexivity.
Qed.

End MetricsProperties.

(** * Further properties *)

(** ** Values *)

Lemma json_eqb_sound : forall a b : json, json_eqb a b = true -> a = b.
Proof.
  fix IH 1.
  intros [ | x | x | x | xs | xs ] [ | y | y | y | ys | ys ]; simpl; try discriminate.
  - reflexivity.
  - intros E. apply Bool.eqb_prop in E. congruence.
  - intros E. apply Z.eqb_eq in E. congruence.
  - intros E. apply String.eqb_eq in E. congruence.
  - intros E. f_equal. revert ys E.
    induction xs as [ | x xs IHxs ]; intros [ | y ys ] E; try discriminate; [ reflexivity | ].
    apply andb_true_iff in E. destruct E as [ E1 E2 ].
    f_equal; [ apply IH; exact E1 | apply IHxs; exact E2 ].
  - intros E. f_equal. revert ys E.
    induction xs as [ | [k x] xs IHxs ]; intros [ | [k' y] ys ] E; try discriminate;
      [ reflexivity | ].
    apply andb_true_iff in E. destruct E as [ E12 E3 ].
    apply andb_true_iff in E12. destruct E12 as [ E1 E2 ].
    apply String.eqb_eq in E1.
    f_equal; [ f_equal; [ exact E1 | apply IH; exact E2 ] | apply IHxs; exact E3 ].
Qed.

Lemma json_eqb_neq (a b : json) : a <> b -> json_eqb a b = false.
Proof.
  intros Hne. destruct (json_eqb a b) eqn:E; [ | reflexivity ].
  exfalso. apply Hne. apply json_eqb_sound. exact E.
Qed.

(** An assignment to the record of one [call_id] is not seen by a query
    for another. *)
Lemma find_call_update_other (cid cid' : json) (f : CallLog.t -> CallLog.t)
    (tbl : list CallLog.t) :
  (forall c, CallLog.call_id (f c) = CallLog.call_id c) ->
  cid' <> cid ->
  find_call cid' (update_call cid f tbl) = find_call cid' tbl.
Proof.
  intros Hf Hne. induction tbl as [ | x tbl IH ]; simpl; [ reflexivity | ].
  destruct (json_eqb (CallLog.call_id x) cid) eqn:E; simpl.
  - rewrite Hf. apply json_eqb_sound in E.
    rewrite (json_eqb_neq (CallLog.call_id x) cid') by congruence. reflexivity.
  - rewrite IH. reflexivity.
Qed.

Lemma find_call_app_other (cid' : json) (tbl : list CallLog.t) (c : CallLog.t) :
  CallLog.call_id c <> cid' ->
  find_call cid' (tbl ++ [c]) = find_call cid' tbl.
Proof.
  intros Hne. induction tbl as [ | x tbl IH ]; simpl.
  - rewrite (json_eqb_neq _ _ Hne). reflexivity.
  - destruct (json_eqb (CallLog.call_id x) cid'); [ reflexivity | exact IH ].
Qed.

(** ** Webhook events, continued *)

Section MoreEventProperties.
Context `{PhoneNumbers} `{EventsEnv}.

Ltac unfold_session :=
  unfold bind, ret, raise, query_call, get_pending, modify_pending, assign_call,
    db_add_call, db_add_event, db_io, py_get, py_get_or, declarative_init,
    upsert_customer_in_session; simpl.

Lemma same_snapshot_refl (c : CallLog.t) : same_snapshot c c.
Proof. repeat split. Qed.

Lemma update_call_unmapped (cid : json) (f : CallLog.t -> CallLog.t) (tbl : list CallLog.t) :
  (forall c, f c = c) -> update_call cid f tbl = tbl.
Proof.
  intros Hf. induction tbl as [ | x tbl IH ]; simpl; [ reflexivity | ].
  destruct (json_eqb (CallLog.call_id x) cid); [ rewrite Hf | rewrite IH ]; reflexivity.
Qed.

Lemma find_call_update_cases (cid cid0 : json) (f : CallLog.t -> CallLog.t)
    (tbl : list CallLog.t) (c : CallLog.t) :
  (forall c, CallLog.call_id (f c) = CallLog.call_id c) ->
  find_call cid tbl = Some c ->
  find_call cid (update_call cid0 f tbl) = Some c
  \/ find_call cid (update_call cid0 f tbl) = Some (f c).
Proof.
  intros Hf Hc. destruct (json_eqb cid cid0) eqn:E.
  - apply json_eqb_sound in E. subst cid0. right.
    rewrite find_call_update_same by exact Hf. rewrite Hc. reflexivity.
  - left. rewrite find_call_update_other; [ exact Hc | exact Hf | ].
    intros ->. rewrite json_eqb_refl in E. discriminate.
Qed.

Lemma Forall_update_call (P : CallLog.t -> Prop) (cid : json) (f : CallLog.t -> CallLog.t)
    (tbl : list CallLog.t) :
  (forall c, P c -> P (f c)) -> Forall P tbl -> Forall P (update_call cid f tbl).
Proof.
  intros Hf. induction 1 as [ | x tbl Hx Htbl IH ]; simpl; [ constructor | ].
  destruct (json_eqb (CallLog.call_id x) cid); constructor; auto.
Qed.

(** What a block has done to the session when it ends, by return or by
    exception: assignments to the record of the event's [call_id] that
    keep its snapshot, or one new record for it; [customers] and
    [webhook_logs] are not reached. *)
Lemma block_pending (e : entry) (event : WebhookEvent) (now : datetime) (ss : Session) :
  customers (pending (snd (block_of e event now ss))) = customers (pending ss)
  /\ webhook_logs (pending (snd (block_of e event now ss))) = webhook_logs (pending ss)
  /\ ((exists f, (forall c, same_snapshot c (f c))
                 /\ calls (pending (snd (block_of e event now ss)))
                    = update_call (call_id event) f (calls (pending ss)))
      \/ (find_call (call_id event) (calls (pending ss)) = None
          /\ exists c, CallLog.call_id c = call_id event
                       /\ CallLog.call_connected_at c = None
                       /\ calls (pending (snd (block_of e event now ss)))
                          = calls (pending ss) ++ [c])).
Proof.
  assert (Hid : forall tbl, exists f, (forall c, same_snapshot c (f c))
                                      /\ tbl = update_call (call_id event) f tbl).
  { intros tbl. exists (fun c => c). split; [ intros c; apply same_snapshot_refl | ].
    rewrite update_call_unmapped; reflexivity. }
  destruct ss as [ c p fl ].
  destruct e as [ | h | status error_details | | ]; [ | destruct h | | | ]; simpl;
    try (split; [ reflexivity | ]; split; [ reflexivity | ]; left; apply Hid).
  - (* call.initiated *)
    unfold _handle_call_initiated_block. unfold_session.
    destruct (data event) as [ | | | | | d ]; simpl;
      try (split; [ reflexivity | ]; split; [ reflexivity | ]; left; apply Hid).
    destruct fl as [ | [ | ] fl ]; simpl;
      try (split; [ reflexivity | ]; split; [ reflexivity | ]; left; apply Hid);
      destruct (find_call (call_id event) (calls p)) eqn:Hc; simpl;
      (split; [ reflexivity | ]; split; [ reflexivity | ]).
    all: try (left; eexists; split; [ | reflexivity ]; intros c0; repeat split).
    all: right; split; [ reflexivity | ]; eexists; split; [ | split; [ | reflexivity ] ];
      reflexivity.
  - (* call.completed *)
    unfold _handle_call_completed_block. unfold_session.
    destruct fl as [ | [ | ] fl ]; simpl;
      try (split; [ reflexivity | ]; split; [ reflexivity | ]; left; apply Hid);
      destruct (find_call (call_id event) (calls p)); simpl;
      (split; [ reflexivity | ]; split; [ reflexivity | ]); try (left; apply Hid);
      left; eexists; (split; [ | reflexivity ]); intros c0; repeat split.
  - (* recording.ready *)
    unfold _handle_recording_ready_block. unfold_session.
    destruct fl as [ | [ | ] fl ]; simpl;
      try (split; [ reflexivity | ]; split; [ reflexivity | ]; left; apply Hid);
      destruct (find_call (call_id event) (calls p)); simpl;
      try (split; [ reflexivity | ]; split; [ reflexivity | ]; left; apply Hid);
      destruct (data event); simpl;
      (split; [ reflexivity | ]; split; [ reflexivity | ]); try (left; apply Hid);
      rewrite !update_call_unmapped by reflexivity; left; apply Hid.
  - (* transcript.ready *)
    unfold _handle_transcript_ready_block. unfold_session.
    destruct fl as [ | [ | ] fl ]; simpl;
      try (split; [ reflexivity | ]; split; [ reflexivity | ]; left; apply Hid);
      destruct (find_call (call_id event) (calls p)); simpl;
      try (split; [ reflexivity | ]; split; [ reflexivity | ]; left; apply Hid);
      destruct (data event); simpl;
      (split; [ reflexivity | ]; split; [ reflexivity | ]); try (left; apply Hid);
      rewrite !update_call_unmapped by reflexivity; left; apply Hid.
  - (* error.occurred *)
    unfold _handle_error_occurred_block. unfold_session.
    destruct fl as [ | [ | ] fl ]; simpl;
      try (split; [ reflexivity | ]; split; [ reflexivity | ]; left; apply Hid);
      destruct (find_call (call_id event) (calls p)); simpl;
      try (split; [ reflexivity | ]; split; [ reflexivity | ]; left; apply Hid);
      destruct (data event); simpl;
      (split; [ reflexivity | ]; split; [ reflexivity | ]); try (left; apply Hid);
      rewrite !update_call_unmapped by reflexivity; left; apply Hid.
  - (* _update_call_status *)
    unfold _update_call_status_block. unfold_session.
    destruct fl as [ | [ | ] fl ]; simpl;
      try (split; [ reflexivity | ]; split; [ reflexivity | ]; left; apply Hid);
      destruct (find_call (call_id event) (calls p)); simpl;
      (split; [ reflexivity | ]; split; [ reflexivity | ]); try (left; apply Hid);
      left; eexists; (split; [ | reflexivity ]); intros c0;
      destruct (truthy error_details); repeat split.
  - (* _log_participant_event *)
    unfold _log_participant_event_block, db_commit_rows. unfold_session.
    destruct fl as [ | [ | ] fl ]; simpl;
      try (split; [ reflexivity | ]; split; [ reflexivity | ]; left; apply Hid);
      match goal with |- context [ if ?b then _ else _ ] => destruct b end; simpl;
      (split; [ reflexivity | ]; split; [ reflexivity | ]; left; apply Hid).
  - (* _handle_unknown_event *)
    unfold _handle_unknown_event_block, db_commit_rows. unfold_session.
    destruct fl as [ | [ | ] fl ]; simpl;
      try (split; [ reflexivity | ]; split; [ reflexivity | ]; left; apply Hid);
      match goal with |- context [ if ?b then _ else _ ] => destruct b end; simpl;
      (split; [ reflexivity | ]; split; [ reflexivity | ]; left; apply Hid).
Qed.

(** X1. Applying an event, under any fault schedule, leaves the call
    record of every other [call_id] as it was: a handler only queries and
    assigns the row of the event's own [call_id].  This holds of what is
    committed, whatever the function of [events.py], and already of what
    the block of the function has assigned in its session when it ends. *)
Theorem other_calls_untouched (e : entry) (event : WebhookEvent) (now : datetime) (s : Store)
    (fl : list bool) (ss : Session) (cid' : json) :
  cid' <> call_id event ->
  find_call cid' (calls (snd (apply_event event now s fl))) = find_call cid' (calls s)
  /\ find_call cid' (calls (snd (run (call_entry e event now) s fl))) = find_call cid' (calls s)
  /\ find_call cid' (calls (pending (snd (block_of e event now ss))))
     = find_call cid' (calls (pending ss)).
Proof.
  intros Hne. rewrite apply_event_inert. split; [ reflexivity | ]. split.
  - destruct (entry_keeps_tables e event now s fl) as (-> & _). reflexivity.
  - destruct (block_pending e event now ss)
      as (_ & _ & [ (f & Hf & ->) | (_ & c & Hcid & _ & ->) ]).
    + apply find_call_update_other; [ intros c; apply (Hf c) | exact Hne ].
    + apply find_call_app_other. congruence.
Qed.

(** X2. No event rewrites what a call record was created with: whatever
    the event and the fault schedule, an existing record keeps its
    identifier, [call_id], room, dispatch, customer name, phone, e-mail and
    query, and its [call_connected_at]; the record is never deleted.  This
    holds of what is committed, whatever the function of [events.py], and
    already of what the block of the function has assigned in its session
    when it ends. *)
Theorem snapshot_never_rewritten (e : entry) (event : WebhookEvent) (now : datetime)
    (s : Store) (fl : list bool) (cid : json) (c : CallLog.t) :
  find_call cid (calls s) = Some c ->
  (exists c',
     find_call cid (calls (snd (apply_event event now s fl))) = Some c'
     /\ same_snapshot c c')
  /\ (exists c',
        find_call cid (calls (snd (run (call_entry e event now) s fl))) = Some c'
        /\ same_snapshot c c')
  /\ (exists c',
        find_call cid
          (calls (pending (snd (block_of e event now
                                  {| committed := s; pending := s; faults := fl |})))) = Some c'
        /\ same_snapshot c c').
Proof.
  intros Hc. rewrite apply_event_inert. simpl.
  split; [ exists c; split; [ exact Hc | apply same_snapshot_refl ] | ]. split.
  - destruct (entry_keeps_tables e event now s fl) as (-> & _).
    exists c. split; [ exact Hc | apply same_snapshot_refl ].
  - destruct (block_pending e event now {| committed := s; pending := s; faults := fl |})
      as (_ & _ & [ (f & Hf & ->) | (_ & c0 & Hcid & _ & ->) ]); simpl.
    + destruct (find_call_update_cases cid (call_id event) f (calls s) c
                  (fun c => proj1 (proj2 (Hf c))) Hc) as [ -> | -> ].
      * exists c. split; [ reflexivity | apply same_snapshot_refl ].
      * exists (f c). split; [ reflexivity | apply Hf ].
    + exists c. split; [ apply find_call_app_found; exact Hc | apply same_snapshot_refl ].
Qed.

(** X3. No handler assigns [call_connected_at], not even that of
    [call.connected]: if no record has one, none has one after any
    sequence of events, nor after any sequence of calls of the functions
    of [events.py], nor in the session of a block when it ends. *)
Theorem connected_at_never_set (evs : list (WebhookEvent * datetime))
    (cs : list (entry * WebhookEvent * datetime * list bool)) (e : entry)
    (event : WebhookEvent) (now : datetime) (fl : list bool) (s : Store) :
  Forall (fun c => CallLog.call_connected_at c = None) (calls s) ->
  Forall (fun c => CallLog.call_connected_at c = None) (calls (apply_events evs s))
  /\ Forall (fun c => CallLog.call_connected_at c = None) (calls (call_entries cs s))
  /\ Forall (fun c => CallLog.call_connected_at c = None)
       (calls (pending (snd (block_of e event now
                               {| committed := s; pending := s; faults := fl |})))).
Proof.
  intros Hall. rewrite apply_events_inert. split; [ exact Hall | ]. split.
  - destruct (call_entries_tables cs s) as (-> & _). exact Hall.
  - destruct (block_pending e event now {| committed := s; pending := s; faults := fl |})
      as (_ & _ & [ (f & Hf & ->) | (_ & c0 & _ & Hconn & ->) ]); simpl.
    + apply Forall_update_call; [ | exact Hall ].
      intros c Hc. destruct (Hf c) as (_ & _ & _ & _ & _ & _ & _ & _ & ->). exact Hc.
    + apply Forall_app. split; [ exact Hall | ]. constructor; [ exact Hconn | constructor ].
Qed.

(** X4. [recording.ready] and [transcript.ready] store nothing:
    [recording_url], [recording_duration] and [transcript_url] are not
    columns of [call_logs], so the assignments reach no row, not even in
    the session, and the block raises at [CallEvent(call_log_id=...)]: the
    function returns [False] under any fault schedule, and the store is as
    before. *)
Theorem recording_ready_stores_nothing (event : WebhookEvent) (now : datetime) (s : Store)
    (fl : list bool) (c : CallLog.t) (d : dict) :
  find_call (call_id event) (calls s) = Some c ->
  data event = JObj d ->
  run (_handle_recording_ready event now) s fl = (Returned false, s)
  /\ run (_handle_transcript_ready event now) s fl = (Returned false, s)
  /\ _handle_recording_ready_block event now {| committed := s; pending := s; faults := [] |}
     = (Raised, {| committed := s; pending := s; faults := [] |})
  /\ _handle_transcript_ready_block event now {| committed := s; pending := s; faults := [] |}
     = (Raised, {| committed := s; pending := s; faults := [] |}).
Proof.
  intros Hc Hd.
  split; [ apply guarded_wrapper, recording_block_rolls_back | ].
  split; [ apply guarded_wrapper, transcript_block_rolls_back | ].
  assert (Hs : set_calls (calls s) s = s) by (destruct s; reflexivity).
  split.
  - unfold _handle_recording_ready_block. unfold_session. rewrite Hc, Hd. simpl.
    rewrite !update_call_unmapped by reflexivity. simpl. rewrite !Hs. reflexivity.
  - unfold _handle_transcript_ready_block. unfold_session. rewrite Hc, Hd. simpl.
    rewrite !update_call_unmapped by reflexivity. simpl. rewrite !Hs. reflexivity.
Qed.

(** X5. The details of an error are never stored: [error_details] is not
    a column of [call_logs], and both [_update_call_status], to which
    [_handle_call_failed] hands the error, and [_handle_error_occurred]
    raise at [CallEvent(call_log_id=...)], so that they return [False]
    with the store as before; [_handle_call_failed] itself raises, because
    [self._update_call_status] is not an attribute of the processor. *)
Theorem error_details_never_stored (event : WebhookEvent) (now : datetime) (s : Store)
    (fl : list bool) (error_details : json) :
  run (_update_call_status event "failed" error_details now) s fl = (Returned false, s)
  /\ run (_handle_error_occurred event now) s fl = (Returned false, s)
  /\ run (_handle_call_failed event now) s fl = (Raised, s)
  /\ (forall c,
        find_call (call_id event) (calls s) = Some c ->
        find_call (call_id event)
          (calls (pending (snd (_update_call_status_block event "failed" error_details now
                                  {| committed := s; pending := s; faults := [] |}))))
        = Some (CallLog.set_status "failed" c)).
Proof.
  split; [ apply guarded_wrapper, update_call_status_block_rolls_back | ].
  split; [ apply guarded_wrapper, error_block_rolls_back | ].
  split; [ reflexivity | ].
  intros c Hc. unfold _update_call_status_block. unfold_session. rewrite Hc. simpl.
  rewrite find_call_update_same by (intros c0; destruct (truthy error_details); reflexivity).
  rewrite Hc. simpl. destruct (truthy error_details); reflexivity.
Qed.

(** X6. Only [call.initiated] reaches the [customers] table: applying an
    event of any other type, under any fault schedule, leaves [customers]
    and [webhook_logs] as they were.  As the code is, this holds of every
    function of [events.py], that of [call.initiated] included, whose
    block raises before it calls [_upsert_customer]. *)
Theorem only_initiated_touches_customers (e : entry) (event : WebhookEvent) (now : datetime)
    (s : Store) (fl : list bool) :
  event_type event <> JStr CALL_INITIATED ->
  customers (snd (apply_event event now s fl)) = customers s
  /\ webhook_logs (snd (apply_event event now s fl)) = webhook_logs s
  /\ customers (snd (run (call_entry e event now) s fl)) = customers s
  /\ webhook_logs (snd (run (call_entry e event now) s fl)) = webhook_logs s
  /\ customers (pending (snd (block_of e event now
                                {| committed := s; pending := s; faults := fl |})))
     = customers s
  /\ webhook_logs (pending (snd (block_of e event now
                                   {| committed := s; pending := s; faults := fl |})))
     = webhook_logs s.
Proof.
  intros _. rewrite apply_event_inert. simpl.
  destruct (entry_keeps_tables e event now s fl) as (_ & Hk & Hw).
  destruct (block_pending e event now {| committed := s; pending := s; faults := fl |})
    as (Hk' & Hw' & _).
  repeat split; assumption.
Qed.

(** X7. A [WebhookEventProcessor] cannot be constructed: [__init__] reads
    [self._handle_call_completed] and the handlers after it, which the
    class does not have.  Whatever the sequence of events, [call.initiated]
    followed by [call.completed] included, and whatever the functions of
    [events.py] that are given them, no call record and no customer is
    stored, and every function other than the two that log by [call_id]
    leaves the whole store as it was, returning [False] or raising
    [AttributeError]. *)
Theorem processor_stores_no_call (evs : list (WebhookEvent * datetime))
    (cs : list (entry * WebhookEvent * datetime * list bool)) (e : entry)
    (event : WebhookEvent) (now : datetime) (s : Store) (fl : list bool) :
  WebhookEventProcessor_init = None
  /\ existsb (String.eqb (handler_name handle_call_completed)) WebhookEventProcessor_namespace
     = false
  /\ apply_events evs s = s
  /\ calls (call_entries cs s) = calls s
  /\ customers (call_entries cs s) = customers s
  /\ (logs_by_call_id e = false ->
      run (call_entry e event now) s fl
      = (if delegates e then Raised else Returned false, s)).
Proof.
  split; [ reflexivity | ]. split; [ reflexivity | ].
  split; [ apply apply_events_inert | ].
  destruct (call_entries_tables cs s) as (Hc & Hk & _).
  split; [ exact Hc | ]. split; [ exact Hk | ].
  apply entry_stores_nothing.
Qed.

Lemma real_time_metrics_same_calls (t t' : datetime) (s s' : Store) (fl : list bool) :
  calls s' = calls s ->
  fst (run (get_real_time_metrics t t') s' fl) = fst (run (get_real_time_metrics t t') s fl).
Proof.
  intros E.
  unfold run, get_real_time_metrics, try_except, get_db_session, db_commit,
    db_close, db_rollback, bind, db_io, get_pending, ret.
  destruct fl as [ | [ | ] [ | [ | ] [ | [ | ] fl ] ] ]; cbn; rewrite ?E; reflexivity.
Qed.

(** X23. No event changes which calls count as active for
    [get_real_time_metrics], nor the figures it returns: the status that
    a handler assigns is rolled back with the rest, so that an initiated
    call is still active after [call.answered] or [call.completed]. *)
Theorem active_calls_unchanged (e : entry) (event : WebhookEvent) (now : datetime) (s : Store)
    (fl fl' : list bool) (t t' : datetime) :
  List.filter is_active (calls (snd (run (call_entry e event now) s fl)))
  = List.filter is_active (calls s)
  /\ List.filter is_active (calls (snd (apply_event event now s fl)))
     = List.filter is_active (calls s)
  /\ fst (run (get_real_time_metrics t t') (snd (run (call_entry e event now) s fl)) fl')
     = fst (run (get_real_time_metrics t t') s fl').
Proof.
  destruct (entry_keeps_tables e event now s fl) as (Hc & _).
  rewrite apply_event_inert, Hc. split; [ reflexivity | ]. split; [ reflexivity | ].
  apply real_time_metrics_same_calls. exact Hc.
Qed.

(** ** Normalisation and processing, continued *)

Lemma parse_with_formats_result (str : string) (fmts : list string) (now : datetime) :
  parse_with_formats str fmts now = now
  \/ exists fmt, In fmt fmts /\ strptime str fmt = Some (parse_with_formats str fmts now).
Proof.
  induction fmts as [ | fmt fmts IH ]; simpl; [ left; reflexivity | ].
  destruct (strptime str fmt) as [ t | ] eqn:E.
  - right. exists fmt. split; [ left; reflexivity | exact E ].
  - destruct IH as [ IH | (fmt' & Hin & Hp) ]; [ left; exact IH | ].
    right. exists fmt'. split; [ right; exact Hin | exact Hp ].
Qed.

(** X8. An event that [_parse_webhook_event] returns has a truthy
    [call_id], read under [call_id] or [callId], the source it was given,
    and as timestamp either the clock or what [strptime] made of the
    payload's [timestamp] or [createdAt] with one of the three formats. *)
Theorem parsed_event_wellformed (payload : dict) (src : string) (now : datetime)
    (event : WebhookEvent) :
  _parse_webhook_event payload src now = Some event ->
  truthy (call_id event) = true
  /\ source event = src
  /\ (call_id event = dict_get "call_id" payload \/ call_id event = dict_get "callId" payload)
  /\ (timestamp event = now
      \/ exists str fmt,
           (dict_get "timestamp" payload = JStr str \/ dict_get "createdAt" payload = JStr str)
           /\ In fmt timestamp_formats
           /\ strptime str fmt = Some (timestamp event)).
Proof.
  unfold _parse_webhook_event.
  assert (Hts : forall v, parse_timestamp v now = now
                          \/ exists str fmt, v = JStr str /\ In fmt timestamp_formats
                                /\ strptime str fmt = Some (parse_timestamp v now)).
  { intros v. unfold parse_timestamp. destruct (truthy v); [ | left; reflexivity ].
    destruct v as [ | | | str | | ]; try (left; reflexivity).
    destruct (parse_with_formats_result str timestamp_formats now) as [ E | (fmt & Hin & E) ];
      [ left; exact E | right; exists str, fmt; auto ]. }
  destruct (dict_mem "event_type" payload).
  - destruct (truthy (dict_get "call_id" payload)) eqn:Hid; simpl; [ | discriminate ].
    intros [= <-]. simpl. split; [ exact Hid | ]. split; [ reflexivity | ].
    split; [ left; reflexivity | ].
    destruct (Hts (dict_get "timestamp" payload)) as [ E | (str & fmt & Ev & Hin & E) ];
      [ left; exact E | right; exists str, fmt; auto ].
  - destruct (dict_mem "type" payload); [ | discriminate ].
    destruct (truthy (py_or (dict_get "callId" payload) (dict_get "call_id" payload))) eqn:Hid;
      simpl; [ | discriminate ].
    intros [= <-]. simpl. split; [ exact Hid | ]. split; [ reflexivity | ].
    split; [ unfold py_or; destruct (truthy (dict_get "callId" payload)); auto | ].
    destruct (Hts (py_or (dict_get "createdAt" payload) (dict_get "timestamp" payload)))
      as [ E | (str & fmt & Ev & Hin & E) ]; [ left; exact E | ].
    right. exists str, fmt. split; [ | auto ].
    unfold py_or in Ev. destruct (truthy (dict_get "createdAt" payload)); auto.
Qed.

(** X9. Parsing what [WebhookEvent.to_dict] renders gives the event back:
    type, [call_id] and [data] are those of the event, the source is the
    one given to the parser (the rendered [source] is not read), and the
    timestamp is what [parse_timestamp] makes of the ISO rendering. *)
Theorem parse_to_dict (isoformat : datetime -> string) (event : WebhookEvent)
    (src : string) (now : datetime) :
  truthy (call_id event) = true ->
  _parse_webhook_event (to_dict isoformat event) src now
  = Some {| event_type := event_type event;
            call_id := call_id event;
            timestamp := parse_timestamp (JStr (isoformat (timestamp event))) now;
            data := data event;
            source := src |}.
Proof.
  intros Hid. unfold _parse_webhook_event, to_dict. cbn. rewrite Hid. reflexivity.
Qed.

(** X10. [process_webhook] on a payload that parses to [event]: when the
    payload cannot be logged nothing is applied and the result is [False];
    otherwise the call records, the event log and the customers are those
    of applying [event], and the result is that of the application unless
    updating the webhook log fails. *)
Theorem process_webhook_applies_parsed_event (payload : dict) (src : string) (now : datetime)
    (s : Store) (fl : list bool) (event : WebhookEvent) :
  _parse_webhook_event payload src now = Some event ->
  match _log_webhook (webhook_logs s) payload src with
  | None => receive_webhook payload src now s fl = (false, s)
  | Some (tbl, i) =>
      calls (snd (receive_webhook payload src now s fl))
        = calls (snd (apply_event event now s fl))
      /\ events (snd (receive_webhook payload src now s fl))
         = events (snd (apply_event event now s fl))
      /\ customers (snd (receive_webhook payload src now s fl))
         = customers (snd (apply_event event now s fl))
      /\ fst (receive_webhook payload src now s fl)
         = match _update_webhook_log tbl i (fst (apply_event event now s fl)) with
           | Some _ => fst (apply_event event now s fl)
           | None => false
           end
  end.
Proof.
  intros Hparse. rewrite apply_event_inert.
  unfold receive_webhook, run, process_webhook, log_webhook_in_session,
    update_webhook_log_in_session, try_except, bind, ret.
  cbn. rewrite Hparse.
  destruct (_log_webhook (webhook_logs s) payload src) as [ [tbl i] | ]; [ | reflexivity ].
  cbn. destruct (_update_webhook_log tbl i false); cbn; auto.
Qed.

End MoreEventProperties.

(** ** The further properties on sample data *)

Lemma other_calls_untouched_witness :
  JStr "c1" <> call_id (sample_event CALL_INITIATED "c2" (timedelta_seconds 170) [])
  /\ find_call (JStr "c1")
       (calls (snd (apply_event (sample_event CALL_INITIATED "c2" (timedelta_seconds 170) [])
                      (timedelta_seconds 171) store_initiated [])))
     = find_call (JStr "c1") (calls store_initiated)
  /\ find_call (JStr "c1")
       (calls (pending (snd (_handle_call_initiated_block
                               (sample_event CALL_INITIATED "c2" (timedelta_seconds 170) [])
                               (timedelta_seconds 171)
                               {| committed := store_initiated; pending := store_initiated;
                                  faults := [] |}))))
     = Some sample_call.
Proof.
  assert (Hne : JStr "c1" <> call_id (sample_event CALL_INITIATED "c2" (timedelta_seconds 170) []))
    by (simpl; discriminate).
  split; [ exact Hne | ].
  destruct (other_calls_untouched (via_handler handle_call_initiated)
              (sample_event CALL_INITIATED "c2" (timedelta_seconds 170) [])
              (timedelta_seconds 171) store_initiated []
              {| committed := store_initiated; pending := store_initiated; faults := [] |}
              (JStr "c1") Hne) as (Happly & _ & Hblock).
  split; [ exact Happly | exact Hblock ].
Defined.

Lemma snapshot_never_rewritten_witness :
  find_call (JStr "c1") (calls store_initiated) = Some sample_call
  /\ (exists c',
        find_call (JStr "c1")
          (calls (snd (apply_event (sample_event CALL_COMPLETED "c1" (timedelta_seconds 160) [])
                         (timedelta_seconds 161) store_initiated []))) = Some c'
        /\ same_snapshot sample_call c')
  /\ (exists c',
        find_call (JStr "c1")
          (calls (pending (snd (_handle_call_completed_block
                                  (sample_event CALL_COMPLETED "c1" (timedelta_seconds 160) [])
                                  (timedelta_seconds 161)
                                  {| committed := store_initiated; pending := store_initiated;
                                     faults := [] |})))) = Some c'
        /\ same_snapshot sample_call c').
Proof.
  assert (Hc : find_call (JStr "c1") (calls store_initiated) = Some sample_call)
    by (vm_compute; reflexivity).
  split; [ exact Hc | ].
  destruct (snapshot_never_rewritten (via_handler handle_call_completed)
              (sample_event CALL_COMPLETED "c1" (timedelta_seconds 160) [])
              (timedelta_seconds 161) store_initiated [] (JStr "c1") sample_call Hc)
    as (Happly & _ & Hblock).
  split; [ exact Happly | exact Hblock ].
Defined.

Lemma connected_at_never_set_witness :
  Forall (fun c => CallLog.call_connected_at c = None) (calls store_initiated)
  /\ Forall (fun c => CallLog.call_connected_at c = None)
       (calls (apply_events
                 [ (sample_event CALL_CONNECTED "c1" (timedelta_seconds 110) [],
                    timedelta_seconds 111);
                   (sample_event CALL_COMPLETED "c1" (timedelta_seconds 160) [],
                    timedelta_seconds 161) ] store_initiated))
  /\ Forall (fun c => CallLog.call_connected_at c = None)
       (calls (pending (snd (_update_call_status_block
                               (sample_event CALL_CONNECTED "c1" (timedelta_seconds 110) [])
                               "connected" JNull (timedelta_seconds 111)
                               {| committed := store_initiated; pending := store_initiated;
                                  faults := [] |})))).
Proof.
  assert (Hall : Forall (fun c => CallLog.call_connected_at c = None) (calls store_initiated)).
  { change (calls store_initiated) with [sample_call]. repeat constructor. }
  split; [ exact Hall | ].
  destruct (connected_at_never_set
              [ (sample_event CALL_CONNECTED "c1" (timedelta_seconds 110) [],
                 timedelta_seconds 111);
                (sample_event CALL_COMPLETED "c1" (timedelta_seconds 160) [],
                 timedelta_seconds 161) ]
              [] (via_update_call_status "connected" JNull)
              (sample_event CALL_CONNECTED "c1" (timedelta_seconds 110) [])
              (timedelta_seconds 111) [] store_initiated Hall) as (Hevs & _ & Hblock).
  split; [ exact Hevs | exact Hblock ].
Defined.

Lemma recording_ready_stores_nothing_witness :
  find_call (JStr "c1") (calls store_initiated) = Some sample_call
  /\ data (sample_event RECORDING_READY "c1" (timedelta_seconds 170)
             [("recording_url", JStr "https://rec/1"); ("duration", JNum 58)])
     = JObj [("recording_url", JStr "https://rec/1"); ("duration", JNum 58)]
  /\ run (_handle_recording_ready
            (sample_event RECORDING_READY "c1" (timedelta_seconds 170)
               [("recording_url", JStr "https://rec/1"); ("duration", JNum 58)])
            (timedelta_seconds 171)) store_initiated []
     = (Returned false, store_initiated).
Proof.
  split; [ reflexivity | ]. split; [ reflexivity | ].
  destruct (recording_ready_stores_nothing
              (sample_event RECORDING_READY "c1" (timedelta_seconds 170)
                 [("recording_url", JStr "https://rec/1"); ("duration", JNum 58)])
              (timedelta_seconds 171) store_initiated [] sample_call
              [("recording_url", JStr "https://rec/1"); ("duration", JNum 58)] eq_refl eq_refl)
    as (Hrun & _).
  exact Hrun.
Defined.

Lemma only_initiated_touches_customers_witness :
  event_type (sample_event CALL_COMPLETED "c1" (timedelta_seconds 160) []) <> JStr CALL_INITIATED
  /\ customers (snd (apply_event (sample_event CALL_COMPLETED "c1" (timedelta_seconds 160) [])
                       (timedelta_seconds 161) store_initiated [false; true]))
     = customers store_initiated
  /\ webhook_logs (snd (apply_event (sample_event CALL_COMPLETED "c1" (timedelta_seconds 160) [])
                          (timedelta_seconds 161) store_initiated [false; true]))
     = webhook_logs store_initiated.
Proof.
  assert (Hne : event_type (sample_event CALL_COMPLETED "c1" (timedelta_seconds 160) [])
                <> JStr CALL_INITIATED) by (simpl; discriminate).
  split; [ exact Hne | ].
  destruct (only_initiated_touches_customers (via_handler handle_call_completed)
              (sample_event CALL_COMPLETED "c1" (timedelta_seconds 160) [])
              (timedelta_seconds 161) store_initiated [false; true] Hne)
    as (Hk & Hw & _).
  split; [ exact Hk | exact Hw ].
Defined.

Lemma parsed_event_wellformed_witness :
  _parse_webhook_event sample_payload "livekit" (timedelta_seconds 200)
    = Some (sample_event CALL_COMPLETED "c1" (timedelta_seconds 200) [])
  /\ truthy (call_id (sample_event CALL_COMPLETED "c1" (timedelta_seconds 200) [])) = true
  /\ source (sample_event CALL_COMPLETED "c1" (timedelta_seconds 200) []) = "livekit".
Proof.
  assert (Hp : _parse_webhook_event sample_payload "livekit" (timedelta_seconds 200)
               = Some (sample_event CALL_COMPLETED "c1" (timedelta_seconds 200) []))
    by (vm_compute; reflexivity).
  split; [ exact Hp | ].
  destruct (parsed_event_wellformed sample_payload "livekit" (timedelta_seconds 200)
              (sample_event CALL_COMPLETED "c1" (timedelta_seconds 200) []) Hp)
    as (Htruthy & Hsrc & _).
  split; [ exact Htruthy | exact Hsrc ].
Defined.

Lemma parse_to_dict_witness :
  truthy (call_id (sample_event CALL_COMPLETED "c1" (timedelta_seconds 160) [])) = true
  /\ _parse_webhook_event
       (to_dict (fun _ => "1970-01-01T00:02:40")
          (sample_event CALL_COMPLETED "c1" (timedelta_seconds 160) []))
       "replay" (timedelta_seconds 200)
     = Some {| event_type := JStr CALL_COMPLETED;
               call_id := JStr "c1";
               timestamp := parse_timestamp (JStr "1970-01-01T00:02:40") (timedelta_seconds 200);
               data := JObj [];
               source := "replay" |}.
Proof.
  split; [ reflexivity | ].
  apply (parse_to_dict (fun _ => "1970-01-01T00:02:40")
           (sample_event CALL_COMPLETED "c1" (timedelta_seconds 160) [])
           "replay" (timedelta_seconds 200) eq_refl).
Defined.

(** In the repository [_log_webhook] is not defined: the payload cannot
    be logged, and nothing is applied. *)
Lemma process_webhook_applies_parsed_event_witness :
  _parse_webhook_event sample_payload "livekit" (timedelta_seconds 200)
    = Some (sample_event CALL_COMPLETED "c1" (timedelta_seconds 200) [])
  /\ receive_webhook sample_payload "livekit" (timedelta_seconds 200) store_initiated []
     = (false, store_initiated).
Proof.
  assert (Hp : _parse_webhook_event sample_payload "livekit" (timedelta_seconds 200)
               = Some (sample_event CALL_COMPLETED "c1" (timedelta_seconds 200) []))
    by (vm_compute; reflexivity).
  split; [ exact Hp | ].
  exact (process_webhook_applies_parsed_event sample_payload "livekit"
           (timedelta_seconds 200) store_initiated []
           (sample_event CALL_COMPLETED "c1" (timedelta_seconds 200) []) Hp).
Defined.

(** ** The phone validator *)

Section PhoneProperties.
Context `{PhoneNumbers}.

(** X17. [validate_phone_number] always returns the dictionary with its
    eleven keys, and it is either valid, with no error and an E.164 string
    that [format_for_dialing] returns, or invalid, with a non-empty error
    message and no formatted number, for which [format_for_dialing] returns
    [None]; [is_valid_phone] is its [is_valid] entry. *)
Theorem validation_valid_or_error (phone_number : json) (region : option string) :
  exists result,
    validate_phone_number phone_number region = JObj result
    /\ map fst result = map fst validation_result_init
    /\ is_valid_phone phone_number region = dict_get "is_valid" result
    /\ ((dict_get "is_valid" result = JBool true
         /\ dict_get "error" result = JNull
         /\ exists e164,
              dict_get "formatted_e164" result = JStr e164
              /\ format_for_dialing phone_number region = JStr e164)
        \/ (dict_get "is_valid" result = JBool false
            /\ (exists msg, dict_get "error" result = JStr msg /\ msg <> "")
            /\ dict_get "formatted_national" result = JNull
            /\ dict_get "formatted_international" result = JNull
            /\ dict_get "formatted_e164" result = JNull
            /\ format_for_dialing phone_number region = JNull)).
Proof.
  unfold format_for_dialing, is_valid_phone, validate_phone_number.
  destruct (phonenumbers_parse phone_number _) as [ parsed | msg | msg ];
    [ destruct (is_valid_number parsed) | | ];
    (eexists; split; [ reflexivity | ]; split; [ reflexivity | ]; split; [ reflexivity | ]).
  - left. split; [ reflexivity | ]. split; [ reflexivity | ].
    eexists. split; reflexivity.
  - right. split; [ reflexivity | ]. split; [ eexists; split; [ reflexivity | discriminate ] | ].
    repeat split; reflexivity.
  - right. split; [ reflexivity | ]. split; [ eexists; split; [ reflexivity | discriminate ] | ].
    repeat split; reflexivity.
  - right. split; [ reflexivity | ]. split; [ eexists; split; [ reflexivity | discriminate ] | ].
    repeat split; reflexivity.
Qed.

(** X18. [is_mobile_number] holds exactly when [validate_phone_number]
    finds the number valid with [number_type] [mobile] or
    [fixed_line_or_mobile]. *)
Theorem mobile_agrees_with_validation (phone_number : json) (region : option string) :
  is_mobile_number phone_number region = true
  <-> exists result,
        validate_phone_number phone_number region = JObj result
        /\ dict_get "is_valid" result = JBool true
        /\ (dict_get "number_type" result = JStr "mobile"
            \/ dict_get "number_type" result = JStr "fixed_line_or_mobile").
Proof.
  unfold is_mobile_number, validate_phone_number.
  destruct (phonenumbers_parse phone_number _) as [ parsed | msg | msg ];
    [ destruct (is_valid_number parsed) | | ].
  - destruct (number_type parsed) as [ [] | ]; split.
    all: try (intros _; eexists; split; [ reflexivity | ]; split; [ reflexivity | ];
              (left; reflexivity) || (right; reflexivity)).
    all: try discriminate.
    all: intros (result & Hres & _ & [ Ht | Ht ]); injection Hres as <-; cbn in Ht;
      reflexivity || discriminate.
  - split; [ discriminate | ].
    intros (result & Hres & Hv & _). injection Hres as <-. cbn in Hv. discriminate.
  - split; [ discriminate | ].
    intros (result & Hres & Hv & _). injection Hres as <-. cbn in Hv. discriminate.
  - split; [ discriminate | ].
    intros (result & Hres & Hv & _). injection Hres as <-. cbn in Hv. discriminate.
Qed.

End PhoneProperties.

(** ** The session and the customer helper *)

(** X25. [get_db_session] around any body: when it returns, the body had
    returned that value and everything the body left pending is committed;
    when it raises, because the body raised or the commit failed, nothing
    the body left pending is committed; in both cases the session ends with
    nothing uncommitted.  It returns whenever the body returns and the
    commit does not fail. *)
Theorem get_db_session_commits_or_rolls_back {A : Type} (body : M A) (ss : Session) :
  let ss1 := snd (body ss) in
  let ss' := snd (get_db_session body ss) in
  pending ss' = committed ss'
  /\ match fst (get_db_session body ss) with
     | Returned a => fst (body ss) = Returned a /\ committed ss' = pending ss1
     | Raised => committed ss' = committed ss1
     end
  /\ (forall a, fst (body ss) = Returned a -> hd false (faults ss1) = false ->
      fst (get_db_session body ss) = Returned a).
Proof.
  unfold get_db_session, db_commit, db_close, db_rollback, bind, db_io.
  destruct (body ss) as [ [ a | ] ss1 ]; cbn [fst snd].
  - destruct ss1 as [ cm pd fl ]. cbn [faults committed pending].
    destruct fl as [ | [ | ] fl ]; cbn.
    + split; [ reflexivity | ]. split; [ split; reflexivity | ]. intros a' [= <-] _. reflexivity.
    + split; [ reflexivity | ]. split; [ reflexivity | ]. intros a' _ Hf. discriminate Hf.
    + split; [ reflexivity | ]. split; [ split; reflexivity | ]. intros a' [= <-] _. reflexivity.
  - cbn. split; [ reflexivity | ]. split; [ reflexivity | ]. intros a' Hr. discriminate Hr.
Qed.

Lemma find_customer_phone (phone : json) (tbl : list Customer.t) (c : Customer.t) :
  find_customer phone tbl = Some c -> Customer.phone c = phone.
Proof.
  induction tbl as [ | x tbl IH ]; simpl; [ discriminate | ].
  destruct (json_eqb (Customer.phone x) phone) eqn:Hx; [ | exact IH ].
  intros [= <-]. apply json_eqb_sound. exact Hx.
Qed.

Lemma find_customer_app_fresh (phone : json) (tbl : list Customer.t) (c : Customer.t) :
  find_customer phone tbl = None -> Customer.phone c = phone ->
  find_customer phone (tbl ++ [c]) = Some c.
Proof.
  intros Hnone Hc. induction tbl as [ | x tbl IH ]; simpl in *.
  - rewrite Hc, json_eqb_refl. reflexivity.
  - destruct (json_eqb (Customer.phone x) phone); [ discriminate | auto ].
Qed.

Lemma find_customer_app_other (phone phone' : json) (tbl : list Customer.t) (c : Customer.t) :
  Customer.phone c = phone -> phone' <> phone ->
  find_customer phone' (tbl ++ [c]) = find_customer phone' tbl.
Proof.
  intros Hc Hne. induction tbl as [ | x tbl IH ]; simpl.
  - rewrite Hc. destruct (json_eqb phone phone') eqn:E; [ | reflexivity ].
    apply json_eqb_sound in E. congruence.
  - destruct (json_eqb (Customer.phone x) phone'); [ reflexivity | exact IH ].
Qed.

Lemma find_customer_update_same (phone : json) (f : Customer.t -> Customer.t)
    (tbl : list Customer.t) (c : Customer.t) :
  (forall x, Customer.phone (f x) = Customer.phone x) ->
  find_customer phone tbl = Some c ->
  find_customer phone (update_customer phone f tbl) = Some (f c).
Proof.
  intros Hf. induction tbl as [ | x tbl IH ]; simpl; [ discriminate | ].
  destruct (json_eqb (Customer.phone x) phone) eqn:Hx; simpl.
  - intros [= <-]. rewrite Hf, Hx. reflexivity.
  - rewrite Hx. exact IH.
Qed.

Lemma find_customer_update_other (phone phone' : json) (f : Customer.t -> Customer.t)
    (tbl : list Customer.t) :
  (forall x, Customer.phone (f x) = Customer.phone x) ->
  phone' <> phone ->
  find_customer phone' (update_customer phone f tbl) = find_customer phone' tbl.
Proof.
  intros Hf Hne. induction tbl as [ | x tbl IH ]; simpl; [ reflexivity | ].
  destruct (json_eqb (Customer.phone x) phone) eqn:Hx; simpl.
  - rewrite Hf. apply json_eqb_sound in Hx.
    destruct (json_eqb (Customer.phone x) phone') eqn:Hx'; [ | reflexivity ].
    apply json_eqb_sound in Hx'. congruence.
  - destruct (json_eqb (Customer.phone x) phone'); [ reflexivity | exact IH ].
Qed.

Lemma length_update_customer (phone : json) (f : Customer.t -> Customer.t)
    (tbl : list Customer.t) :
  length (update_customer phone f tbl) = length tbl.
Proof.
  induction tbl as [ | x tbl IH ]; simpl; [ reflexivity | ].
  destruct (json_eqb (Customer.phone x) phone); simpl; congruence.
Qed.

Lemma update_customer_fixed (phone : json) (f : Customer.t -> Customer.t)
    (tbl : list Customer.t) (c : Customer.t) :
  find_customer phone tbl = Some c -> f c = c -> update_customer phone f tbl = tbl.
Proof.
  induction tbl as [ | x tbl IH ]; simpl; [ reflexivity | ].
  destruct (json_eqb (Customer.phone x) phone).
  - intros [= <-] Hf. rewrite Hf. reflexivity.
  - intros Hc Hf. rewrite IH by assumption. reflexivity.
Qed.

Lemma refresh_customer_fields (name email : json) (c : Customer.t) :
  Customer.id (refresh_customer name email c) = Customer.id c
  /\ Customer.name (refresh_customer name email c) = name
  /\ Customer.phone (refresh_customer name email c) = Customer.phone c
  /\ Customer.email (refresh_customer name email c)
     = (if truthy email then email else Customer.email c).
Proof.
  unfold refresh_customer.
  destruct (json_eqb (Customer.name c) name) eqn:Hn; simpl.
  - apply json_eqb_sound in Hn.
    destruct (truthy email); simpl.
    + destruct (json_eqb (Customer.email c) email) eqn:He; simpl.
      * apply json_eqb_sound in He. auto.
      * auto.
    + auto.
  - destruct (truthy email); simpl.
    + destruct (json_eqb (Customer.email c) email) eqn:He; simpl.
      * apply json_eqb_sound in He. auto.
      * auto.
    + auto.
Qed.

Lemma refresh_customer_settled (name email : json) (c : Customer.t) :
  Customer.name c = name ->
  Customer.email c = (if truthy email then email else Customer.email c) ->
  refresh_customer name email c = c.
Proof.
  intros Hn He. unfold refresh_customer.
  rewrite Hn, json_eqb_refl. simpl.
  destruct (truthy email); simpl; [ | reflexivity ].
  rewrite He, json_eqb_refl. reflexivity.
Qed.

Lemma get_or_create_customer_cases (name phone email : json) (ss : Session) :
  get_or_create_customer name phone email ss
  = match faults ss with
    | true :: fl => (Raised, mkSession (committed ss) (pending ss) fl)
    | fl0 =>
        match find_customer phone (customers (pending ss)) with
        | Some old =>
            (Returned (refresh_customer name email old),
             mkSession (committed ss)
               (set_customers
                  (update_customer phone (refresh_customer name email) (customers (pending ss)))
                  (pending ss))
               (tl fl0))
        | None =>
            let c := Customer.mk (S (length (customers (pending ss)))) name phone email in
            let pd := set_customers (customers (pending ss) ++ [c]) (pending ss) in
            match tl fl0 with
            | true :: fl' => (Raised, mkSession (committed ss) pd fl')
            | fl1 => (Returned c, mkSession (committed ss) pd (tl fl1))
            end
        end
    end.
Proof.
  unfold get_or_create_customer, query_customer, db_flush, bind, db_io, get_pending,
    modify_pending, ret.
  destruct ss as [ cm pd fl ]. cbn [faults pending committed].
  destruct fl as [ | [ | ] fl ]; [ | reflexivity | ];
    cbn [faults pending committed tl];
    (destruct (find_customer phone (customers pd)) as [ old | ]; [ reflexivity | ]);
    cbn [faults pending committed tl].
  - reflexivity.
  - destruct fl as [ | [ | ] fl ]; reflexivity.
Qed.

(** X19. When [get_or_create_customer] returns, the customer it returns is
    the one the session now finds under [phone], with the given name; a
    customer that existed keeps its identifier, and its e-mail unless a
    truthy one is given, and no row is added; one that did not is appended
    with the given e-mail.  Customers with another phone, the other tables
    and what is committed are untouched. *)
Theorem get_or_create_customer_result (name phone email : json) (ss ss' : Session)
    (c : Customer.t) :
  get_or_create_customer name phone email ss = (Returned c, ss') ->
  committed ss' = committed ss
  /\ calls (pending ss') = calls (pending ss)
  /\ events (pending ss') = events (pending ss)
  /\ webhook_logs (pending ss') = webhook_logs (pending ss)
  /\ find_customer phone (customers (pending ss')) = Some c
  /\ Customer.name c = name
  /\ Customer.phone c = phone
  /\ match find_customer phone (customers (pending ss)) with
     | None =>
         Customer.email c = email
         /\ customers (pending ss') = customers (pending ss) ++ [c]
     | Some old =>
         Customer.id c = Customer.id old
         /\ Customer.email c = (if truthy email then email else Customer.email old)
         /\ length (customers (pending ss')) = length (customers (pending ss))
     end
  /\ forall phone', phone' <> phone ->
       find_customer phone' (customers (pending ss'))
       = find_customer phone' (customers (pending ss)).
Proof.
  rewrite get_or_create_customer_cases.
  assert (Hkeep : forall x, Customer.phone (refresh_customer name email x) = Customer.phone x)
    by (intros x; apply refresh_customer_fields).
  destruct (find_customer phone (customers (pending ss))) as [ old | ] eqn:Hold.
  - pose proof (refresh_customer_fields name email old) as (Hid & Hname & Hphone & Hemail).
    pose proof (find_customer_phone phone _ old Hold) as Hp.
    assert (Hgo : forall fl,
      (Returned (refresh_customer name email old),
       mkSession (committed ss)
         (set_customers
            (update_customer phone (refresh_customer name email) (customers (pending ss)))
            (pending ss)) fl) = (Returned c, ss') ->
      committed ss' = committed ss
      /\ calls (pending ss') = calls (pending ss)
      /\ events (pending ss') = events (pending ss)
      /\ webhook_logs (pending ss') = webhook_logs (pending ss)
      /\ find_customer phone (customers (pending ss')) = Some c
      /\ Customer.name c = name
      /\ Customer.phone c = phone
      /\ (Customer.id c = Customer.id old
          /\ Customer.email c = (if truthy email then email else Customer.email old)
          /\ length (customers (pending ss')) = length (customers (pending ss)))
      /\ forall phone', phone' <> phone ->
           find_customer phone' (customers (pending ss'))
           = find_customer phone' (customers (pending ss))).
    { intros fl [= <- <-]. cbn [committed pending calls events webhook_logs customers set_customers].
      split; [ reflexivity | ]. split; [ reflexivity | ]. split; [ reflexivity | ].
      split; [ reflexivity | ].
      split; [ apply find_customer_update_same; assumption | ].
      split; [ exact Hname | ]. split; [ congruence | ].
      split; [ split; [ exact Hid | split; [ exact Hemail | apply length_update_customer ] ] | ].
      intros phone' Hne. apply find_customer_update_other; assumption. }
    destruct (faults ss) as [ | [ | ] fl ]; [ apply Hgo | discriminate | apply Hgo ].
  - assert (Hgo : forall fl,
      (Returned (Customer.mk (S (length (customers (pending ss)))) name phone email),
       mkSession (committed ss)
         (set_customers
            (customers (pending ss)
             ++ [Customer.mk (S (length (customers (pending ss)))) name phone email])
            (pending ss)) fl) = (Returned c, ss') ->
      committed ss' = committed ss
      /\ calls (pending ss') = calls (pending ss)
      /\ events (pending ss') = events (pending ss)
      /\ webhook_logs (pending ss') = webhook_logs (pending ss)
      /\ find_customer phone (customers (pending ss')) = Some c
      /\ Customer.name c = name
      /\ Customer.phone c = phone
      /\ (Customer.email c = email
          /\ customers (pending ss') = customers (pending ss) ++ [c])
      /\ forall phone', phone' <> phone ->
           find_customer phone' (customers (pending ss'))
           = find_customer phone' (customers (pending ss))).
    { intros fl [= <- <-]. cbn [committed pending calls events webhook_logs customers set_customers].
      split; [ reflexivity | ]. split; [ reflexivity | ]. split; [ reflexivity | ].
      split; [ reflexivity | ].
      split; [ apply find_customer_app_fresh; [ exact Hold | reflexivity ] | ].
      split; [ reflexivity | ]. split; [ reflexivity | ].
      split; [ split; reflexivity | ].
      intros phone' Hne. apply (find_customer_app_other phone); [ reflexivity | exact Hne ]. }
    cbv zeta.
    destruct (faults ss) as [ | [ | ] fl ]; [ apply Hgo | discriminate | ].
    cbn [tl]. destruct fl as [ | [ | ] fl ]; [ apply Hgo | discriminate | apply Hgo ].
Qed.

(** X20. Calling [get_or_create_customer] again with the same arguments
    returns the same customer and changes nothing (no second row for the
    phone), provided the query does not fail. *)
Theorem get_or_create_customer_again (name phone email : json) (ss ss1 : Session)
    (c : Customer.t) :
  get_or_create_customer name phone email ss = (Returned c, ss1) ->
  hd false (faults ss1) = false ->
  exists ss2,
    get_or_create_customer name phone email ss1 = (Returned c, ss2)
    /\ pending ss2 = pending ss1
    /\ committed ss2 = committed ss1.
Proof.
  intros Hrun Hfault.
  assert (Hc : find_customer phone (customers (pending ss1)) = Some c
               /\ refresh_customer name email c = c).
  { revert Hrun. rewrite get_or_create_customer_cases.
    destruct (find_customer phone (customers (pending ss))) as [ old | ] eqn:Hold.
    - pose proof (refresh_customer_fields name email old) as (Hid & Hname & Hphone & Hemail).
      assert (Hkeep : forall x, Customer.phone (refresh_customer name email x) = Customer.phone x)
        by (intros x; apply refresh_customer_fields).
      assert (Hfix : refresh_customer name email (refresh_customer name email old)
                     = refresh_customer name email old).
      { apply refresh_customer_settled; [ exact Hname | ].
        rewrite Hemail. destruct (truthy email); reflexivity. }
      destruct (faults ss) as [ | [ | ] fl ]; try discriminate;
        intros [= <- <-]; cbn [pending customers set_customers];
        (split; [ apply find_customer_update_same; assumption | exact Hfix ]).
    - cbv zeta.
      assert (Hfix : refresh_customer name email
                       (Customer.mk (S (length (customers (pending ss)))) name phone email)
                     = Customer.mk (S (length (customers (pending ss)))) name phone email).
      { apply refresh_customer_settled; cbn [Customer.name Customer.email]; [ reflexivity | ].
        destruct (truthy email); reflexivity. }
      destruct (faults ss) as [ | [ | ] [ | [ | ] fl ] ]; cbn [tl]; try discriminate;
        intros [= <- <-]; cbn [pending customers set_customers];
        (split; [ apply find_customer_app_fresh; [ exact Hold | reflexivity ] | exact Hfix ]). }
  destruct Hc as (Hfind & Hfix).
  rewrite get_or_create_customer_cases, Hfind, Hfix,
    (update_customer_fixed phone _ _ c Hfind Hfix).
  assert (Hsame : set_customers (customers (pending ss1)) (pending ss1) = pending ss1)
    by (destruct (pending ss1); reflexivity).
  rewrite Hsame.
  destruct (faults ss1) as [ | [ | ] fl1 ]; [ | discriminate | ];
    (eexists; split; [ reflexivity | ]; split; reflexivity).
Qed.

(** ** Metrics *)

Lemma bump_keys (k : string) (buckets : list (string * Z)) :
  map fst (bump k buckets) = map fst buckets.
Proof.
  induction buckets as [ | [k' n] rest IH ]; simpl; [ reflexivity | ].
  destruct (String.eqb k k'); simpl; [ reflexivity | rewrite IH; reflexivity ].
Qed.

Lemma bump_total (k : string) (buckets : list (string * Z)) :
  In k (map fst buckets) -> bucket_total (bump k buckets) = bucket_total buckets + 1.
Proof.
  unfold bucket_total.
  induction buckets as [ | [k' n] rest IH ]; simpl; [ intros [] | ].
  destruct (String.eqb_spec k k') as [ -> | Hne ]; simpl; [ lia | ].
  intros [ Heq | Hin ]; [ congruence | ]. rewrite IH by exact Hin. lia.
Qed.

Lemma bump_nonneg (k : string) (buckets : list (string * Z)) :
  Forall (fun kv => 0 <= snd kv) buckets -> Forall (fun kv => 0 <= snd kv) (bump k buckets).
Proof.
  induction 1 as [ | [k' n] rest Hn Hrest IH ]; simpl; [ constructor | ].
  destruct (String.eqb k k'); constructor; simpl in *; auto; lia.
Qed.

Lemma count_duration_counts (buckets : list (string * Z)) (duration : Z) :
  map fst buckets = map fst duration_buckets ->
  Forall (fun kv => 0 <= snd kv) buckets ->
  map fst (count_duration buckets duration) = map fst duration_buckets
  /\ bucket_total (count_duration buckets duration) = bucket_total buckets + 1
  /\ Forall (fun kv => 0 <= snd kv) (count_duration buckets duration).
Proof.
  intros Hkeys Hpos. unfold count_duration.
  repeat match goal with |- context [ if ?b then _ else _ ] => destruct b end.
  all: rewrite bump_keys; split; [ exact Hkeys | ];
    (split; [ apply bump_total; rewrite Hkeys; simpl; tauto | apply bump_nonneg; exact Hpos ]).
Qed.

Lemma fold_count_duration (durations : list Z) (buckets : list (string * Z)) :
  map fst buckets = map fst duration_buckets ->
  Forall (fun kv => 0 <= snd kv) buckets ->
  map fst (fold_left count_duration durations buckets) = map fst duration_buckets
  /\ bucket_total (fold_left count_duration durations buckets)
     = bucket_total buckets + Z.of_nat (length durations)
  /\ Forall (fun kv => 0 <= snd kv) (fold_left count_duration durations buckets).
Proof.
  revert buckets. induction durations as [ | d ds IH ]; intros buckets Hkeys Hpos.
  - simpl. split; [ exact Hkeys | ]. split; [ lia | exact Hpos ].
  - destruct (count_duration_counts buckets d Hkeys Hpos) as (Hk & Ht & Hp).
    destruct (IH _ Hk Hp) as (Hk' & Ht' & Hp').
    cbn [fold_left]. split; [ exact Hk' | ]. split; [ | exact Hp' ].
    rewrite Ht', Ht. cbn [length]. lia.
Qed.

Lemma window_start_cases (days : Z) (now : datetime) :
  window_start days now
  = if timedelta_in_range (days * 86400 * MICROS)
       && datetime_in_range (now - days * 86400 * MICROS)
    then Some (now - days * 86400 * MICROS)
    else None.
Proof.
  unfold window_start, py_timedelta_days, datetime_sub. cbv zeta.
  destruct (timedelta_in_range (days * 86400 * MICROS)); [ | reflexivity ].
  destruct (datetime_in_range (now - days * 86400 * MICROS)); reflexivity.
Qed.

(** X21. [get_call_duration_distribution] never raises and leaves the
    store as it is.  It returns the empty dictionary when the start of the
    window is out of the range of [timedelta] or of [datetime]
    ([OverflowError]), and when the query or the commit fails; otherwise
    the six buckets, with non-negative counts whose sum is the number of
    calls started in the window that have a [duration_seconds]: each such
    call is counted once. *)
Theorem duration_distribution_total (days : Z) (now : datetime) (s : Store) (fl : list bool) :
  exists buckets,
    run (get_call_duration_distribution days now) s fl = (Returned buckets, s)
    /\ window_start days now
       = (if timedelta_in_range (days * 86400 * MICROS)
             && datetime_in_range (now - days * 86400 * MICROS)
          then Some (now - days * 86400 * MICROS)
          else None)
    /\ match window_start days now with
       | None => buckets = []
       | Some start_date =>
           (buckets = [] /\ (hd false fl = true \/ hd false (tl fl) = true))
           \/ (hd false fl = false /\ hd false (tl fl) = false
               /\ map fst buckets = map fst duration_buckets
               /\ bucket_total buckets
                  = Z.of_nat (length (selected_durations start_date (calls s)))
               /\ Forall (fun kv => 0 <= snd kv) buckets)
       end.
Proof.
  unfold run, get_call_duration_distribution.
  destruct (window_start days now) as [ start_date | ] eqn:Hw.
  - pose proof (fold_count_duration (selected_durations start_date (calls s))
                  duration_buckets eq_refl) as Hfold.
    assert (Hpos : Forall (fun kv : string * Z => 0 <= snd kv) duration_buckets)
      by (repeat constructor; simpl; lia).
    specialize (Hfold Hpos). destruct Hfold as (Hk & Ht & Hp).
    change (bucket_total duration_buckets) with 0 in Ht.
    remember (fold_left count_duration (selected_durations start_date (calls s))
                duration_buckets) as result eqn:Hresult.
    unfold try_except, get_db_session, db_commit, db_close, db_rollback, bind, db_io,
      get_pending, ret.
    destruct fl as [ | [ | ] [ | [ | ] fl ] ]; cbn; rewrite <- ?Hresult.
    all: eexists; split; [ reflexivity | ];
      split; [ rewrite <- window_start_cases; symmetry; exact Hw | ].
    all: first [ left; split; [ reflexivity | ]; (left; reflexivity) || (right; reflexivity)
               | right; split; [ reflexivity | ]; split; [ reflexivity | ];
                 split; [ exact Hk | ]; split; [ lia | exact Hp ] ].
  - exists []. split; [ reflexivity | ].
    split; [ rewrite <- window_start_cases; symmetry; exact Hw | reflexivity ].
Qed.

Lemma length_filter_le {A : Type} (f : A -> bool) (l : list A) :
  (length (List.filter f l) <= length l)%nat.
Proof.
  induction l as [ | x l IH ]; simpl; [ lia | ]. destruct (f x); simpl; lia.
Qed.

(** X22. [get_real_time_metrics] never raises and leaves the store as it
    is; [system_load] is ten times the active calls capped at 100, so
    within [0, 100], and 100 exactly from ten active calls on; the counts
    are those of the table, or all zero, with the later clock, when a
    database operation failed. *)
Theorem real_time_load_bounded (now now' : datetime) (s : Store) (fl : list bool) :
  exists m,
    run (get_real_time_metrics now now') s fl = (Returned m, s)
    /\ 0 <= RealTime.system_load m <= 100
    /\ RealTime.system_load m = Z.min (RealTime.active_calls m * 10) 100
    /\ (RealTime.system_load m = 100 <-> 10 <= RealTime.active_calls m)
    /\ 0 <= RealTime.active_calls m <= Z.of_nat (length (calls s))
    /\ 0 <= RealTime.recent_calls_1h m <= Z.of_nat (length (calls s))
    /\ ((RealTime.active_calls m = Z.of_nat (length (List.filter is_active (calls s)))
         /\ RealTime.recent_calls_1h m
            = Z.of_nat (length (List.filter (started_since (now - timedelta_hours 1)) (calls s)))
         /\ RealTime.timestamp m = now)
        \/ (In true (firstn 3 fl)
            /\ RealTime.active_calls m = 0
            /\ RealTime.recent_calls_1h m = 0
            /\ RealTime.timestamp m = now')).
Proof.
  pose proof (length_filter_le is_active (calls s)) as Ha.
  pose proof (length_filter_le (started_since (now - timedelta_hours 1)) (calls s)) as Hr.
  remember (List.filter is_active (calls s)) as active eqn:Hactive.
  remember (List.filter (started_since (now - timedelta_hours 1)) (calls s)) as recent
    eqn:Hrecent.
  unfold run, get_real_time_metrics, try_except, get_db_session, db_commit,
    db_close, db_rollback, bind, db_io, get_pending, ret.
  destruct fl as [ | [ | ] [ | [ | ] [ | [ | ] fl ] ] ]; cbn; rewrite <- ?Hactive, <- ?Hrecent.
  all: eexists; split; [ reflexivity | ]; cbn [RealTime.system_load RealTime.active_calls
         RealTime.recent_calls_1h RealTime.timestamp].
  all: split; [ lia | ]; split; [ lia | ]; split; [ lia | ]; split; [ lia | ];
    split; [ lia | ].
  all: first [ left; split; [ reflexivity | ]; split; reflexivity
             | right; split; [ simpl; tauto | ]; split; [ reflexivity | ]; split; reflexivity ].
Qed.

Section CacheProperties.
Context {metrics : Type}.

(** X24. [collectors.py]: after a summary was computed and cached at
    [now'], the next query for the same day is served from the cache,
    whatever the database would answer, while less than [cache_ttl] seconds
    have passed, and is recomputed from then on; caching touches no other
    key, and nothing is valid after [clear_cache]. *)
Theorem collectors_cache_round_trip (cache_key : string) (now now' now2 now2' : datetime)
    (m empty : metrics) (compute2 : query_outcome) (cache : gmap string (metrics * datetime)) :
  _is_cache_valid cache_key now cache = false ->
  let cache1 := snd (collectors_collect_daily_metrics cache_key now now' (Summary m) empty cache) in
  fst (collectors_collect_daily_metrics cache_key now now' (Summary m) empty cache) = m
  /\ (forall k, k <> cache_key -> cache1 !! k = cache !! k)
  /\ (now2 - now' < timedelta_seconds cache_ttl ->
      collectors_collect_daily_metrics cache_key now2 now2' compute2 empty cache1 = (m, cache1))
  /\ (timedelta_seconds cache_ttl <= now2 - now' ->
      collectors_collect_daily_metrics cache_key now2 now2' compute2 empty cache1
      = match compute2 with
        | Summary m2 => (m2, <[cache_key := (m2, now2')]> cache1)
        | _ => (empty, cache1)
        end)
  /\ _is_cache_valid cache_key now2 (clear_cache cache1) = false.
Proof.
  intros Hinvalid. unfold collectors_collect_daily_metrics at 1 2. rewrite Hinvalid.
  cbn [fst snd]. unfold _cache_result.
  assert (Hentry : (<[cache_key := (m, now')]> cache) !! cache_key = Some (m, now'))
    by apply lookup_insert_eq.
  split; [ reflexivity | ].
  split; [ intros k Hk; apply lookup_insert_ne; congruence | ].
  split; [ | split ].
  - intros Hfresh.
    apply (proj1 (collectors_serve_fresh_only cache_key now2 now2' compute2 empty _ m now' Hentry)).
    exact Hfresh.
  - intros Hold. unfold collectors_collect_daily_metrics.
    destruct (_is_cache_valid cache_key now2 (<[cache_key := (m, now')]> cache)) eqn:Hv.
    + apply _is_cache_valid_spec in Hv. destruct Hv as (d & t & Heq & Hlt).
      rewrite Hentry in Heq. injection Heq as <- <-. lia.
    + destruct compute2; reflexivity.
  - unfold _is_cache_valid, clear_cache. rewrite lookup_empty. reflexivity.
Qed.

End CacheProperties.

(** ** Customers and caches on sample data *)

Lemma get_or_create_customer_result_witness :
  get_or_create_customer (JStr "A") (JStr "+16502530000") JNull
    {| committed := empty_store; pending := empty_store; faults := [] |}
  = (Returned sample_customer, sample_session)
  /\ find_customer (JStr "+16502530000") (customers (pending sample_session))
     = Some sample_customer
  /\ customers (pending sample_session) = [sample_customer]
  /\ committed sample_session = empty_store.
Proof.
  assert (Hrun : get_or_create_customer (JStr "A") (JStr "+16502530000") JNull
                   {| committed := empty_store; pending := empty_store; faults := [] |}
                 = (Returned sample_customer, sample_session)) by reflexivity.
  split; [ exact Hrun | ].
  destruct (get_or_create_customer_result (JStr "A") (JStr "+16502530000") JNull _ _ _ Hrun)
    as (Hcm & _ & _ & _ & Hfind & _ & _ & Hnew & _).
  split; [ exact Hfind | ]. split; [ apply Hnew | exact Hcm ].
Defined.

Lemma get_or_create_customer_again_witness :
  get_or_create_customer (JStr "A") (JStr "+16502530000") JNull
    {| committed := empty_store; pending := empty_store; faults := [] |}
  = (Returned sample_customer, sample_session)
  /\ hd false (faults sample_session) = false
  /\ exists ss2,
      get_or_create_customer (JStr "A") (JStr "+16502530000") JNull sample_session
      = (Returned sample_customer, ss2)
      /\ pending ss2 = pending sample_session.
Proof.
  assert (Hrun : get_or_create_customer (JStr "A") (JStr "+16502530000") JNull
                   {| committed := empty_store; pending := empty_store; faults := [] |}
                 = (Returned sample_customer, sample_session)) by reflexivity.
  split; [ exact Hrun | ]. split; [ reflexivity | ].
  destruct (get_or_create_customer_again (JStr "A") (JStr "+16502530000") JNull _ _ _ Hrun
              eq_refl)
    as (ss2 & Hagain & Hpending & _).
  exists ss2. split; [ exact Hagain | exact Hpending ].
Defined.

Lemma collectors_cache_round_trip_witness :
  _is_cache_valid "daily_metrics_2024-01-01" (timedelta_seconds 10)
    (∅ : gmap string (Z * Z)) = false
  /\ collectors_collect_daily_metrics "daily_metrics_2024-01-01"
       (timedelta_seconds 100) (timedelta_seconds 101) QueryRaised 0
       (snd (collectors_collect_daily_metrics "daily_metrics_2024-01-01"
               (timedelta_seconds 10) (timedelta_seconds 11) (Summary 7) 0
               (∅ : gmap string (Z * Z))))
     = (7,
        snd (collectors_collect_daily_metrics "daily_metrics_2024-01-01"
               (timedelta_seconds 10) (timedelta_seconds 11) (Summary 7) 0
               (∅ : gmap string (Z * Z)))).
Proof.
  assert (Hinvalid : _is_cache_valid "daily_metrics_2024-01-01" (timedelta_seconds 10)
                       (∅ : gmap string (Z * Z)) = false)
    by (unfold _is_cache_valid; rewrite lookup_empty; reflexivity).
  split; [ exact Hinvalid | ].
  destruct (collectors_cache_round_trip "daily_metrics_2024-01-01"
              (timedelta_seconds 10) (timedelta_seconds 11)
              (timedelta_seconds 100) (timedelta_seconds 101) 7 0 QueryRaised ∅ Hinvalid)
    as (_ & _ & Hfresh & _).
  apply Hfresh. unfold timedelta_seconds, cache_ttl, MICROS. lia.
Defined.
